(** * bgp.tools peer finder: a shallow embedding of [bgp.tools-peerfinder.py]

    The script is a linear pipeline: download the route table (JSON lines),
    derive the ASNs that share a coarse prefix group with the target ASN,
    ask the whois service about them in batches, split them in two sets
    and write two reports.

    Conventions of the embedding.
    - A Python [str] is a [string]; the character [c] stands for the code
      point [nat_of_ascii c], so the texts covered are those whose code
      points are below 256.  [str.strip], [str.split], [in] and [int] are
      written out for that range.
    - A Python [int] is a [Z].  [int(str)] and [str(int)] are modelled
      without the length limit that recent interpreters put on the
      conversion of very long digit strings.
    - A [dict] is a [gmap], a [set] is a [gset]: no result of the script
      depends on the iteration order of either.
    - The network is an explicit argument: the text of a download, the
      answers of the whois server.  [json.loads] belongs to the Python
      library and is an argument as well.
    - The file system is an argument too: whether a file opens, and, in
      [write_results_fs], whether the writes made to it go through.
    - Of what is printed, the model keeps the lines that [run_analysis]
      itself hands to [log], without the time stamp [log] puts in front
      of a line; [time.sleep] has no counterpart. *)

From Stdlib Require Import ZArith Ascii String List Lia.
From Stdlib Require Import SpecFloat.
From stdpp Require Import base option list gmap fin_maps sets strings sorting.

Local Open Scope string_scope.
Local Open Scope list_scope.
Local Open Scope Z_scope.

(** ** Python strings *)

Module Py.

(** [str.isspace] on the code points below 256: TAB..CR, FS..US, SPACE,
    NEL (0x85) and NBSP (0xA0). *)
Definition isspace (c : ascii) : bool :=
  let n := N_of_ascii c in
  ((9 <=? n) && (n <=? 13) || (28 <=? n) && (n <=? 32)
   || (n =? 133) || (n =? 160))%N.

Fixpoint lstrip_by (p : ascii -> bool) (s : string) : string :=
  match s with
  | EmptyString => EmptyString
  | String c r => if p c then lstrip_by p r else s
  end.

Fixpoint rstrip_by (p : ascii -> bool) (s : string) : string :=
  match s with
  | EmptyString => EmptyString
  | String c r =>
      match rstrip_by p r with
      | EmptyString => if p c then EmptyString else String c EmptyString
      | r' => String c r'
      end
  end.

(** [s.strip()] *)
Definition strip (s : string) : string :=
  rstrip_by isspace (lstrip_by isspace s).

(** [s.split(sep)] for a separator of one character: the result is never
    empty, and [n] separators give [n + 1] pieces. *)
Fixpoint split (sep : ascii) (s : string) : list string :=
  match s with
  | EmptyString => [EmptyString]
  | String c r =>
      if Ascii.eqb c sep then EmptyString :: split sep r
      else match split sep r with
           | h :: t => String c h :: t
           | [] => [String c EmptyString]
           end
  end.

(** [sep.join(l)] for a separator of one character *)
Fixpoint join (sep : ascii) (l : list string) : string :=
  match l with
  | [] => EmptyString
  | [x] => x
  | x :: r => x +:+ String sep (join sep r)
  end.

(** [c in s] for a character [c] *)
Fixpoint contains (c : ascii) (s : string) : bool :=
  match s with
  | EmptyString => false
  | String d r => Ascii.eqb d c || contains c r
  end.

(** truth value of a string: [if s:] *)
Definition nonempty (s : string) : bool :=
  match s with EmptyString => false | _ => true end.

(** *** [str(n)] for an integer *)

Definition digit_char (d : Z) : ascii := ascii_of_N (48 + Z.to_N d).

(** The digits of [n >= 0], most significant first, put in front of [acc].
    [fuel] bounds the number of divisions; [Z.log2 n] is enough. *)
Fixpoint str_digits (fuel : nat) (n : Z) (acc : string) : string :=
  let acc' := String (digit_char (n mod 10)) acc in
  match fuel with
  | O => acc'
  | S f => if n <? 10 then acc' else str_digits f (n / 10) acc'
  end.

Definition str_nat (n : Z) : string :=
  str_digits (Z.to_nat (Z.log2 n)) n EmptyString.

Definition str (z : Z) : string :=
  if z <? 0 then String "-" (str_nat (- z)) else str_nat z.

(** *** [int(s)] for a string, base 10

    Grammar: optional white space, an optional sign, digits with single
    underscores allowed between two digits, optional white space.  [None]
    stands for [ValueError].  The white space [int] skips is narrower
    than that of [strip]: FS..US (28..31) are not skipped. *)

Definition int_isspace (c : ascii) : bool :=
  let n := N_of_ascii c in
  ((9 <=? n) && (n <=? 13) || (n =? 32) || (n =? 133) || (n =? 160))%N.

Definition digit_of (c : ascii) : option Z :=
  let n := N_of_ascii c in
  if ((48 <=? n) && (n <=? 57))%N then Some (Z.of_N n - 48) else None.

Inductive int_state := AtStart | AfterDigit | AfterUnderscore.

Fixpoint int_digits (st : int_state) (acc : Z) (s : string) : option Z :=
  match s with
  | EmptyString =>
      match st with AfterDigit => Some acc | _ => None end
  | String c r =>
      match digit_of c with
      | Some d => int_digits AfterDigit (10 * acc + d) r
      | None =>
          if Ascii.eqb c "_" then
            match st with
            | AfterDigit => int_digits AfterUnderscore acc r
            | _ => None
            end
          else None
      end
  end.

Definition int (s : string) : option Z :=
  match rstrip_by int_isspace (lstrip_by int_isspace s) with
  | String "+" r => int_digits AtStart 0 r
  | String "-" r => Z.opp <$> int_digits AtStart 0 r
  | t => int_digits AtStart 0 t
  end.

End Py.

(** ** Python values and exceptions *)

(** The exceptions the script can meet.  [RequestError] stands for what
    [requests.get] and [raise_for_status] raise, [OSError] for a failed
    file operation. *)
Inductive pyexn :=
  AttributeError | TypeError | ValueError | OverflowError
| RequestError | OSError.

(** The outcome of a computation that can raise. *)
Inductive result (A : Type) : Type :=
| Ok (a : A)
| Raise (e : pyexn).
Arguments Ok {A} a.
Arguments Raise {A} e.

Global Instance result_ret : MRet result := fun A a => Ok a.
Global Instance result_bind : MBind result := fun A B f m =>
  match m with Ok a => f a | Raise e => Raise e end.

(** What [json.loads] can return.  A float is an IEEE value ([spec_float]);
    [PDict items] is the dict obtained by inserting [items] in order, so a
    later binding of a name hides an earlier one. *)
#[local] Unset Elimination Schemes.
Inductive pyval :=
| PNone
| PBool (b : bool)
| PInt (z : Z)
| PFloat (f : spec_float)
| PStr (s : string)
| PList (l : list pyval)
| PDict (items : list (string * pyval)).
#[local] Set Elimination Schemes.

(** truth value: [if v:] *)
Definition truthy (v : pyval) : bool :=
  match v with
  | PNone => false
  | PBool b => b
  | PInt z => negb (z =? 0)
  | PFloat (S754_zero _) => false
  | PFloat _ => true
  | PStr s => Py.nonempty s
  | PList l => match l with [] => false | _ => true end
  | PDict items => match items with [] => false | _ => true end
  end.

(** [int(x)] for a float: truncation towards zero. *)
Definition int_of_float (f : spec_float) : result Z :=
  match f with
  | S754_zero _ => Ok 0
  | S754_infinity _ => Raise OverflowError
  | S754_nan => Raise ValueError
  | S754_finite s m e =>
      let a := if 0 <=? e then Z.pos m * 2 ^ e else Z.pos m / 2 ^ (- e) in
      Ok (if s then - a else a)
  end.

(** [int(v)] *)
Definition int_of (v : pyval) : result Z :=
  match v with
  | PInt z => Ok z
  | PBool b => Ok (if b then 1 else 0)
  | PFloat f => int_of_float f
  | PStr s => match Py.int s with Some z => Ok z | None => Raise ValueError end
  | PNone | PList _ | PDict _ => Raise TypeError
  end.

Fixpoint assoc_last (k : string) (items : list (string * pyval)) : option pyval :=
  match items with
  | [] => None
  | (k', v) :: r =>
      match assoc_last k r with
      | Some w => Some w
      | None => if String.eqb k' k then Some v else None
      end
  end.

(** [data.get(k)]: only a dict has the method. *)
Definition get (k : string) (data : pyval) : result pyval :=
  match data with
  | PDict items => Ok (default PNone (assoc_last k items))
  | _ => Raise AttributeError
  end.

(** *** Keys of a dict

    Equal keys are one key: [1], [1.0] and [True] are the same, so numbers
    are kept in a normal form, [KInt] for every integral value and
    [KFloat] with an odd mantissa and a negative exponent, an infinity or
    the NaN for the others. *)
Inductive pykey :=
| KNone
| KStr (s : string)
| KInt (z : Z)
| KFloat (f : spec_float).

Fixpoint odd_part (m : positive) (e : Z) : positive * Z :=
  match m with
  | xO p => odd_part p (e + 1)
  | _ => (m, e)
  end.

Definition float_key (f : spec_float) : pykey :=
  match f with
  | S754_zero _ => KInt 0
  | S754_finite s m e =>
      let '(m', e') := odd_part m e in
      if 0 <=? e' then
        KInt (if s then - (Z.pos m' * 2 ^ e') else Z.pos m' * 2 ^ e')
      else KFloat (S754_finite s m' e')
  | _ => KFloat f
  end.

(** the key under which [d[v] = ...] stores; lists and dicts are not
    hashable *)
Definition key_of (v : pyval) : result pykey :=
  match v with
  | PNone => Ok KNone
  | PBool b => Ok (KInt (if b then 1 else 0))
  | PInt z => Ok (KInt z)
  | PFloat f => Ok (float_key f)
  | PStr s => Ok (KStr s)
  | PList _ | PDict _ => Raise TypeError
  end.

Global Instance spec_float_eq_dec : EqDecision spec_float.
Proof. solve_decision. Defined.

Global Instance pykey_eq_dec : EqDecision pykey.
Proof. solve_decision. Defined.

Definition pykey_enc (k : pykey) : unit + string + Z + (bool + bool + unit + bool * positive * Z) :=
  match k with
  | KNone => inl (inl (inl ()))
  | KStr s => inl (inl (inr s))
  | KInt z => inl (inr z)
  | KFloat (S754_zero s) => inr (inl (inl (inl s)))
  | KFloat (S754_infinity s) => inr (inl (inl (inr s)))
  | KFloat S754_nan => inr (inl (inr ()))
  | KFloat (S754_finite s m e) => inr (inr (s, m, e))
  end.

Definition pykey_dec (x : unit + string + Z + (bool + bool + unit + bool * positive * Z)) : pykey :=
  match x with
  | inl (inl (inl _)) => KNone
  | inl (inl (inr s)) => KStr s
  | inl (inr z) => KInt z
  | inr (inl (inl (inl s))) => KFloat (S754_zero s)
  | inr (inl (inl (inr s))) => KFloat (S754_infinity s)
  | inr (inl (inr _)) => KFloat S754_nan
  | inr (inr (s, m, e)) => KFloat (S754_finite s m e)
  end.

Global Instance pykey_countable : Countable pykey.
Proof.
  apply (inj_countable' pykey_enc pykey_dec).
  intros [| | |[]]; reflexivity.
Defined.

(** ** [download_table]

    [response] is what [requests.get] and [raise_for_status] leave: the
    text of the body, or the exception raised.  [loads] stands for
    [json.loads]: [loads line] is [None] when it raises
    [JSONDecodeError].  The decoder [json_loads] defined further down is
    the one meant; the properties of [download_table] need nothing of
    it and are stated for every [loads]. *)
Section DownloadTable.
Variable loads : string -> option pyval.

(** One turn of the loop over the lines: the state is the dict built so
    far and [line_count].  Only [JSONDecodeError] is caught here. *)
Definition table_line (st : gmap pykey Z * nat) (line : string)
  : result (gmap pykey Z * nat) :=
  if Py.nonempty (Py.strip line) then
    match loads line with
    | None => Ok st
    | Some data =>
        cidr ← get "CIDR" data;
        asn ← get "ASN" data;
        if truthy cidr && truthy asn then
          n ← int_of asn;
          k ← key_of cidr;
          Ok (<[k := n]> st.1, S st.2)
        else Ok st
    end
  else Ok st.

Fixpoint table_lines (st : gmap pykey Z * nat) (lines : list string)
  : result (gmap pykey Z * nat) :=
  match lines with
  | [] => Ok st
  | line :: rest => st' ← table_line st line; table_lines st' rest
  end.

(** The body of the [try]: the dict and [line_count], or the exception
    that leaves the loop. *)
Definition parse_table (text : string) : result (gmap pykey Z * nat) :=
  table_lines (∅, O) (Py.split "010" (Py.strip text)).

(** [download_table]: any exception gives the empty dict. *)
Definition download_table (response : result string) : gmap pykey Z :=
  match response ≫= parse_table with
  | Ok (table, _) => table
  | Raise _ => ∅
  end.
End DownloadTable.

(** ** [get_related_asns]

    [network_of prefix] is the grouping key both loops compute: the text
    before the first [/] is cut at the dots when it has one, at the colons
    otherwise, and the first two pieces are put together again. *)
Definition network_of (prefix : string) : option string :=
  if Py.contains "/" prefix then
    let ip_part := hd EmptyString (Py.split "/" prefix) in
    if Py.contains "." ip_part then
      match Py.split "." ip_part with
      | o0 :: o1 :: _ => Some (o0 +:+ "." +:+ o1)
      | _ => None
      end
    else if Py.contains ":" ip_part then
      match Py.split ":" ip_part with
      | p0 :: p1 :: _ => Some (p0 +:+ ":" +:+ p1)
      | _ => None
      end
    else None
  else None.

(** ['/' in prefix] needs a string: any other key raises [TypeError]. *)
Definition key_str (k : pykey) : result string :=
  match k with
  | KStr s => Ok s
  | _ => Raise TypeError
  end.

(** first loop: the keys of the table whose value is the target *)
Definition our_prefixes (target_asn : Z) (table_data : gmap pykey Z) : list pykey :=
  (filter (fun kv => kv.2 = target_asn) (map_to_list table_data)).*1.

(** second loop: the grouping keys of [our_prefixes] *)
Fixpoint networks_loop (prefixes : list pykey) (our_networks : gset string)
  : result (gset string) :=
  match prefixes with
  | [] => Ok our_networks
  | k :: rest =>
      prefix ← key_str k;
      networks_loop rest
        match network_of prefix with
        | Some network => {[network]} ∪ our_networks
        | None => our_networks
        end
  end.

Definition our_networks (target_asn : Z) (table_data : gmap pykey Z)
  : result (gset string) :=
  networks_loop (our_prefixes target_asn table_data) ∅.

(** third loop: the other ASNs of the table whose prefix has one of the
    keys.  The prefix is looked at only when the ASN is not the target. *)
Fixpoint related_loop (target_asn : Z) (our_networks : gset string)
  (items : list (pykey * Z)) (related_asns : gset Z) : result (gset Z) :=
  match items with
  | [] => Ok related_asns
  | (k, asn) :: rest =>
      if decide (asn = target_asn) then
        related_loop target_asn our_networks rest related_asns
      else
        prefix ← key_str k;
        related_loop target_asn our_networks rest
          match network_of prefix with
          | Some network =>
              if decide (network ∈ our_networks)
              then {[asn]} ∪ related_asns else related_asns
          | None => related_asns
          end
  end.

(** [table_data] is the value of the call [self.download_table()] that
    opens the method. *)
Definition get_related_asns (target_asn : Z) (table_data : gmap pykey Z)
  : result (gset Z) :=
  if decide (table_data = ∅) then Ok ∅
  else
    nets ← our_networks target_asn table_data;
    related_loop target_asn nets (map_to_list table_data) ∅.

Global Instance KStr_inj : Inj (=) (=) KStr.
Proof. intros s1 s2 Heq. by injection Heq. Qed.

(** A table whose keys are all strings, as [Dict[str, int]] announces. *)
Definition str_table (t : gmap string Z) : gmap pykey Z := kmap KStr t.

Definition str_key (k : pykey) : Prop := ∃ s, k = KStr s.

(** ** [analyze_asn_relationships] *)

(** [l[i:i+n]] for [i] in [range(0, len(l), n)] *)
Fixpoint chunks_fuel {A} (fuel n : nat) (l : list A) : list (list A) :=
  match fuel with
  | O => []
  | S f =>
      match l with
      | [] => []
      | _ => take n l :: chunks_fuel f n (drop n l)
      end
  end.

Definition chunks {A} (n : nat) (l : list A) : list (list A) :=
  chunks_fuel (length l) n l.

Definition batch_size : nat := 100.

(** The non-empty answers of the whois server, one call for each batch.
    [bulk_whois_query i batch] is the text the [i]-th call returns (the
    empty text when the call failed). *)
Definition all_results (bulk_whois_query : nat -> list string -> string)
  (asn_list : list Z) : list string :=
  let asn_queries := map (fun asn => "as" +:+ Py.str asn) asn_list in
  filter (fun result => Py.nonempty result = true)
         (imap bulk_whois_query (chunks batch_size asn_queries)).

Definition lines_of (result : string) : list string :=
  Py.split "010" (Py.strip result).

(** The body of the inner loop.  [country] and [name] are read and not
    used; a first field that is no integer ([ValueError]) passes the line
    over. *)
Definition classify_line (target_asn : Z) (asn_list : list Z)
  (st : gset Z * gset Z) (line : string) : gset Z * gset Z :=
  if Py.nonempty (Py.strip line) then
    let parts := Py.split "|" line in
    if (7 <=? length parts)%nat then
      match Py.int (Py.strip (nth 0 parts EmptyString)) with
      | Some asn =>
          let country := Py.strip (nth 4 parts EmptyString) in
          let name := Py.strip (nth 6 parts EmptyString) in
          if bool_decide (asn ∈ asn_list) && negb (asn =? target_asn) then
            if (String.length (Py.str asn) =? String.length (Py.str target_asn))%nat
            then ({[asn]} ∪ st.1, st.2)
            else (st.1, {[asn]} ∪ st.2)
          else st
      | None => st
      end
    else st
  else st.

Definition classify_result (target_asn : Z) (asn_list : list Z)
  (st : gset Z * gset Z) (result : string) : gset Z * gset Z :=
  foldl (classify_line target_asn asn_list) st (lines_of result).

(** The pair [(potential_peers, non_peers)]. *)
Definition analyze_asn_relationships
  (bulk_whois_query : nat -> list string -> string)
  (target_asn : Z) (asn_list : list Z) : gset Z * gset Z :=
  foldl (classify_result target_asn asn_list) (∅, ∅)
        (all_results bulk_whois_query asn_list).

(** The ASN a record line carries for the loop: the integer in front of
    the first bar of a line with at least seven fields. *)
Definition record_asn (line : string) : option Z :=
  if Py.nonempty (Py.strip line) then
    let parts := Py.split "|" line in
    if (7 <=? length parts)%nat
    then Py.int (Py.strip (nth 0 parts EmptyString))
    else None
  else None.

(** [str(a)] and [str(target)] have the same length: the test of the
    heuristic. *)
Definition same_length (a target_asn : Z) : bool :=
  (String.length (Py.str a) =? String.length (Py.str target_asn))%nat.

(** The effect on the two sets of a record whose ASN is [asn]. *)
Definition classify_asn (target_asn : Z) (asn_list : list Z)
  (st : gset Z * gset Z) (asn : Z) : gset Z * gset Z :=
  if bool_decide (asn ∈ asn_list) && negb (asn =? target_asn) then
    if same_length asn target_asn
    then ({[asn]} ∪ st.1, st.2) else (st.1, {[asn]} ∪ st.2)
  else st.

(** [d] is the number of decimal digits of [n >= 0]: the least [d >= 1]
    with [n < 10 ^ d]. *)
Definition decimal_digits (n : Z) (d : nat) : Prop :=
  (1 <= d)%nat ∧ n < 10 ^ Z.of_nat d ∧ (d = 1%nat ∨ 10 ^ (Z.of_nat d - 1) <= n).

(** When a record of ASN [a] is read, the set it goes to. *)
Definition to_peers (target_asn : Z) (asn_list : list Z) (a : Z) : Prop :=
  a ∈ asn_list ∧ a ≠ target_asn ∧ same_length a target_asn = true.

Definition to_other (target_asn : Z) (asn_list : list Z) (a : Z) : Prop :=
  a ∈ asn_list ∧ a ≠ target_asn ∧ same_length a target_asn = false.

(** [a] is the ASN of a record line of one of the answers. *)
Definition in_response (results : list string) (a : Z) : Prop :=
  ∃ result line,
    result ∈ results ∧ line ∈ lines_of result ∧ record_asn line = Some a.

(** The ASNs of the record lines of the answers, in the order read. *)
Definition record_asns (results : list string) : list Z :=
  flat_map (fun result => omap record_asn (lines_of result)) results.

(** Two lines that are the same, or are both records of at least seven
    fields with the same first field. *)
Definition same_first_field (l1 l2 : string) : Prop :=
  l1 = l2
  ∨ ((7 <= length (Py.split "|" l1))%nat
     ∧ (7 <= length (Py.split "|" l2))%nat
     ∧ nth 0 (Py.split "|" l1) EmptyString = nth 0 (Py.split "|" l2) EmptyString).

(** ** [write_results] *)

Definition nl : string := String "010" EmptyString.

(** [sorted(s)] for a set of integers *)
Definition sorted (s : gset Z) : list Z := merge_sort Z.le (elements s).

(** The two [f.write] calls of one turn of the loop over [sorted(...)]. *)
Definition report_entry (asn_names : gmap Z string) (asn : Z) : list string :=
  let name := default ("AS" +:+ Py.str asn) (asn_names !! asn) in
  let whois_link := "https://bgp.tools/as/" +:+ Py.str asn +:+ "#whois" in
  [ "AS" +:+ Py.str asn +:+ " - " +:+ name +:+ nl;
    "  BGP.Tools: " +:+ whois_link +:+ nl +:+ nl ].

(** The names [datetime.now()] yields: [stamp] is the [strftime] text of
    the file names, [now_peers] and [now_other] the texts of the two
    header lines. *)
Record clock := {
  stamp : string;
  now_peers : string;
  now_other : string
}.

Definition peers_filename (target_asn : Z) (c : clock) : string :=
  "AS" +:+ Py.str target_asn +:+ "_potential_peers_" +:+ stamp c +:+ ".txt".

Definition non_peers_filename (target_asn : Z) (c : clock) : string :=
  "AS" +:+ Py.str target_asn +:+ "_other_asns_" +:+ stamp c +:+ ".txt".

Definition peers_header (target_asn : Z) (c : clock) (peers : gset Z) : list string :=
  [ "# BGP.Tools Potential Peers Analysis - " +:+ now_peers c +:+ nl;
    "# ASNs that might peer with AS" +:+ Py.str target_asn +:+ nl;
    "# NOTE: This is based on heuristic analysis, not actual peering data" +:+ nl +:+ nl;
    "=== POTENTIAL PEERS ===" +:+ nl;
    "Total: " +:+ Py.str (Z.of_nat (size peers)) +:+ nl +:+ nl ].

Definition non_peers_header (target_asn : Z) (c : clock) (non_peers : gset Z) : list string :=
  [ "# BGP.Tools Other ASNs Analysis - " +:+ now_other c +:+ nl;
    "# ASNs in similar IP space as AS" +:+ Py.str target_asn +:+ nl;
    "# NOTE: This is based on heuristic analysis" +:+ nl +:+ nl;
    "=== OTHER ASNs ===" +:+ nl;
    "Total: " +:+ Py.str (Z.of_nat (size non_peers)) +:+ nl +:+ nl ].

(** What is written to each file, one list item for each [f.write]. *)
Definition peers_writes (target_asn : Z) (c : clock) (peers : gset Z)
  (asn_names : gmap Z string) : list string :=
  peers_header target_asn c peers
  ++ flat_map (report_entry asn_names) (sorted peers).

Definition non_peers_writes (target_asn : Z) (c : clock) (non_peers : gset Z)
  (asn_names : gmap Z string) : list string :=
  non_peers_header target_asn c non_peers
  ++ flat_map (report_entry asn_names) (sorted non_peers).

Definition concat_str (l : list string) : string :=
  foldr String.append EmptyString l.

(** The files written, as pairs of a name and a content, and the value
    returned or the exception met.  [can_open name] tells whether
    [open(name, 'w')] succeeds.  A file that opens takes all its writes
    here; [write_results_fs] further down lets a write fail too. *)
Definition write_results (can_open : string -> bool) (target_asn : Z) (c : clock)
  (peers non_peers : gset Z) (asn_names : gmap Z string)
  : list (string * string) * result (string * string) :=
  let f1 := peers_filename target_asn c in
  let f2 := non_peers_filename target_asn c in
  if can_open f1 then
    let file1 := (f1, concat_str (peers_writes target_asn c peers asn_names)) in
    if can_open f2 then
      ([file1; (f2, concat_str (non_peers_writes target_asn c non_peers asn_names))],
       Ok (f1, f2))
    else ([file1], Raise OSError)
  else ([], Raise OSError).

(** ** [log], [log_separator] and [run_analysis] *)

Fixpoint repeat_str (n : nat) (s : string) : string :=
  match n with
  | O => EmptyString
  | S k => s +:+ repeat_str k s
  end.

(** The line [log] prints, without its time stamp; nothing above the
    debug level. *)
Definition log (debug_level : nat) (message : string) (level : nat) : list string :=
  if (level <=? debug_level)%nat
  then [repeat_str (level - 1) "  " +:+ message]
  else [].

(** [title.center(width)] *)
Definition center (width : nat) (title : string) : string :=
  let n := String.length title in
  if (width <=? n)%nat then title
  else
    let marg := (width - n)%nat in
    let left := (marg / 2 + (if Nat.odd marg && Nat.odd width then 1 else 0))%nat in
    repeat_str left " " +:+ title +:+ repeat_str (marg - left) " ".

Definition log_separator (debug_level : nat) (title : string) (level : nat) : list string :=
  if (level <=? debug_level)%nat then
    let width := 80%nat in
    let separator := repeat_str width "=" in
    log debug_level separator level
    ++ log debug_level (center width title) level
    ++ log debug_level separator level
  else [].

(** What the run meets outside the methods modelled here. *)
Record world := {
  started_at : string;                         (* [datetime.now()] of the first lines *)
  asn_info_name : string;                      (* [get_asn_info()['name']] *)
  asn_names_of : gmap Z string;                (* [download_asn_names()] *)
  table_response : result string;              (* the download of the table *)
  bulk_whois : nat -> list string -> string;   (* the bulk whois calls *)
  report_clock : clock;
  can_open : string -> bool;
  describe : pyexn -> string;                  (* [str(e)] *)
  traceback : pyexn -> string                  (* [traceback.format_exc()] *)
}.

(** A run: the lines [run_analysis] itself hands to [log] and that pass
    the test of the level (the lines logged inside the methods it calls
    are left out),
    the files written, and [Some 1] when the run ends in [sys.exit(1)]. *)
Record run := {
  logged : list string;
  files : list (string * string);
  exited : option Z
}.

Definition run_analysis (loads : string -> option pyval)
  (debug_level : nat) (target_asn : Z) (user_agent : string) (w : world) : run :=
  let say := fun message => log debug_level message 1 in
  let opening :=
    log_separator debug_level "BGP.TOOLS PEERING ANALYSIS" 1
    ++ say ("Analysis started at: " +:+ started_at w)
    ++ say ("Target ASN: AS" +:+ Py.str target_asn)
    ++ say ("User Agent: " +:+ user_agent)
    ++ say ("Debug level: " +:+ Py.str (Z.of_nat debug_level))
    ++ say "STEP 1: Getting ASN information"
    ++ say "STEP 2: Downloading ASN names"
    ++ say "STEP 3: Finding related ASNs" in
  let failed := fun lines written e =>
    {| logged := lines
                 ++ say ("ERROR during analysis: " +:+ describe w e)
                 ++ log debug_level ("Traceback: " +:+ traceback w e) 2;
       files := written;
       exited := Some 1 |} in
  match get_related_asns target_asn (download_table loads (table_response w)) with
  | Raise e => failed opening [] e
  | Ok related_asns =>
      if decide (related_asns = ∅) then
        {| logged := opening ++ say "No related ASNs found";
           files := [];
           exited := None |}
      else
        let '(potential_peers, other_asns) :=
          analyze_asn_relationships (bulk_whois w) target_asn (elements related_asns) in
        let steps :=
          opening
          ++ say "STEP 4: Analyzing ASN relationships"
          ++ say "STEP 5: Writing results" in
        match write_results (can_open w) target_asn (report_clock w)
                potential_peers other_asns (asn_names_of w) with
        | (written, Raise e) => failed steps written e
        | (written, Ok _) =>
            {| logged :=
                 steps
                 ++ log_separator debug_level "FINAL SUMMARY" 1
                 ++ say ("Target ASN: AS" +:+ Py.str target_asn +:+ " - " +:+ asn_info_name w)
                 ++ say ("Related ASNs found: " +:+ Py.str (Z.of_nat (size related_asns)))
                 ++ say ("Potential peers: " +:+ Py.str (Z.of_nat (size potential_peers)))
                 ++ say ("Other ASNs: " +:+ Py.str (Z.of_nat (size other_asns)))
                 ++ say "Analysis completed successfully!"
                 ++ say "NOTE: This analysis is based on heuristics and BGP table data."
                 ++ say "For accurate peering information, use PeeringDB or direct BGP data.";
               files := written;
               exited := None |}
        end
  end.

(** ** [get_user_input] and [main] *)

(** [s.upper().startswith('AS')]: below code point 256 the characters
    whose upper case starts with [A] are [a] and [A]; [s], [S] and the
    sharp s (223, upper case [SS]) give an [S]. *)
Definition upper_startswith_AS (s : string) : bool :=
  match s with
  | String c0 (String c1 _) =>
      let n0 := N_of_ascii c0 in
      let n1 := N_of_ascii c1 in
      (((n0 =? 65) || (n0 =? 97)) && ((n1 =? 83) || (n1 =? 115) || (n1 =? 223)))%N
  | _ => false
  end.

(** [s[2:]] *)
Definition drop2 (s : string) : string :=
  match s with
  | String _ (String _ r) => r
  | _ => EmptyString
  end.

(** One turn of the loop that asks for the ASN: the value that leaves the
    loop, or the message printed before the question is asked again. *)
Inductive asked (A : Type) : Type :=
| Accepted (a : A)
| Again (message : string).
Arguments Accepted {A} a.
Arguments Again {A} message.

Definition ask_asn (typed : string) : asked Z :=
  let asn_input := Py.strip typed in
  if negb (Py.nonempty asn_input) then
    Again "ASN cannot be empty. Please try again."
  else
    let asn_input :=
      if upper_startswith_AS asn_input then drop2 asn_input else asn_input in
    match Py.int asn_input with
    | None => Again "Invalid ASN format. Please enter a numeric ASN."
    | Some asn =>
        if (asn <=? 0) || (asn >? 4294967295) then
          Again "ASN must be between 1 and 4294967295. Please try again."
        else Accepted asn
    end.

Definition ask_user_agent (typed : string) : asked string :=
  let user_agent := Py.strip typed in
  if negb (Py.nonempty user_agent) then
    Again "User-Agent cannot be empty. Please try again."
  else if negb (Py.contains "@" user_agent) then
    Again "User-Agent should include an email address for contact. Please try again."
  else Accepted user_agent.

(** A loop [while True: ... input() ...] over the lines typed; [None] when
    the input ends first ([EOFError]). *)
Fixpoint ask_until {A} (ask : string -> asked A) (stdin : list string)
  : option (A * list string) :=
  match stdin with
  | [] => None
  | typed :: rest =>
      match ask typed with
      | Accepted a => Some (a, rest)
      | Again _ => ask_until ask rest
      end
  end.

Definition get_user_input (stdin : list string) : option (Z * string) :=
  '(asn, rest) ← ask_until ask_asn stdin;
  '(user_agent, _) ← ask_until ask_user_agent rest;
  Some (asn, user_agent).

(** The command line after [argparse]. *)
Record args := {
  arg_asn : option Z;
  arg_useragent : option string;
  arg_debug : nat
}.

(** [main] from the return of [parser.parse_args()] on: the exit code of
    the process and the run, when the analysis was started.
    [connectivity] tells whether the request of the check returned.  The
    exits [parse_args] itself makes are those of [main_process] further
    down. *)
Definition main (loads : string -> option pyval) (a : args)
  (stdin : list string) (connectivity : bool) (w : world) : Z * option run :=
  let input :=
    match arg_asn a, arg_useragent a with
    | Some target_asn, Some user_agent => Some (target_asn, user_agent)
    | _, _ => get_user_input stdin
    end in
  match input with
  | None => (1, None)
  | Some (target_asn, user_agent) =>
      if (target_asn <=? 0) || (target_asn >? 4294967295) then (1, None)
      else if negb (Py.nonempty user_agent) || negb (Py.contains "@" user_agent)
      then (1, None)
      else if negb connectivity then (1, None)
      else
        let r := run_analysis loads (arg_debug a) target_asn user_agent w in
        (default 0 (exited r), Some r)
  end.

(** The flag path of [main] up to the check of the ASN: [true] when the
    value given with [--asn] passes. *)
Definition flag_accepts (target_asn : Z) : bool :=
  negb ((target_asn <=? 0) || (target_asn >? 4294967295)).

(** ** A decoder for the lines of the table

    [json_loads] follows [json.loads] on texts of code points below 256:
    objects, arrays, strings with their escapes, numbers, [true], [false],
    [null], [NaN], [Infinity] and [-Infinity]; [None] stands for
    [JSONDecodeError].  An escape [\uXXXX] from 256 on names a character
    the strings here do not have and is refused.  The theorems on
    [download_table] hold for every decoder; this one runs the examples. *)

Definition dquote : ascii := "034".

Definition json_ws (c : ascii) : bool :=
  let n := N_of_ascii c in
  ((n =? 32) || (n =? 9) || (n =? 10) || (n =? 13))%N.

Definition skip_ws (s : string) : string := Py.lstrip_by json_ws s.

Definition hex_of (c : ascii) : option N :=
  let n := N_of_ascii c in
  if ((48 <=? n) && (n <=? 57))%N then Some (n - 48)%N
  else if ((65 <=? n) && (n <=? 70))%N then Some (n - 55)%N
  else if ((97 <=? n) && (n <=? 102))%N then Some (n - 87)%N
  else None.

(** After the opening quote: the text, and what follows the closing
    quote. *)
Fixpoint json_string (s : string) : option (string * string) :=
  match s with
  | EmptyString => None
  | String c r =>
      if Ascii.eqb c dquote then Some (EmptyString, r)
      else if Ascii.eqb c "\" then
        match r with
        | EmptyString => None
        | String e r' =>
            let put := fun (d : ascii) (rest : string) =>
              '(t, k) ← json_string rest; Some (String d t, k) in
            if Ascii.eqb e dquote then put dquote r'
            else if Ascii.eqb e "\" then put "\"%char r'
            else if Ascii.eqb e "/" then put "/"%char r'
            else if Ascii.eqb e "b" then put "008"%char r'
            else if Ascii.eqb e "f" then put "012"%char r'
            else if Ascii.eqb e "n" then put "010"%char r'
            else if Ascii.eqb e "r" then put "013"%char r'
            else if Ascii.eqb e "t" then put "009"%char r'
            else if Ascii.eqb e "u" then
              match r' with
              | String h1 (String h2 (String h3 (String h4 r4))) =>
                  match hex_of h1, hex_of h2, hex_of h3, hex_of h4 with
                  | Some a, Some b, Some c', Some d =>
                      let cp := (((a * 16 + b) * 16 + c') * 16 + d)%N in
                      if (cp <? 256)%N then put (ascii_of_N cp) r4 else None
                  | _, _, _, _ => None
                  end
              | _ => None
              end
            else None
        end
      else if (N_of_ascii c <? 32)%N then None
      else '(t, k) ← json_string r; Some (String c t, k)
  end.

Fixpoint span_digits (s : string) : string * string :=
  match s with
  | String c r =>
      match Py.digit_of c with
      | Some _ => let '(ds, k) := span_digits r in (String c ds, k)
      | None => (EmptyString, s)
      end
  | EmptyString => (EmptyString, EmptyString)
  end.

Fixpoint digits_value (acc : Z) (s : string) : Z :=
  match s with
  | EmptyString => acc
  | String c r => digits_value (10 * acc + default 0 (Py.digit_of c)) r
  end.

(** The binary64 value nearest to [m * 10 ^ e] for [m > 0], ties to the
    even mantissa; an infinity from [2 ^ 1024] on. *)
Definition float_of_decimal (neg : bool) (m e : Z) : spec_float :=
  if m <=? 0 then S754_zero neg
  else
    let num := if 0 <=? e then m * 10 ^ e else m in
    let den := if 0 <=? e then 1 else 10 ^ (- e) in
    let g := Z.log2 num - Z.log2 den in
    let above := if 0 <=? g then den * 2 ^ g <=? num else den <=? num * 2 ^ (- g) in
    let lg := if above then g else g - 1 in
    let ex := Z.max (lg - 52) (-1074) in
    let n' := if 0 <=? ex then num else num * 2 ^ (- ex) in
    let d' := if 0 <=? ex then den * 2 ^ ex else den in
    let q := n' / d' in
    let r := n' mod d' in
    let up := (d' <? 2 * r) || ((d' =? 2 * r) && Z.odd q) in
    let q1 := if up then q + 1 else q in
    let '(q2, ex2) := if q1 =? 2 ^ 53 then (2 ^ 52, ex + 1) else (q1, ex) in
    if q2 =? 0 then S754_zero neg
    else if 971 <? ex2 then S754_infinity neg
    else S754_finite neg (Z.to_pos q2) ex2.

(** A number at the head of [s]: an optional minus sign, then a lone zero
    or digits that start with no zero; then a dot with digits behind it,
    when there are some; then an exponent mark, an optional sign and
    digits, when there are some. *)
Definition json_number (s : string) : option (pyval * string) :=
  let '(neg, s1) :=
    match s with String "-" r => (true, r) | _ => (false, s) end in
  let '(ds, s2) := span_digits s1 in
  match ds with
  | EmptyString => None
  | String d0 dr =>
      let '(ipart, rest) :=
        if Ascii.eqb d0 "0" then (String d0 EmptyString, dr +:+ s2) else (ds, s2) in
      let '(frac, rest1) :=
        match rest with
        | String "." r =>
            match span_digits r with
            | (EmptyString, _) => (None, rest)
            | (fs, k) => (Some fs, k)
            end
        | _ => (None, rest)
        end in
      let '(expo, rest2) :=
        match rest1 with
        | String c r =>
            if Ascii.eqb c "e" || Ascii.eqb c "E" then
              let '(eneg, r1) :=
                match r with
                | String "-" k => (true, k)
                | String "+" k => (false, k)
                | _ => (false, r)
                end in
              match span_digits r1 with
              | (EmptyString, _) => (None, rest1)
              | (es, k) =>
                  (Some (if eneg then - digits_value 0 es else digits_value 0 es), k)
              end
            else (None, rest1)
        | _ => (None, rest1)
        end in
      match frac, expo with
      | None, None =>
          let v := digits_value 0 ipart in
          Some (PInt (if neg then - v else v), rest2)
      | _, _ =>
          let fs := default EmptyString frac in
          let m := digits_value 0 (ipart +:+ fs) in
          let e := default 0 expo - Z.of_nat (String.length fs) in
          Some (PFloat (float_of_decimal neg m e), rest2)
      end
  end.

(** [s] without the prefix [p], when it starts with it *)
Fixpoint after (p s : string) : option string :=
  match p, s with
  | EmptyString, _ => Some s
  | String a p', String b s' => if Ascii.eqb a b then after p' s' else None
  | _, _ => None
  end.

Inductive json_mode :=
| JValue
| JElems (acc : list pyval)
| JMembers (acc : list (string * pyval)).

(** The value at the head of [s] and the text after it.  [JElems] and
    [JMembers] read what is left of an array or an object whose first
    items are in [acc], last read first. *)
Fixpoint json_parse (fuel : nat) (m : json_mode) (s : string) : option (pyval * string) :=
  match fuel with
  | O => None
  | S f =>
      match m with
      | JValue =>
          match s with
          | EmptyString => None
          | String c r =>
              if Ascii.eqb c dquote then
                '(t, k) ← json_string r; Some (PStr t, k)
              else if Ascii.eqb c "{" then
                match skip_ws r with
                | String "}" k => Some (PDict [], k)
                | k => json_parse f (JMembers []) k
                end
              else if Ascii.eqb c "[" then
                match skip_ws r with
                | String "]" k => Some (PList [], k)
                | k => json_parse f (JElems []) k
                end
              else
                match after "null" s, after "true" s, after "false" s with
                | Some k, _, _ => Some (PNone, k)
                | _, Some k, _ => Some (PBool true, k)
                | _, _, Some k => Some (PBool false, k)
                | _, _, _ =>
                    match json_number s with
                    | Some vk => Some vk
                    | None =>
                        match after "NaN" s, after "Infinity" s, after "-Infinity" s with
                        | Some k, _, _ => Some (PFloat S754_nan, k)
                        | _, Some k, _ => Some (PFloat (S754_infinity false), k)
                        | _, _, Some k => Some (PFloat (S754_infinity true), k)
                        | _, _, _ => None
                        end
                    end
                end
          end
      | JElems acc =>
          '(v, k) ← json_parse f JValue s;
          match skip_ws k with
          | String "," k' => json_parse f (JElems (v :: acc)) (skip_ws k')
          | String "]" k' => Some (PList (rev (v :: acc)), k')
          | _ => None
          end
      | JMembers acc =>
          match s with
          | String c r =>
              if Ascii.eqb c dquote then
                '(name, k) ← json_string r;
                match skip_ws k with
                | String ":" k1 =>
                    '(v, k2) ← json_parse f JValue (skip_ws k1);
                    match skip_ws k2 with
                    | String "," k3 => json_parse f (JMembers ((name, v) :: acc)) (skip_ws k3)
                    | String "}" k3 => Some (PDict (rev ((name, v) :: acc)), k3)
                    | _ => None
                    end
                | _ => None
                end
              else None
          | EmptyString => None
          end
      end
  end.

Definition json_loads (s : string) : option pyval :=
  '(v, k) ← json_parse (S (String.length s)) JValue (skip_ws s);
  match skip_ws k with
  | EmptyString => Some v
  | _ => None
  end.

(** ** The whois client

    [send] stands for the socket: the text sent gives the text received
    and decoded, or the exception met on the way. *)

Definition cr : string := String "013" EmptyString.

(** The text [whois_query] sends. *)
Definition query_string (query : string) : string :=
  " -v " +:+ query +:+ cr +:+ nl.

(** The text [bulk_whois_query] sends: it grows by one line for each
    query. *)
Definition bulk_query_string (queries : list string) : string :=
  foldl (fun query_string query => query_string +:+ query +:+ nl)
        ("begin" +:+ nl +:+ "verbose" +:+ nl) queries
  +:+ "end" +:+ nl.

(** [whois_query] and [bulk_whois_query]: the empty text on any
    exception. *)
Definition whois_query (send : string -> result string) (query : string) : string :=
  match send (query_string query) with
  | Ok result => result
  | Raise _ => EmptyString
  end.

Definition bulk_whois_query (send : string -> result string)
  (queries : list string) : string :=
  match send (bulk_query_string queries) with
  | Ok result => result
  | Raise _ => EmptyString
  end.

(** ** [get_asn_info] *)

Record asn_info := {
  info_asn : Z;
  info_name : string
}.

(** The loop over the lines of the answer: the name of the first line of
    at least seven fields whose first field is the text of the target. *)
Fixpoint asn_info_lines (target_asn : Z) (lines : list string) : option string :=
  match lines with
  | [] => None
  | line :: rest =>
      if Py.nonempty (Py.strip line) then
        let parts := Py.split "|" line in
        if (7 <=? length parts)%nat then
          let asn := Py.strip (nth 0 parts EmptyString) in
          let name := Py.strip (nth 6 parts EmptyString) in
          if String.eqb asn (Py.str target_asn) then Some name
          else asn_info_lines target_asn rest
        else asn_info_lines target_asn rest
      else asn_info_lines target_asn rest
  end.

Definition get_asn_info (send : string -> result string) (target_asn : Z) : asn_info :=
  let result := whois_query send ("as" +:+ Py.str target_asn) in
  let found :=
    if Py.nonempty result
    then asn_info_lines target_asn (Py.split "010" (Py.strip result))
    else None in
  match found with
  | Some name => {| info_asn := target_asn; info_name := name |}
  | None => {| info_asn := target_asn; info_name := "AS" +:+ Py.str target_asn |}
  end.

(** ** [download_asn_names] *)

(** [s.split(sep, n)]: at most [n] cuts *)
Fixpoint split_max (sep : ascii) (s : string) (n : nat) {struct s} : list string :=
  match n with
  | O => [s]
  | S k =>
      match s with
      | EmptyString => [EmptyString]
      | String c r =>
          if Ascii.eqb c sep then EmptyString :: split_max sep r k
          else match split_max sep r n with
               | h :: t => String c h :: t
               | [] => [String c EmptyString]
               end
      end
  end.

Definition is_quote (c : ascii) : bool := Ascii.eqb c dquote.

(** [s.strip(q)] where [q] is the double quote *)
Definition strip_quotes (s : string) : string :=
  Py.rstrip_by is_quote (Py.lstrip_by is_quote s).

(** [s.startswith(p)] *)
Definition startswith (p s : string) : bool :=
  match after p s with Some _ => true | None => false end.

(** What one line of the file adds to the dict, if anything: a first
    field that does not start with [AS], or whose rest is no integer
    ([ValueError]), passes the line over. *)
Definition csv_entry (line : string) : option (Z * string) :=
  if Py.nonempty (Py.strip line) then
    let parts := split_max "," line 2 in
    if (2 <=? length parts)%nat then
      let asn_str := Py.strip (nth 0 parts EmptyString) in
      let name := strip_quotes (Py.strip (nth 1 parts EmptyString)) in
      if startswith "AS" asn_str then
        match Py.int (drop2 asn_str) with
        | Some asn_num => Some (asn_num, name)
        | None => None
        end
      else None
    else None
  else None.

Definition names_line (asn_names : gmap Z string) (line : string) : gmap Z string :=
  match csv_entry line with
  | Some (asn_num, name) => <[asn_num := name]> asn_names
  | None => asn_names
  end.

(** The loop over [lines[1:]]. *)
Definition parse_asn_names (text : string) : gmap Z string :=
  foldl names_line ∅ (tail (Py.split "010" (Py.strip text))).

Definition download_asn_names (response : result string) : gmap Z string :=
  match response with
  | Ok text => parse_asn_names text
  | Raise _ => ∅
  end.

(** ** The progress line of [analyze_asn_relationships]

    [batch_number i] and [announced_batches n] are the two numbers of the
    line logged for the batch that starts at index [i] of [n] queries. *)
Definition batch_number (i : nat) : nat := (i / batch_size + 1)%nat.

Definition announced_batches (n : nat) : nat := (n / batch_size + 1)%nat.

(** ** [find_peers_from_table]

    The prefixes of the target are collected for the log; the set
    returned is empty. *)
Definition find_peers_from_table (target_asn : Z) (table_data : gmap pykey Z) : gset Z :=
  let our_prefixes : gset pykey :=
    list_to_set (our_prefixes target_asn table_data) in
  ∅.

(** ** Writes that fail

    After [open] has succeeded, a [write], or the closing of the file at
    the end of the [with] block, can still raise ([UnicodeEncodeError]
    for a name the encoding of the file does not have, [OSError] for a
    full disk).  [fails name writes] tells what happens to the writes
    made to the file [name]: [None] when all of them reach the file, and
    [Some (kept, e)] when the exception [e] leaves the [with] block, the
    file being left with the content [kept]. *)
Definition write_file (fails : string -> list string -> option (string * pyexn))
  (name : string) (writes : list string) : (string * string) * option pyexn :=
  match fails name writes with
  | None => ((name, concat_str writes), None)
  | Some (kept, e) => ((name, kept), Some e)
  end.

(** [write_results] on such a file system: an exception in the first
    [with] block leaves the method before the second file is opened. *)
Definition write_results_fs (can_open : string -> bool)
  (fails : string -> list string -> option (string * pyexn))
  (target_asn : Z) (c : clock)
  (peers non_peers : gset Z) (asn_names : gmap Z string)
  : list (string * string) * result (string * string) :=
  let f1 := peers_filename target_asn c in
  let f2 := non_peers_filename target_asn c in
  if can_open f1 then
    match write_file fails f1 (peers_writes target_asn c peers asn_names) with
    | (file1, Some e) => ([file1], Raise e)
    | (file1, None) =>
        if can_open f2 then
          match write_file fails f2
                  (non_peers_writes target_asn c non_peers asn_names) with
          | (file2, Some e) => ([file1; file2], Raise e)
          | (file2, None) => ([file1; file2], Ok (f1, f2))
          end
        else ([file1], Raise OSError)
    end
  else ([], Raise OSError).

(** [run_analysis] with the call of [write_results] left open: [write]
    stands for [self.write_results]. *)
Definition run_analysis_with
  (write : Z -> clock -> gset Z -> gset Z -> gmap Z string
           -> list (string * string) * result (string * string))
  (loads : string -> option pyval)
  (debug_level : nat) (target_asn : Z) (user_agent : string) (w : world) : run :=
  let say := fun message => log debug_level message 1 in
  let opening :=
    log_separator debug_level "BGP.TOOLS PEERING ANALYSIS" 1
    ++ say ("Analysis started at: " +:+ started_at w)
    ++ say ("Target ASN: AS" +:+ Py.str target_asn)
    ++ say ("User Agent: " +:+ user_agent)
    ++ say ("Debug level: " +:+ Py.str (Z.of_nat debug_level))
    ++ say "STEP 1: Getting ASN information"
    ++ say "STEP 2: Downloading ASN names"
    ++ say "STEP 3: Finding related ASNs" in
  let failed := fun lines written e =>
    {| logged := lines
                 ++ say ("ERROR during analysis: " +:+ describe w e)
                 ++ log debug_level ("Traceback: " +:+ traceback w e) 2;
       files := written;
       exited := Some 1 |} in
  match get_related_asns target_asn (download_table loads (table_response w)) with
  | Raise e => failed opening [] e
  | Ok related_asns =>
      if decide (related_asns = ∅) then
        {| logged := opening ++ say "No related ASNs found";
           files := [];
           exited := None |}
      else
        let '(potential_peers, other_asns) :=
          analyze_asn_relationships (bulk_whois w) target_asn (elements related_asns) in
        let steps :=
          opening
          ++ say "STEP 4: Analyzing ASN relationships"
          ++ say "STEP 5: Writing results" in
        match write target_asn (report_clock w)
                potential_peers other_asns (asn_names_of w) with
        | (written, Raise e) => failed steps written e
        | (written, Ok _) =>
            {| logged :=
                 steps
                 ++ log_separator debug_level "FINAL SUMMARY" 1
                 ++ say ("Target ASN: AS" +:+ Py.str target_asn +:+ " - " +:+ asn_info_name w)
                 ++ say ("Related ASNs found: " +:+ Py.str (Z.of_nat (size related_asns)))
                 ++ say ("Potential peers: " +:+ Py.str (Z.of_nat (size potential_peers)))
                 ++ say ("Other ASNs: " +:+ Py.str (Z.of_nat (size other_asns)))
                 ++ say "Analysis completed successfully!"
                 ++ say "NOTE: This analysis is based on heuristics and BGP table data."
                 ++ say "For accurate peering information, use PeeringDB or direct BGP data.";
               files := written;
               exited := None |}
        end
  end.

(** The run on a file system whose writes can fail. *)
Definition run_analysis_fs
  (fails : string -> list string -> option (string * pyexn))
  (loads : string -> option pyval)
  (debug_level : nat) (target_asn : Z) (user_agent : string) (w : world) : run :=
  run_analysis_with (write_results_fs (can_open w) fails)
    loads debug_level target_asn user_agent w.

(** ** The whole of [main]

    [parser.parse_args()] is the first thing [main] does.  It prints the
    help and ends the process with code 0 ([-h]), it refuses the command
    line and ends the process with code 2 (a value of [--asn] or
    [--debug] that is no integer, a debug level outside 0..3, an option
    it does not know), or it returns the values. *)
Inductive parsed : Type :=
| ParseHelp
| ParseError
| ParseArgs (a : args).

(** [main] from the return of [parse_args] on, with the call of
    [run_analysis] left open. *)
Definition main_with (analyse : nat -> Z -> string -> run) (a : args)
  (stdin : list string) (connectivity : bool) : Z * option run :=
  let input :=
    match arg_asn a, arg_useragent a with
    | Some target_asn, Some user_agent => Some (target_asn, user_agent)
    | _, _ => get_user_input stdin
    end in
  match input with
  | None => (1, None)
  | Some (target_asn, user_agent) =>
      if (target_asn <=? 0) || (target_asn >? 4294967295) then (1, None)
      else if negb (Py.nonempty user_agent) || negb (Py.contains "@" user_agent)
      then (1, None)
      else if negb connectivity then (1, None)
      else
        let r := analyse (arg_debug a) target_asn user_agent in
        (default 0 (exited r), Some r)
  end.

(** The process from its start: the exit code, and the run when the
    analysis was started. *)
Definition main_process
  (fails : string -> list string -> option (string * pyexn))
  (loads : string -> option pyval) (p : parsed)
  (stdin : list string) (connectivity : bool) (w : world) : Z * option run :=
  match p with
  | ParseHelp => (0, None)
  | ParseError => (2, None)
  | ParseArgs a =>
      main_with (fun debug_level target_asn user_agent =>
                   run_analysis_fs fails loads debug_level target_asn user_agent w)
                a stdin connectivity
  end.

(** ** Predicates on tables used in the properties *)

(** Every ASN value of the lines that passes the truth test is an integer
    of JSON. *)
Definition int_asn_lines (loads : string -> option pyval)
  (lines : list string) : Prop :=
  ∀ line data v,
    line ∈ lines → loads line = Some data →
    get "ASN" data = Ok v → truthy v = true → ∃ z, v = PInt z.

(** ** Predicates on lines used in the properties *)

(** The test [get_asn_info] makes on a line of the answer: the line is
    not blank, has at least seven fields, and its first field, stripped,
    is the text of the target. *)
Definition info_match (target_asn : Z) (line : string) : bool :=
  Py.nonempty (Py.strip line)
  && (7 <=? length (Py.split "|" line))%nat
  && String.eqb (Py.strip (nth 0 (Py.split "|" line) EmptyString))
                (Py.str target_asn).

(** ** Predicates on strings used in the properties *)

Fixpoint all_chars (p : ascii -> bool) (s : string) : bool :=
  match s with
  | EmptyString => true
  | String c r => p c && all_chars p r
  end.

Definition is_digit (c : ascii) : bool :=
  match Py.digit_of c with Some _ => true | None => false end.

(** ** Inputs of the examples *)

(** [s] between double quotes *)
Definition quoted (s : string) : string :=
  String dquote (s +:+ String dquote EmptyString).

(** A line of the table: an object with the two fields [CIDR] and [ASN],
    the second given as the text [asn]. *)
Definition table_record (cidr asn : string) : string :=
  "{" +:+ quoted "CIDR" +:+ ":" +:+ quoted cidr +:+ ","
  +:+ quoted "ASN" +:+ ":" +:+ asn +:+ "}".

(** Two lines: a record, and a record whose ASN is the text AS64501. *)
Definition text_asn_table : string :=
  table_record "1.2.3.0/24" "64500" +:+ nl
  +:+ table_record "1.2.4.0/24" (quoted "AS64501").

(** Two lines: a record, and an array. *)
Definition array_line_table : string :=
  table_record "1.2.3.0/24" "64500" +:+ nl +:+ "[]".

(** One line whose ASN is the text 0. *)
Definition zero_text_table : string :=
  table_record "1.2.3.0/24" (quoted "0").

(** A table in which the target 10 has a neighbour whose ASN is the
    integer -5. *)
Definition negative_asn_table : string :=
  table_record "1.2.3.0/24" "10" +:+ nl
  +:+ table_record "1.2.4.0/24" "-5".

(** A whois server whose record carries that ASN. *)
Definition negative_record_whois (i : nat) (batch : list string) : string :=
  "-5 | 1.2.4.0/24 | x | y | US | ARIN | Example Net".

(** A whois server that answers every batch with one record. *)
Definition one_record_whois (i : nat) (batch : list string) : string :=
  "64500 | 192.0.2.0/24 | x | y | US | ARIN | Example Net".

(** The same server with other values in the fields after the first. *)
Definition other_fields_whois (i : nat) (batch : list string) : string :=
  "64500 | 198.51.100.0/24 | q | r | DE | RIPE | Another Organisation".

Definition example_clock : clock :=
  {| stamp := "20250101_120000";
     now_peers := "2025-01-01 12:00:00.000001";
     now_other := "2025-01-01 12:00:00.000002" |}.

(** A run in which the download of the table fails. *)
Definition failed_download_world : world :=
  {| started_at := "2025-01-01 12:00:00.000000";
     asn_info_name := "AS64500";
     asn_names_of := ∅;
     table_response := Raise RequestError;
     bulk_whois := fun _ _ => EmptyString;
     report_clock := example_clock;
     can_open := fun _ => true;
     describe := fun _ => EmptyString;
     traceback := fun _ => EmptyString |}.

(** A small route table: the target 64500 originates two prefixes. *)
Definition example_table : gmap string Z :=
  {[ "1.2.3.0/24" := 64500; "1.2.4.0/24" := 64500; "1.2.9.0/24" := 64501;
     "8.8.8.0/24" := 15169; "2001:db8:1::/48" := 64502 ]}.

(** The lines of a table with the prefixes of [example_table]. *)
Definition example_table_text : string :=
  table_record "1.2.3.0/24" "64500" +:+ nl
  +:+ table_record "1.2.4.0/24" "64500" +:+ nl
  +:+ table_record "1.2.9.0/24" "64501" +:+ nl
  +:+ table_record "8.8.8.0/24" "15169" +:+ nl
  +:+ table_record "2001:db8:1::/48" "64502".

(** A table that gives one prefix twice, with a line between that is no
    JSON. *)
Definition duplicate_table_text : string :=
  table_record "1.2.3.0/24" "64500" +:+ nl
  +:+ "not a record" +:+ nl
  +:+ table_record "1.2.3.0/24" "64501".

(** A run in which the table arrives and no whois call succeeds. *)
Definition whois_outage_world : world :=
  {| started_at := "2025-01-01 12:00:00.000000";
     asn_info_name := "AS64500";
     asn_names_of := ∅;
     table_response := Ok example_table_text;
     bulk_whois := fun _ _ => EmptyString;
     report_clock := example_clock;
     can_open := fun _ => true;
     describe := fun _ => EmptyString;
     traceback := fun _ => EmptyString |}.

(** * Properties *)

(** ** The definitions on small inputs *)

Example strip_example : Py.strip "  13335 | x  " = "13335 | x".
Proof. reflexivity. Qed.

Example split_example : Py.split "|" "a|b||c" = ["a"; "b"; ""; "c"].
Proof. reflexivity. Qed.

Example split_empty_example : Py.split "|" "" = [""].
Proof. reflexivity. Qed.

Example str_example : Py.str 4294967295 = "4294967295" ∧ Py.str (-50) = "-50" ∧ Py.str 0 = "0".
Proof. repeat split; reflexivity. Qed.

Example int_example :
  Py.int " 64_512 " = Some 64512 ∧ Py.int "-0" = Some 0 ∧ Py.int "+7" = Some 7
  ∧ Py.int "1__2" = None ∧ Py.int "+" = None ∧ Py.int "1 2" = None
  ∧ Py.int "AS64501" = None ∧ Py.int "" = None.
Proof. repeat split; reflexivity. Qed.

Example network_of_example :
  network_of "1.2.3.0/24" = Some "1.2"
  ∧ network_of "2001:db8::/32" = Some "2001:db8"
  ∧ network_of "1.2.3.0" = None
  ∧ network_of "localhost/8" = None.
Proof. repeat split; reflexivity. Qed.

Example json_loads_example :
  json_loads (table_record "1.2.3.0/24" "64500")
  = Some (PDict [("CIDR", PStr "1.2.3.0/24"); ("ASN", PInt 64500)])
  ∧ json_loads "[1, 2.5, null]"
    = Some (PList [PInt 1; PFloat (S754_finite false 5629499534213120 (-51)); PNone])
  ∧ json_loads "{" = None
  ∧ json_loads "truncated" = None.
Proof. repeat split; by vm_compute. Qed.

Example int_of_example :
  int_of (PFloat (S754_finite false 5629499534213120 (-51))) = Ok 2
  ∧ int_of (PFloat (S754_finite true 5 (-1))) = Ok (-2)
  ∧ int_of (PBool true) = Ok 1
  ∧ int_of (PStr " 12 ") = Ok 12
  ∧ int_of (PStr "AS12") = Raise ValueError
  ∧ int_of (PList []) = Raise TypeError.
Proof. repeat split; reflexivity. Qed.

Example get_related_asns_example :
  our_networks 64500 (str_table example_table) = Ok {["1.2"]}
  ∧ get_related_asns 64500 (str_table example_table) = Ok {[64501]}
  ∧ get_related_asns 64500 {[KInt 5 := 64501]} = Raise TypeError.
Proof. repeat split; by vm_compute. Qed.

Example analyze_example :
  analyze_asn_relationships one_record_whois 64501 [64500; 7] = ({[64500]}, ∅)
  ∧ analyze_asn_relationships one_record_whois 101 [64500; 7] = (∅, {[64500]})
  ∧ analyze_asn_relationships one_record_whois 64501 [7] = (∅, ∅).
Proof. repeat split; by vm_compute. Qed.

(** [str] counts the sign of a negative number: -5 and 10 have texts of
    the same length. *)
Example same_length_sign_example :
  same_length (-5) 10 = true ∧ same_length 5 10 = false ∧ same_length 0 7 = true.
Proof. repeat split; reflexivity. Qed.

Example chunks_example :
  chunks 2 [1; 2; 3; 4; 5] = [[1; 2]; [3; 4]; [5]] ∧ chunks 2 ([] : list Z) = [].
Proof. split; reflexivity. Qed.

Example ask_asn_example :
  ask_asn " as6939 " = Accepted 6939
  ∧ ask_asn "0" = Again "ASN must be between 1 and 4294967295. Please try again."
  ∧ ask_asn "4294967296" = Again "ASN must be between 1 and 4294967295. Please try again."
  ∧ ask_asn "AS" = Again "Invalid ASN format. Please enter a numeric ASN."
  ∧ ask_asn "  " = Again "ASN cannot be empty. Please try again.".
Proof. repeat split; reflexivity. Qed.

Example log_separator_example :
  log_separator 1 "FINAL SUMMARY" 1
  = [ "================================================================================";
      "                                 FINAL SUMMARY                                  ";
      "================================================================================" ]
  ∧ log_separator 0 "FINAL SUMMARY" 1 = [].
Proof. split; reflexivity. Qed.


(** ** Strings *)

Section PyFacts.
Implicit Types (c : ascii) (s t : string) (l : list string).

Lemma split_not_nil c s : Py.split c s ≠ [].
Proof.
  destruct s as [|d r]; simpl; [done|].
  destruct (Ascii.eqb d c); [done|]. by destruct (Py.split c r).
Qed.

Lemma contains_app c s t :
  Py.contains c (s +:+ t) = Py.contains c s || Py.contains c t.
Proof.
  induction s as [|d r IH]; simpl; [done|]. rewrite IH. by rewrite orb_assoc.
Qed.

Lemma split_absent c s : Py.contains c s = false → Py.split c s = [s].
Proof.
  induction s as [|d r IH]; simpl; [done|].
  intros [Hd Hr]%orb_false_iff. rewrite Hd, (IH Hr). done.
Qed.

Lemma split_at_first c s t :
  Py.contains c s = false →
  Py.split c (s +:+ String c t) = s :: Py.split c t.
Proof.
  induction s as [|d r IH]; simpl.
  - intros _. by rewrite Ascii.eqb_refl.
  - intros [Hd Hr]%orb_false_iff. rewrite Hd, (IH Hr). done.
Qed.

Lemma split_join c l :
  l ≠ [] → Forall (fun x => Py.contains c x = false) l →
  Py.split c (Py.join c l) = l.
Proof.
  induction l as [|x r IH]; [done|]. intros _ Hall.
  apply Forall_cons in Hall as [Hx Hr].
  destruct r as [|y r'].
  - simpl. by apply split_absent.
  - change (Py.join c (x :: y :: r')) with (x +:+ String c (Py.join c (y :: r'))).
    rewrite split_at_first by done. f_equal. by apply IH.
Qed.

Lemma contains_join_other c sep l :
  Ascii.eqb sep c = false →
  Forall (fun x => Py.contains c x = false) l →
  Py.contains c (Py.join sep l) = false.
Proof.
  intros Hsep. induction l as [|x r IH]; [done|]. intros Hall.
  apply Forall_cons in Hall as [Hx Hr].
  destruct r as [|y r']; [done|].
  change (Py.join sep (x :: y :: r')) with (x +:+ String sep (Py.join sep (y :: r'))).
  rewrite contains_app. simpl. rewrite Hx, Hsep. simpl. by apply IH.
Qed.

Lemma contains_join_sep c x y l :
  Py.contains c (Py.join c (x :: y :: l)) = true.
Proof.
  change (Py.join c (x :: y :: l)) with (x +:+ String c (Py.join c (y :: l))).
  rewrite contains_app. simpl. rewrite Ascii.eqb_refl. simpl. apply orb_true_r.
Qed.

End PyFacts.

(** ** [get_related_asns] *)

Section RelatedFacts.
Variable target_asn : Z.

Lemma networks_loop_spec (prefixes : list pykey) (acc : gset string) :
  Forall str_key prefixes →
  ∃ nets, networks_loop prefixes acc = Ok nets ∧
    ∀ n, n ∈ nets ↔ n ∈ acc ∨ ∃ s, KStr s ∈ prefixes ∧ network_of s = Some n.
Proof.
  revert acc. induction prefixes as [|k rest IH]; intros acc Hall.
  - exists acc. split; [done|]. intros n. split; [by left|].
    intros [?|(s & Hs & _)]; [done|]. by apply elem_of_nil in Hs.
  - apply Forall_cons in Hall as [[s ->] Hrest]. simpl.
    destruct (IH (match network_of s with
                  | Some network => {[network]} ∪ acc
                  | None => acc end) Hrest) as (nets & Heq & Hin).
    exists nets. split; [exact Heq|]. intros n. rewrite Hin. split.
    + intros [Hn|(s' & Hs' & Hn)].
      * destruct (network_of s) as [m|] eqn:Hm; [|by left].
        apply elem_of_union in Hn as [->%elem_of_singleton|Hn]; [|by left].
        right. exists s. split; [apply list_elem_of_here|done].
      * right. exists s'. split; [by apply list_elem_of_further|done].
    + intros [Hn|(s' & Hs' & Hn)].
      * left. destruct (network_of s); [|done]. apply elem_of_union. by right.
      * apply elem_of_cons in Hs' as [Heq'|Hs'].
        -- left. injection Heq' as ->. rewrite Hn. apply elem_of_union. left.
           by apply elem_of_singleton.
        -- right. by exists s'.
Qed.

Lemma related_loop_spec (nets : gset string) (items : list (pykey * Z)) (acc : gset Z) :
  Forall (fun kv => str_key kv.1) items →
  ∃ related, related_loop target_asn nets items acc = Ok related ∧
    ∀ a, a ∈ related ↔
      a ∈ acc ∨ ∃ s n, (KStr s, a) ∈ items ∧ a ≠ target_asn
                       ∧ network_of s = Some n ∧ n ∈ nets.
Proof.
  revert acc. induction items as [|[k asn] rest IH]; intros acc Hall.
  - exists acc. split; [done|]. intros a. split; [by left|].
    intros [?|(s & n & Hs & _)]; [done|]. by apply elem_of_nil in Hs.
  - apply Forall_cons in Hall as [[s Hk] Hrest]. simpl in Hk. subst k. simpl.
    destruct (decide (asn = target_asn)) as [->|Hne].
    + destruct (IH acc Hrest) as (related & Heq & Hin).
      exists related. split; [exact Heq|]. intros a. rewrite Hin. split.
      * intros [?|(s' & n & Hs' & ?)]; [by left|].
        right. exists s', n. split; [by apply list_elem_of_further|done].
      * intros [?|(s' & n & Hs' & Ha & ?)]; [by left|].
        apply elem_of_cons in Hs' as [Heq'|Hs']; [by injection Heq' as -> ->|].
        right. by exists s', n.
    + simpl.
      destruct (IH (match network_of s with
                    | Some network =>
                        if decide (network ∈ nets) then {[asn]} ∪ acc else acc
                    | None => acc end) Hrest) as (related & Heq & Hin).
      exists related. split; [exact Heq|]. intros a. rewrite Hin. split.
      * intros [Ha|(s' & n & Hs' & ?)].
        -- destruct (network_of s) as [m|] eqn:Hm; [|by left].
           destruct (decide (m ∈ nets)) as [Hm'|]; [|by left].
           apply elem_of_union in Ha as [->%elem_of_singleton|Ha]; [|by left].
           right. exists s, m. split; [apply list_elem_of_here|done].
        -- right. exists s', n. split; [by apply list_elem_of_further|done].
      * intros [Ha|(s' & n & Hs' & Ha & Hn & Hnets)].
        -- left. destruct (network_of s) as [m|]; [|done].
           destruct (decide (m ∈ nets)); [|done]. apply elem_of_union. by right.
        -- apply elem_of_cons in Hs' as [Heq'|Hs'].
           ++ left. injection Heq' as -> ->. rewrite Hn.
              rewrite decide_True by done. apply elem_of_union. left.
              by apply elem_of_singleton.
           ++ right. by exists s', n.
Qed.

Lemma str_table_items (t : gmap string Z) :
  Forall (fun kv => str_key kv.1) (map_to_list (str_table t)).
Proof.
  apply Forall_forall. intros [k a] Hin. simpl.
  apply elem_of_map_to_list in Hin. unfold str_table in Hin.
  apply lookup_kmap_Some in Hin as (s & -> & _); [|apply _]. by exists s.
Qed.

Lemma str_table_elem (t : gmap string Z) (s : string) (a : Z) :
  (KStr s, a) ∈ map_to_list (str_table t) ↔ t !! s = Some a.
Proof.
  rewrite elem_of_map_to_list. unfold str_table.
  rewrite (lookup_kmap (M1:=gmap string) (M2:=gmap pykey) KStr). done.
Qed.

Lemma our_prefixes_str (t : gmap string Z) :
  Forall str_key (our_prefixes target_asn (str_table t)).
Proof.
  apply Forall_forall. intros k Hk. unfold our_prefixes in Hk.
  apply list_elem_of_fmap in Hk as ([k' a] & -> & Hin).
  apply list_elem_of_filter in Hin as [_ Hin].
  pose proof (str_table_items t) as Hall.
  rewrite Forall_forall in Hall. exact (Hall _ Hin).
Qed.

Lemma our_prefixes_elem (t : gmap string Z) (s : string) :
  KStr s ∈ our_prefixes target_asn (str_table t) ↔ t !! s = Some target_asn.
Proof.
  unfold our_prefixes. rewrite list_elem_of_fmap. split.
  - intros ([k a] & Hk & Hin). simpl in Hk. subst k.
    apply list_elem_of_filter in Hin as [Ha Hin]. simpl in Ha. subst a.
    by apply str_table_elem.
  - intros Hs. exists (KStr s, target_asn). split; [done|].
    apply list_elem_of_filter. split; [done|]. by apply str_table_elem.
Qed.

(** On a table of string keys both loops run to their end: the grouping
    keys are those of the prefixes of the target, and the related ASNs are
    the other origins of a prefix with one of these keys. *)
Lemma get_related_asns_str (t : gmap string Z) :
  ∃ nets related,
    our_networks target_asn (str_table t) = Ok nets
    ∧ get_related_asns target_asn (str_table t) = Ok related
    ∧ (∀ n, n ∈ nets ↔ ∃ p, t !! p = Some target_asn ∧ network_of p = Some n)
    ∧ (∀ a, a ∈ related ↔
         ∃ p n, t !! p = Some a ∧ a ≠ target_asn
                ∧ network_of p = Some n ∧ n ∈ nets).
Proof.
  destruct (networks_loop_spec (our_prefixes target_asn (str_table t)) ∅
              (our_prefixes_str t)) as (nets & Hnets & Hn).
  assert (Hn' : ∀ n, n ∈ nets ↔ ∃ p, t !! p = Some target_asn ∧ network_of p = Some n).
  { intros n. rewrite Hn. split.
    - intros [Hempty|(s & Hs & Hnet)]; [by apply not_elem_of_empty in Hempty|].
      exists s. split; [by apply our_prefixes_elem|done].
    - intros (p & Hp & Hnet). right. exists p.
      split; [by apply our_prefixes_elem|done]. }
  destruct (related_loop_spec nets (map_to_list (str_table t)) ∅
              (str_table_items t)) as (related & Hrel & Hr).
  assert (Hr' : ∀ a, a ∈ related ↔
            ∃ p n, t !! p = Some a ∧ a ≠ target_asn
                   ∧ network_of p = Some n ∧ n ∈ nets).
  { intros a. rewrite Hr. split.
    - intros [Hempty|(s & n & Hs & ?)]; [by apply not_elem_of_empty in Hempty|].
      exists s, n. split; [by apply str_table_elem|done].
    - intros (p & n & Hp & ?). right. exists p, n.
      split; [by apply str_table_elem|done]. }
  unfold get_related_asns. unfold our_networks in *.
  destruct (decide (str_table t = ∅)) as [Hempty|Hne].
  - apply kmap_empty_iff in Hempty; [|apply _]. subst t.
    exists nets, ∅. split; [done|]. split; [done|]. split; [done|].
    intros a. split; [intros Ha; by apply not_elem_of_empty in Ha|].
    intros (p & n & Hp & _). by rewrite lookup_empty in Hp.
  - exists nets, related. rewrite Hnets. simpl. by rewrite Hrel.
Qed.

End RelatedFacts.

Lemma related_loop_not_target (target_asn : Z) (nets : gset string)
  (items : list (pykey * Z)) (acc related : gset Z) :
  related_loop target_asn nets items acc = Ok related →
  target_asn ∉ acc → target_asn ∉ related.
Proof.
  revert acc. induction items as [|[k asn] rest IH]; intros acc; simpl.
  - intros [= <-]. done.
  - destruct (decide (asn = target_asn)) as [->|Hne]; [apply IH|].
    destruct (key_str k) as [s|e]; simpl; [|done].
    intros Heq Hacc. apply (IH _ Heq).
    destruct (network_of s) as [n|]; [|done].
    destruct (decide (n ∈ nets)); [|done].
    intros [->%elem_of_singleton|?]%elem_of_union; done.
Qed.

Lemma networks_loop_raise (prefixes : list pykey) (acc : gset string) (e : pyexn) :
  networks_loop prefixes acc = Raise e → e = TypeError.
Proof.
  revert acc. induction prefixes as [|k rest IH]; intros acc; simpl; [done|].
  destruct k; simpl; try (by intros [= <-]). apply IH.
Qed.

Lemma related_loop_raise (target_asn : Z) (nets : gset string)
  (items : list (pykey * Z)) (acc : gset Z) (e : pyexn) :
  related_loop target_asn nets items acc = Raise e → e = TypeError.
Proof.
  revert acc. induction items as [|[k asn] rest IH]; intros acc; simpl; [done|].
  destruct (decide (asn = target_asn)); [apply IH|].
  destruct k; simpl; try (by intros [= <-]). apply IH.
Qed.

(** The grouping key of a dotted address: the first two octets. *)
Lemma network_of_ipv4 (o0 o1 : string) (more : list string) (rest : string) :
  Forall (fun x => Py.contains "." x = false ∧ Py.contains "/" x = false)
         (o0 :: o1 :: more) →
  network_of (Py.join "." (o0 :: o1 :: more) +:+ String "/" rest)
  = Some (o0 +:+ "." +:+ o1).
Proof.
  intros Hall.
  assert (Hdot : Forall (fun x => Py.contains "." x = false) (o0 :: o1 :: more)).
  { eapply Forall_impl; [exact Hall|]. by intros x [? ?]. }
  assert (Hslash : Forall (fun x => Py.contains "/" x = false) (o0 :: o1 :: more)).
  { eapply Forall_impl; [exact Hall|]. by intros x [? ?]. }
  assert (Hip : Py.contains "/" (Py.join "." (o0 :: o1 :: more)) = false).
  { by apply contains_join_other. }
  unfold network_of.
  rewrite contains_app. simpl Py.contains at 2. rewrite orb_true_r.
  rewrite split_at_first by exact Hip. cbn [hd].
  rewrite contains_join_sep.
  rewrite split_join by done. done.
Qed.

(** The grouping key of an address written with colons and no dot: the
    first two hextets. *)
Lemma network_of_ipv6 (h0 h1 : string) (more : list string) (rest : string) :
  Forall (fun x => Py.contains ":" x = false ∧ Py.contains "." x = false
                   ∧ Py.contains "/" x = false) (h0 :: h1 :: more) →
  network_of (Py.join ":" (h0 :: h1 :: more) +:+ String "/" rest)
  = Some (h0 +:+ ":" +:+ h1).
Proof.
  intros Hall.
  assert (Hcolon : Forall (fun x => Py.contains ":" x = false) (h0 :: h1 :: more)).
  { eapply Forall_impl; [exact Hall|]. by intros x (? & ? & ?). }
  assert (Hdot : Forall (fun x => Py.contains "." x = false) (h0 :: h1 :: more)).
  { eapply Forall_impl; [exact Hall|]. by intros x (? & ? & ?). }
  assert (Hslash : Forall (fun x => Py.contains "/" x = false) (h0 :: h1 :: more)).
  { eapply Forall_impl; [exact Hall|]. by intros x (? & ? & ?). }
  assert (Hip : Py.contains "/" (Py.join ":" (h0 :: h1 :: more)) = false).
  { by apply contains_join_other. }
  assert (Hip' : Py.contains "." (Py.join ":" (h0 :: h1 :: more)) = false).
  { by apply contains_join_other. }
  unfold network_of.
  rewrite contains_app. simpl Py.contains at 2. rewrite orb_true_r.
  rewrite split_at_first by exact Hip. cbn [hd].
  rewrite Hip', contains_join_sep.
  rewrite split_join by done. done.
Qed.

(** C8. The set [get_related_asns] returns never holds the target ASN.
    This holds for every table on which the method returns; it returns on
    every table whose keys are strings, and the only exception it can
    raise is the [TypeError] of a key that is no string. *)
Theorem related_asns_exclude_target (target_asn : Z) (table_data : gmap pykey Z) :
  match get_related_asns target_asn table_data with
  | Ok related => target_asn ∉ related
  | Raise e => e = TypeError ∧ ¬ ∃ t, table_data = str_table t
  end.
Proof.
  destruct (get_related_asns target_asn table_data) as [related|e] eqn:Hget.
  - unfold get_related_asns in Hget.
    destruct (decide (table_data = ∅)); [injection Hget as <-; set_solver|].
    destruct (our_networks target_asn table_data) as [nets|e]; simpl in Hget; [|done].
    eapply related_loop_not_target; [exact Hget|set_solver].
  - split.
    + unfold get_related_asns in Hget.
      destruct (decide (table_data = ∅)); [done|].
      destruct (our_networks target_asn table_data) as [nets|e'] eqn:Hnets;
        simpl in Hget.
      * by eapply related_loop_raise.
      * injection Hget as <-. by eapply networks_loop_raise.
    + intros [t ->].
      destruct (get_related_asns_str target_asn t) as (? & ? & _ & Hok & _).
      congruence.
Qed.

(** C2. On a route table (string keys), [get_related_asns] returns, and:
    the grouping keys are exactly the keys [network_of] gives the prefixes
    whose origin is the target; the set returned holds exactly the origins
    other than the target of the prefixes whose key is one of them; the
    key of a dotted prefix is made of its first two octets and the key of
    a prefix written with colons of its first two hextets; and when the
    target originates 1.2.3.0/24 and 1.2.4.0/24 and nothing else, the key
    set is {1.2} and every other ASN that announces a prefix whose first
    two octets are 1 and 2 is in the set. *)
Theorem get_related_asns_groups (target_asn : Z) (t : gmap string Z) :
  ∃ nets related,
    our_networks target_asn (str_table t) = Ok nets
    ∧ get_related_asns target_asn (str_table t) = Ok related
    ∧ (∀ n, n ∈ nets ↔ ∃ p, t !! p = Some target_asn ∧ network_of p = Some n)
    ∧ (∀ a, a ∈ related ↔
         ∃ p n, t !! p = Some a ∧ a ≠ target_asn
                ∧ network_of p = Some n ∧ n ∈ nets)
    ∧ (∀ o0 o1 more rest,
         Forall (fun x => Py.contains "." x = false ∧ Py.contains "/" x = false)
                (o0 :: o1 :: more) →
         network_of (Py.join "." (o0 :: o1 :: more) +:+ String "/" rest)
         = Some (o0 +:+ "." +:+ o1))
    ∧ (∀ h0 h1 more rest,
         Forall (fun x => Py.contains ":" x = false ∧ Py.contains "." x = false
                          ∧ Py.contains "/" x = false) (h0 :: h1 :: more) →
         network_of (Py.join ":" (h0 :: h1 :: more) +:+ String "/" rest)
         = Some (h0 +:+ ":" +:+ h1))
    ∧ ((∀ p, t !! p = Some target_asn ↔ p = "1.2.3.0/24" ∨ p = "1.2.4.0/24") →
       nets = {["1.2"]}
       ∧ ∀ a more rest,
           Forall (fun x => Py.contains "." x = false ∧ Py.contains "/" x = false)
                  more →
           t !! (Py.join "." ("1" :: "2" :: more) +:+ String "/" rest) = Some a →
           a ≠ target_asn → a ∈ related).
Proof.
  destruct (get_related_asns_str target_asn t) as (nets & related & Hn & Hr & Hnets & Hrel).
  exists nets, related.
  split; [exact Hn|]. split; [exact Hr|]. split; [exact Hnets|]. split; [exact Hrel|].
  split; [apply network_of_ipv4|]. split; [apply network_of_ipv6|].
  intros Hown.
  assert (Hkeys : nets = {["1.2"]}).
  { apply set_eq. intros n. rewrite Hnets, elem_of_singleton. split.
    - intros (p & Hp & Hnet). apply Hown in Hp as [->| ->];
        vm_compute in Hnet; congruence.
    - intros ->. exists "1.2.3.0/24". split; [apply Hown; by left|reflexivity]. }
  split; [exact Hkeys|].
  intros a more rest Hmore Hp Ha. apply Hrel.
  eexists _, "1.2". split; [exact Hp|]. split; [exact Ha|]. split.
  - apply (network_of_ipv4 "1" "2" more rest).
    apply Forall_cons. split; [done|]. apply Forall_cons. by split.
  - rewrite Hkeys. by apply elem_of_singleton.
Qed.

(** ** [analyze_asn_relationships] *)

Section PyStripFacts.
Implicit Types (c : ascii) (s : string) (p : ascii → bool).

Lemma contains_nonempty c s : Py.contains c s = true → Py.nonempty s = true.
Proof. by destruct s. Qed.

Lemma contains_lstrip p c s :
  p c = false → Py.contains c (Py.lstrip_by p s) = Py.contains c s.
Proof.
  intros Hc. induction s as [|d r IH]; simpl; [done|].
  destruct (p d) eqn:Hd; [|done]. rewrite IH.
  destruct (Ascii.eqb_spec d c) as [->|]; [congruence|done].
Qed.

Lemma contains_rstrip p c s :
  p c = false → Py.contains c (Py.rstrip_by p s) = Py.contains c s.
Proof.
  intros Hc. induction s as [|d r IH]; simpl; [done|].
  destruct (Py.rstrip_by p r) as [|e r'] eqn:Hr.
  - simpl in IH. rewrite <- IH. destruct (p d) eqn:Hd; simpl.
    + destruct (Ascii.eqb_spec d c) as [->|]; [congruence|done].
    + by rewrite orb_false_r.
  - change (Py.contains c (String d (String e r')))
      with (Ascii.eqb d c || Py.contains c (String e r')).
    by rewrite IH.
Qed.

Lemma contains_strip c s :
  Py.isspace c = false → Py.contains c (Py.strip s) = Py.contains c s.
Proof.
  intros Hc. unfold Py.strip. by rewrite contains_rstrip, contains_lstrip.
Qed.

Lemma split_two_contains c s :
  (2 <= length (Py.split c s))%nat → Py.contains c s = true.
Proof.
  destruct (Py.contains c s) eqn:Hc; [done|].
  rewrite (split_absent c s Hc). simpl. lia.
Qed.

End PyStripFacts.

(** The batches are the list cut in pieces: no query is lost. *)
Lemma chunks_fuel_concat {A} (n fuel : nat) (l : list A) :
  (0 < n)%nat → (length l <= fuel)%nat → concat (chunks_fuel fuel n l) = l.
Proof.
  intros Hn. revert l. induction fuel as [|f IH]; intros l Hlen.
  - destruct l; [done|simpl in Hlen; lia].
  - destruct l as [|x l']; [done|].
    change (chunks_fuel (S f) n (x :: l'))
      with (take n (x :: l') :: chunks_fuel f n (drop n (x :: l'))).
    simpl concat. rewrite IH; [apply take_drop|].
    rewrite length_drop. simpl in *. lia.
Qed.

Lemma chunks_concat {A} (n : nat) (l : list A) :
  (0 < n)%nat → concat (chunks n l) = l.
Proof. intros Hn. by apply chunks_fuel_concat. Qed.

(** The answers kept are the non-empty answers to the batches. *)
Lemma all_results_elem (bulk_whois_query : nat → list string → string)
  (asn_list : list Z) (result : string) :
  result ∈ all_results bulk_whois_query asn_list ↔
  result ≠ EmptyString
  ∧ ∃ i batch,
      chunks batch_size (map (fun asn => "as" +:+ Py.str asn) asn_list) !! i = Some batch
      ∧ result = bulk_whois_query i batch.
Proof.
  unfold all_results. rewrite list_elem_of_filter, list_elem_of_lookup.
  setoid_rewrite list_lookup_imap.
  split.
  - intros [Hne (i & Hi)]. split; [by destruct result|].
    destruct (chunks batch_size _ !! i) as [batch|] eqn:Hb; [|done].
    exists i, batch. split; [done|]. simpl in Hi. congruence.
  - intros [Hne (i & batch & Hb & ->)]. split.
    + by destruct (bulk_whois_query i batch).
    + exists i. by rewrite Hb.
Qed.

Section AnalyzeFacts.
Variables (target_asn : Z) (asn_list : list Z).

Lemma record_line_nonempty (line : string) :
  (7 <= length (Py.split "|" line))%nat →
  Py.nonempty (Py.strip line) = true.
Proof.
  intros Hlen. apply (contains_nonempty "|").
  rewrite contains_strip by done. apply split_two_contains. lia.
Qed.

Lemma record_asn_fields (line : string) :
  (7 <= length (Py.split "|" line))%nat →
  record_asn line = Py.int (Py.strip (nth 0 (Py.split "|" line) EmptyString)).
Proof.
  intros Hlen. unfold record_asn. rewrite record_line_nonempty by done.
  cbv zeta. by rewrite (proj2 (Nat.leb_le _ _) Hlen).
Qed.

Lemma classify_line_record (st : gset Z * gset Z) (line : string) :
  classify_line target_asn asn_list st line =
  match record_asn line with
  | Some asn =>
      if bool_decide (asn ∈ asn_list) && negb (asn =? target_asn) then
        if same_length asn target_asn
        then ({[asn]} ∪ st.1, st.2) else (st.1, {[asn]} ∪ st.2)
      else st
  | None => st
  end.
Proof.
  unfold classify_line, record_asn, same_length.
  destruct (Py.nonempty (Py.strip line)); [|done]. cbv zeta.
  destruct (7 <=? length (Py.split "|" line))%nat; done.
Qed.

Local Ltac crush :=
  repeat match goal with
         | H : _ ∧ _ |- _ => destruct H
         | H : _ ∨ _ |- _ => destruct H
         | H : Some _ = Some _ |- _ => injection H as ->
         end;
  try subst; try congruence; auto 6.

Lemma classify_line_spec (st : gset Z * gset Z) (line : string) (a : Z) :
  (a ∈ (classify_line target_asn asn_list st line).1 ↔
     a ∈ st.1 ∨ record_asn line = Some a ∧ to_peers target_asn asn_list a)
  ∧ (a ∈ (classify_line target_asn asn_list st line).2 ↔
     a ∈ st.2 ∨ record_asn line = Some a ∧ to_other target_asn asn_list a).
Proof.
  rewrite classify_line_record. unfold to_peers, to_other.
  destruct (record_asn line) as [asn|];
    [|split; split; intros; crush].
  destruct (bool_decide (asn ∈ asn_list)) eqn:Hin; simpl.
  - apply bool_decide_eq_true in Hin.
    destruct (Z.eqb_spec asn target_asn) as [->|Hne]; simpl.
    + split; split; intros; crush.
    + destruct (same_length asn target_asn) eqn:Hlen; simpl;
        split; rewrite ?elem_of_union, ?elem_of_singleton;
        split; intros; crush.
  - apply bool_decide_eq_false in Hin.
    split; split; intros; crush.
Qed.

Lemma classify_lines_spec (lines : list string) (st : gset Z * gset Z) (a : Z) :
  (a ∈ (foldl (classify_line target_asn asn_list) st lines).1 ↔
     a ∈ st.1 ∨ (∃ line, line ∈ lines ∧ record_asn line = Some a) ∧ to_peers target_asn asn_list a)
  ∧ (a ∈ (foldl (classify_line target_asn asn_list) st lines).2 ↔
     a ∈ st.2 ∨ (∃ line, line ∈ lines ∧ record_asn line = Some a) ∧ to_other target_asn asn_list a).
Proof.
  revert st. induction lines as [|line rest IH]; intros st; simpl.
  - split; split; [by left| |by left|];
      intros [?|[(l & Hl & _) _]]; try done; by apply elem_of_nil in Hl.
  - destruct (IH (classify_line target_asn asn_list st line)) as [IH1 IH2].
    destruct (classify_line_spec st line a) as [H1 H2].
    rewrite IH1, IH2, H1, H2. clear.
    split; split.
    + intros [[?|[? ?]]|[(l & Hl & ?) ?]]; [by left| |].
      * right. split; [|done]. exists line. split; [apply list_elem_of_here|done].
      * right. split; [|done]. exists l. split; [by apply list_elem_of_further|done].
    + intros [?|[(l & Hl & Hr) ?]]; [by left; left|].
      apply elem_of_cons in Hl as [->|Hl]; [by left; right|].
      right. split; [|done]. by exists l.
    + intros [[?|[? ?]]|[(l & Hl & ?) ?]]; [by left| |].
      * right. split; [|done]. exists line. split; [apply list_elem_of_here|done].
      * right. split; [|done]. exists l. split; [by apply list_elem_of_further|done].
    + intros [?|[(l & Hl & Hr) ?]]; [by left; left|].
      apply elem_of_cons in Hl as [->|Hl]; [by left; right|].
      right. split; [|done]. by exists l.
Qed.

Lemma classify_results_spec (results : list string) (st : gset Z * gset Z) (a : Z) :
  (a ∈ (foldl (classify_result target_asn asn_list) st results).1 ↔
     a ∈ st.1 ∨ in_response results a ∧ to_peers target_asn asn_list a)
  ∧ (a ∈ (foldl (classify_result target_asn asn_list) st results).2 ↔
     a ∈ st.2 ∨ in_response results a ∧ to_other target_asn asn_list a).
Proof.
  revert st. induction results as [|result rest IH]; intros st; simpl.
  - split; split; [by left| |by left|];
      intros [?|[(r & l & Hr & _) _]]; try done; by apply elem_of_nil in Hr.
  - destruct (IH (classify_result target_asn asn_list st result)) as [IH1 IH2].
    destruct (classify_lines_spec (lines_of result) st a) as [H1 H2].
    rewrite IH1, IH2.
    change (classify_result target_asn asn_list st result)
      with (foldl (classify_line target_asn asn_list) st (lines_of result)).
    rewrite H1, H2. clear.
    unfold in_response. split; split.
    + intros [[?|[(l & Hl & ?) ?]]|[(r & l & Hr & Hl & ?) ?]]; [by left| |].
      * right. split; [|done]. exists result, l.
        split; [apply list_elem_of_here|done].
      * right. split; [|done]. exists r, l.
        split; [by apply list_elem_of_further|done].
    + intros [?|[(r & l & Hr & Hl & ?) ?]]; [by left; left|].
      apply elem_of_cons in Hr as [->|Hr].
      * left; right. split; [|done]. by exists l.
      * right. split; [|done]. by exists r, l.
    + intros [[?|[(l & Hl & ?) ?]]|[(r & l & Hr & Hl & ?) ?]]; [by left| |].
      * right. split; [|done]. exists result, l.
        split; [apply list_elem_of_here|done].
      * right. split; [|done]. exists r, l.
        split; [by apply list_elem_of_further|done].
    + intros [?|[(r & l & Hr & Hl & ?) ?]]; [by left; left|].
      apply elem_of_cons in Hr as [->|Hr].
      * left; right. split; [|done]. by exists l.
      * right. split; [|done]. by exists r, l.
Qed.

(** The two sets of [analyze_asn_relationships], by membership. *)
Lemma analyze_spec (bulk_whois_query : nat → list string → string) (a : Z) :
  let sets := analyze_asn_relationships bulk_whois_query target_asn asn_list in
  let results := all_results bulk_whois_query asn_list in
  (a ∈ sets.1 ↔ in_response results a ∧ to_peers target_asn asn_list a)
  ∧ (a ∈ sets.2 ↔ in_response results a ∧ to_other target_asn asn_list a).
Proof.
  cbv zeta. unfold analyze_asn_relationships.
  destruct (classify_results_spec (all_results bulk_whois_query asn_list) (∅, ∅) a)
    as [H1 H2].
  rewrite H1, H2. simpl.
  split; (split; [|by right]);
    intros [Hempty|?]; try done; by apply not_elem_of_empty in Hempty.
Qed.

End AnalyzeFacts.

(** ** [str] and [int] on integers *)

Section StrIntFacts.

Lemma digit_cases (d : Z) :
  0 <= d < 10 →
  d = 0 ∨ d = 1 ∨ d = 2 ∨ d = 3 ∨ d = 4 ∨ d = 5 ∨ d = 6 ∨ d = 7 ∨ d = 8 ∨ d = 9.
Proof. lia. Qed.

Lemma digit_of_digit_char (d : Z) :
  0 <= d < 10 → Py.digit_of (Py.digit_char d) = Some d.
Proof.
  intros Hd. destruct (digit_cases d Hd) as [->|[->|[->|[->|[->|[->|[->|[->|[->| ->]]]]]]]]];
    reflexivity.
Qed.

(** [str_digits] writes [k + 1] digits, where [10 ^ k <= n < 10 ^ (k + 1)]
    (or [k = 0] for a single digit), and they read back as [n]. *)
Lemma str_digits_spec (fuel : nat) (n : Z) (acc : string) :
  0 <= n → n < 2 ^ (Z.of_nat fuel + 1) →
  ∃ k : nat,
    String.length (Py.str_digits fuel n acc) = (S k + String.length acc)%nat
    ∧ n < 10 ^ (Z.of_nat k + 1)
    ∧ (k = O ∨ 10 ^ Z.of_nat k <= n)
    ∧ (∀ a0, digits_value a0 (Py.str_digits fuel n acc)
             = digits_value (a0 * 10 ^ (Z.of_nat k + 1) + n) acc)
    ∧ (∃ d r, 0 <= d < 10 ∧ Py.str_digits fuel n acc = String (Py.digit_char d) r).
Proof.
  revert n acc. induction fuel as [|f IH]; intros n acc Hn Hlt.
  - exists O. simpl in *. assert (n mod 10 = n) as Hmod by (apply Z.mod_small; lia).
    rewrite Hmod. repeat split; [lia|by left| |].
    + intros a0. rewrite digit_of_digit_char by lia. simpl. f_equal. lia.
    + exists n, acc. split; [lia|done].
  - simpl. destruct (Z.ltb_spec n 10) as [Hsmall|Hbig].
    + exists O. assert (n mod 10 = n) as Hmod by (apply Z.mod_small; lia).
      rewrite Hmod. repeat split; [simpl; lia|by left| |].
      * intros a0. simpl. rewrite digit_of_digit_char by lia. simpl. f_equal. lia.
      * exists n, acc. split; [lia|done].
    + assert (Hq : 0 <= n / 10) by (apply Z.div_pos; lia).
      assert (Hq' : n / 10 < 2 ^ (Z.of_nat f + 1)).
      { apply Z.div_lt_upper_bound; [lia|].
        replace (Z.of_nat (S f) + 1) with (Z.succ (Z.of_nat f + 1)) in Hlt by lia.
        rewrite Z.pow_succ_r in Hlt by lia. lia. }
      destruct (IH (n / 10) (String (Py.digit_char (n mod 10)) acc) Hq Hq')
        as (k & Hlen & Hup & Hlow & Hval & Hhead).
      exists (S k). pose proof (Z.mod_pos_bound n 10 ltac:(lia)) as Hm.
      pose proof (Z.div_mod n 10 ltac:(lia)) as Hdm.
      replace (Z.of_nat (S k) + 1) with (Z.succ (Z.of_nat k + 1)) by lia.
      rewrite Z.pow_succ_r by lia.
      repeat split.
      * rewrite Hlen. simpl. lia.
      * lia.
      * right. replace (Z.of_nat (S k)) with (Z.succ (Z.of_nat k)) by lia.
        rewrite Z.pow_succ_r by lia.
        destruct Hlow as [->|Hlow]; [simpl; lia|lia].
      * intros a0. rewrite Hval. simpl. rewrite digit_of_digit_char by lia.
        simpl. f_equal. lia.
      * exact Hhead.
Qed.

Lemma str_nat_spec (n : Z) :
  0 <= n →
  ∃ k : nat,
    String.length (Py.str_nat n) = S k
    ∧ n < 10 ^ (Z.of_nat k + 1)
    ∧ (k = O ∨ 10 ^ Z.of_nat k <= n)
    ∧ digits_value 0 (Py.str_nat n) = n
    ∧ (∃ d r, 0 <= d < 10 ∧ Py.str_nat n = String (Py.digit_char d) r).
Proof.
  intros Hn. unfold Py.str_nat.
  assert (Hfuel : n < 2 ^ (Z.of_nat (Z.to_nat (Z.log2 n)) + 1)).
  { rewrite Z2Nat.id by apply Z.log2_nonneg.
    destruct (Z.eq_dec n 0) as [->|Hne]; [reflexivity|].
    replace (Z.log2 n + 1) with (Z.succ (Z.log2 n)) by lia.
    apply Z.log2_spec. lia. }
  destruct (str_digits_spec _ n EmptyString Hn Hfuel)
    as (k & Hlen & Hup & Hlow & Hval & Hhead).
  exists k. rewrite Hlen, Hval. simpl. repeat split; try done; lia.
Qed.

(** The number of characters of [str(n)] for [n > 0] is the number of its
    decimal digits. *)
Lemma str_length_digits (n : Z) (d : nat) :
  0 < n →
  (String.length (Py.str n) = S d ↔ 10 ^ Z.of_nat d <= n < 10 ^ (Z.of_nat d + 1)).
Proof.
  intros Hn. unfold Py.str. rewrite (proj2 (Z.ltb_ge n 0)) by lia.
  destruct (str_nat_spec n ltac:(lia)) as (k & Hlen & Hup & Hlow & _).
  rewrite Hlen.
  assert (Hlow' : 10 ^ Z.of_nat k <= n).
  { destruct Hlow as [->|?]; [simpl; lia|done]. }
  split.
  - intros [= ->]. done.
  - intros [Hd1 Hd2]. f_equal.
    destruct (Nat.lt_trichotomy k d) as [Hlt|[->|Hgt]]; [|done|].
    + assert (10 ^ (Z.of_nat k + 1) <= 10 ^ Z.of_nat d)
        by (apply Z.pow_le_mono_r; lia). lia.
    + assert (10 ^ (Z.of_nat d + 1) <= 10 ^ Z.of_nat k)
        by (apply Z.pow_le_mono_r; lia). lia.
Qed.

Lemma str_zero : Py.str 0 = "0".
Proof. reflexivity. Qed.

End StrIntFacts.

Lemma decimal_digits_str (n : Z) :
  0 <= n → decimal_digits n (String.length (Py.str n)).
Proof.
  intros Hn. unfold Py.str. rewrite (proj2 (Z.ltb_ge n 0)) by lia.
  destruct (str_nat_spec n Hn) as (k & Hlen & Hup & Hlow & _).
  rewrite Hlen. unfold decimal_digits.
  replace (Z.of_nat (S k)) with (Z.of_nat k + 1) by lia.
  split; [lia|]. split; [done|].
  destruct Hlow as [->|Hlow]; [by left|right].
  by replace (Z.of_nat k + 1 - 1) with (Z.of_nat k) by lia.
Qed.

Lemma decimal_digits_unique (n : Z) (d1 d2 : nat) :
  decimal_digits n d1 → decimal_digits n d2 → d1 = d2.
Proof.
  intros (Hp1 & Hup1 & Hlow1) (Hp2 & Hup2 & Hlow2).
  destruct (Nat.lt_trichotomy d1 d2) as [Hlt|[->|Hgt]]; [|done|].
  - destruct Hlow2 as [->|Hlow2]; [lia|].
    assert (10 ^ Z.of_nat d1 <= 10 ^ (Z.of_nat d2 - 1))
      by (apply Z.pow_le_mono_r; lia). lia.
  - destruct Hlow1 as [->|Hlow1]; [lia|].
    assert (10 ^ Z.of_nat d2 <= 10 ^ (Z.of_nat d1 - 1))
      by (apply Z.pow_le_mono_r; lia). lia.
Qed.

(** For two integers that are not negative, [same_length] compares their
    numbers of decimal digits. *)
Lemma same_length_digits (a target_asn : Z) :
  0 <= a → 0 <= target_asn →
  (String.length (Py.str a) = String.length (Py.str target_asn)
   ↔ ∃ d, decimal_digits a d ∧ decimal_digits target_asn d).
Proof.
  intros Ha Ht. split.
  - intros Heq. exists (String.length (Py.str a)). split.
    + by apply decimal_digits_str.
    + rewrite Heq. by apply decimal_digits_str.
  - intros (d & Hda & Hdt).
    rewrite (decimal_digits_unique a _ d (decimal_digits_str a Ha) Hda).
    by rewrite (decimal_digits_unique target_asn _ d (decimal_digits_str _ Ht) Hdt).
Qed.

Lemma same_length_true (a target_asn : Z) :
  same_length a target_asn = true
  ↔ String.length (Py.str a) = String.length (Py.str target_asn).
Proof. unfold same_length. apply Nat.eqb_eq. Qed.

Lemma same_length_false (a target_asn : Z) :
  same_length a target_asn = false
  ↔ String.length (Py.str a) ≠ String.length (Py.str target_asn).
Proof. unfold same_length. apply Nat.eqb_neq. Qed.

(** C1, as stated, fails: the table gives the target 10 a neighbour whose
    ASN is the integer -5, the whois answer has a record for it, and -5
    is put with the potential peers although -5 has one decimal digit
    and 10 has two: [str(-5)] and [str(10)] have the same length. *)
Lemma negative_asn_potential_peer :
  get_related_asns 10 (download_table json_loads (Ok negative_asn_table))
  = Ok {[ -5 ]}
  ∧ record_asn "-5 | 1.2.4.0/24 | x | y | US | ARIN | Example Net" = Some (-5)
  ∧ analyze_asn_relationships negative_record_whois 10 (elements ({[ -5 ]} : gset Z))
    = ({[ -5 ]}, ∅)
  ∧ decimal_digits (Z.abs (-5)) 1 ∧ decimal_digits 10 2
  ∧ ¬ ∃ d, decimal_digits (Z.abs (-5)) d ∧ decimal_digits 10 d.
Proof.
  assert (H5 : decimal_digits (Z.abs (-5)) 1) by (unfold decimal_digits; simpl; lia).
  assert (H10 : decimal_digits 10 2) by (unfold decimal_digits; simpl; lia).
  split; [by vm_compute|]. split; [by vm_compute|]. split; [by vm_compute|].
  split; [exact H5|]. split; [exact H10|].
  intros (d & Hd5 & Hd10).
  pose proof (decimal_digits_unique _ _ _ H5 Hd5) as <-.
  by pose proof (decimal_digits_unique _ _ _ H10 Hd10).
Qed.

(** C1, amended. A record line with at least seven fields whose first
    field reads as the integer [a], with [a] in the list given and other
    than the target, puts [a] with the potential peers exactly when
    [str(a)] and [str(target)] have the same length, and with the others
    exactly when they have not; for an ASN and a target that are not
    negative these lengths are the numbers of decimal digits.  (For a
    negative number [str] counts the sign too.) *)
Theorem record_classification (bulk_whois_query : nat → list string → string)
  (target_asn : Z) (asn_list : list Z) (result line : string) (a : Z) :
  result ∈ all_results bulk_whois_query asn_list →
  line ∈ lines_of result →
  (7 <= length (Py.split "|" line))%nat →
  Py.int (Py.strip (nth 0 (Py.split "|" line) EmptyString)) = Some a →
  a ∈ asn_list →
  a ≠ target_asn →
  let sets := analyze_asn_relationships bulk_whois_query target_asn asn_list in
  (a ∈ sets.1 ↔ String.length (Py.str a) = String.length (Py.str target_asn))
  ∧ (a ∈ sets.2 ↔ String.length (Py.str a) ≠ String.length (Py.str target_asn))
  ∧ (0 <= a → 0 <= target_asn →
     (String.length (Py.str a) = String.length (Py.str target_asn)
      ↔ ∃ d, decimal_digits a d ∧ decimal_digits target_asn d)).
Proof.
  intros Hres Hline Hlen Hint Hin Hne sets.
  assert (Hresp : in_response (all_results bulk_whois_query asn_list) a).
  { exists result, line. split; [done|]. split; [done|].
    by rewrite record_asn_fields. }
  destruct (analyze_spec target_asn asn_list bulk_whois_query a) as [H1 H2].
  fold sets in H1, H2. rewrite H1, H2. unfold to_peers, to_other.
  rewrite same_length_true, same_length_false.
  split; [|split].
  - split; [by intros (_ & _ & _ & ?)|done].
  - split; [by intros (_ & _ & _ & ?)|done].
  - apply same_length_digits.
Qed.

Lemma record_classification_witness :
  let sets := analyze_asn_relationships one_record_whois 64501 [64500; 7] in
  (64500 ∈ sets.1 ↔ String.length (Py.str 64500) = String.length (Py.str 64501))
  ∧ (64500 ∈ sets.2 ↔ String.length (Py.str 64500) ≠ String.length (Py.str 64501))
  ∧ (0 <= 64500 → 0 <= 64501 →
     (String.length (Py.str 64500) = String.length (Py.str 64501)
      ↔ ∃ d, decimal_digits 64500 d ∧ decimal_digits 64501 d)).
Proof.
  apply (record_classification one_record_whois 64501 [64500; 7]
           "64500 | 192.0.2.0/24 | x | y | US | ARIN | Example Net"
           "64500 | 192.0.2.0/24 | x | y | US | ARIN | Example Net" 64500).
  - vm_compute. apply list_elem_of_here.
  - vm_compute. apply list_elem_of_here.
  - vm_compute. lia.
  - vm_compute. reflexivity.
  - apply list_elem_of_here.
  - lia.
Defined.

(** C3. The two sets are disjoint; together they hold exactly the ASNs of
    the list, other than the target, that are the ASN of a record line of
    an answer; an ASN of no record line is in neither. *)
Theorem classification_partition (bulk_whois_query : nat → list string → string)
  (target_asn : Z) (asn_list : list Z) :
  let sets := analyze_asn_relationships bulk_whois_query target_asn asn_list in
  let results := all_results bulk_whois_query asn_list in
  sets.1 ## sets.2
  ∧ (∀ a, a ∈ sets.1 ∪ sets.2 ↔
          a ∈ asn_list ∧ a ≠ target_asn ∧ in_response results a)
  ∧ (∀ a, ¬ in_response results a → (a ∉ sets.1) ∧ (a ∉ sets.2)).
Proof.
  intros sets results.
  assert (Hspec : ∀ a,
            (a ∈ sets.1 ↔ in_response results a ∧ to_peers target_asn asn_list a)
            ∧ (a ∈ sets.2 ↔ in_response results a ∧ to_other target_asn asn_list a)).
  { intros a. apply analyze_spec. }
  split; [|split].
  - apply elem_of_disjoint. intros a Ha1 Ha2.
    apply Hspec in Ha1 as (_ & _ & _ & Htrue).
    apply Hspec in Ha2 as (_ & _ & _ & Hfalse). congruence.
  - intros a. rewrite elem_of_union.
    rewrite (proj1 (Hspec a)), (proj2 (Hspec a)). unfold to_peers, to_other.
    split.
    + intros [Ha|Ha]; destruct Ha as (? & ? & ? & _); done.
    + intros (? & ? & ?).
      destruct (same_length a target_asn) eqn:Hlen; [left|right]; done.
  - intros a Hno. split; intros Ha; apply Hspec in Ha as [? _]; done.
Qed.

(** *** The sets depend on the ASNs of the records only *)

Section FirstField.
Variables (target_asn : Z) (asn_list : list Z).

Lemma classify_line_asn (st : gset Z * gset Z) (line : string) :
  classify_line target_asn asn_list st line =
  match record_asn line with
  | Some asn => classify_asn target_asn asn_list st asn
  | None => st
  end.
Proof. apply classify_line_record. Qed.

Lemma foldl_classify_line (lines : list string) (st : gset Z * gset Z) :
  foldl (classify_line target_asn asn_list) st lines
  = foldl (classify_asn target_asn asn_list) st (omap record_asn lines).
Proof.
  revert st. induction lines as [|line rest IH]; intros st; [done|].
  simpl. rewrite classify_line_asn, IH.
  by destruct (record_asn line).
Qed.

Lemma foldl_classify_result (results : list string) (st : gset Z * gset Z) :
  foldl (classify_result target_asn asn_list) st results
  = foldl (classify_asn target_asn asn_list) st (record_asns results).
Proof.
  revert st. induction results as [|result rest IH]; intros st; [done|].
  simpl. rewrite IH. unfold classify_result. rewrite foldl_classify_line.
  unfold record_asns. simpl. by rewrite foldl_app.
Qed.

Lemma record_asns_nonempty (results : list string) :
  record_asns (filter (fun result => Py.nonempty result = true) results)
  = record_asns results.
Proof.
  induction results as [|result rest IH]; [done|].
  rewrite filter_cons. destruct (decide (Py.nonempty result = true)) as [Hne|He].
  - unfold record_asns in *. simpl. by rewrite IH.
  - rewrite IH. destruct result; [|done]. reflexivity.
Qed.

Lemma same_first_field_asn (l1 l2 : string) :
  same_first_field l1 l2 → record_asn l1 = record_asn l2.
Proof.
  intros [->|(H1 & H2 & Heq)]; [done|].
  rewrite !record_asn_fields by done. by rewrite Heq.
Qed.

Lemma same_first_fields_asns (lines1 lines2 : list string) :
  Forall2 same_first_field lines1 lines2 →
  omap record_asn lines1 = omap record_asn lines2.
Proof.
  induction 1 as [|l1 l2 r1 r2 Hl _ IH]; [done|].
  csimpl. rewrite (same_first_field_asn l1 l2 Hl), IH. done.
Qed.

Lemma record_asns_imap (f1 f2 : nat → list string → string)
  (batches : list (list string)) :
  (∀ i batch, omap record_asn (lines_of (f1 i batch))
              = omap record_asn (lines_of (f2 i batch))) →
  record_asns (imap f1 batches) = record_asns (imap f2 batches).
Proof.
  revert f1 f2. induction batches as [|batch rest IH]; intros f1 f2 Hf; [done|].
  unfold record_asns in *. simpl. rewrite Hf. f_equal.
  apply IH. intros i b. apply Hf.
Qed.

End FirstField.

(** C9. The two sets depend on the first fields of the record lines and
    on the target only: two servers whose answers, line for line, are the
    same or are records of at least seven fields with the same first
    field, whatever the country, the name and the other fields are, give
    the same two sets. *)
Theorem classification_ignores_fields
  (whois1 whois2 : nat → list string → string)
  (target_asn : Z) (asn_list : list Z) :
  (∀ i batch,
     Forall2 same_first_field (lines_of (whois1 i batch)) (lines_of (whois2 i batch))) →
  analyze_asn_relationships whois1 target_asn asn_list
  = analyze_asn_relationships whois2 target_asn asn_list.
Proof.
  intros Hsame. unfold analyze_asn_relationships.
  rewrite !foldl_classify_result. f_equal.
  unfold all_results. rewrite !record_asns_nonempty.
  apply record_asns_imap. intros i batch.
  apply same_first_fields_asns, Hsame.
Qed.

Lemma classification_ignores_fields_witness :
  analyze_asn_relationships one_record_whois 64501 [64500; 7]
  = analyze_asn_relationships other_fields_whois 64501 [64500; 7].
Proof.
  apply (classification_ignores_fields one_record_whois other_fields_whois
           64501 [64500; 7]).
  intros i batch. vm_compute lines_of. constructor; [|constructor].
  right. vm_compute. repeat split; lia.
Defined.

(** ** [write_results] *)

Section SortedFacts.

Lemma sorted_elem (s : gset Z) (a : Z) : a ∈ sorted s ↔ a ∈ s.
Proof.
  unfold sorted. rewrite (merge_sort_Permutation Z.le (elements s)).
  apply elem_of_elements.
Qed.

Lemma sorted_NoDup (s : gset Z) : NoDup (sorted s).
Proof.
  unfold sorted. rewrite (merge_sort_Permutation Z.le (elements s)).
  apply NoDup_elements.
Qed.

Lemma strictly_sorted (l : list Z) :
  StronglySorted Z.le l → NoDup l → StronglySorted Z.lt l.
Proof.
  induction 1 as [|x l Hl IH Hx]; intros Hnd; [constructor|].
  apply NoDup_cons in Hnd as [Hnotin Hnd].
  constructor; [by apply IH|].
  apply Forall_forall. intros y Hy.
  rewrite Forall_forall in Hx. specialize (Hx y Hy).
  assert (x ≠ y) by (intros ->; done). lia.
Qed.

Lemma sorted_ascending (s : gset Z) : StronglySorted Z.lt (sorted s).
Proof.
  apply strictly_sorted; [|apply sorted_NoDup].
  unfold sorted. apply StronglySorted_merge_sort; apply _.
Qed.

(** Whatever the order in which the set hands out its elements, sorting
    gives the same list. *)
Lemma sorted_any_order (s : gset Z) (l : list Z) :
  NoDup l → (∀ a, a ∈ l ↔ a ∈ s) → merge_sort Z.le l = sorted s.
Proof.
  intros Hnd Hl. unfold sorted.
  apply (StronglySorted_unique Z.le).
  - apply StronglySorted_merge_sort; apply _.
  - apply StronglySorted_merge_sort; apply _.
  - rewrite !merge_sort_Permutation.
    apply NoDup_Permutation; [done|apply NoDup_elements|].
    intros a. rewrite Hl. symmetry. apply elem_of_elements.
Qed.

End SortedFacts.

(** C6. Each file written holds, after its header, one entry for each ASN
    of its set, in ascending order: the list the entries follow holds exactly
    the members of the set, is strictly ascending, and is the same
    whatever order the set hands its members out in; the set
    {100, 64512, 7} is written as 7, 100, 64512; an entry carries the
    name the mapping has for the ASN and the label AS<number> when it has
    none. *)
Theorem report_ascending (target_asn : Z) (c : clock)
  (peers non_peers : gset Z) (asn_names : gmap Z string) :
  write_results (fun _ => true) target_asn c peers non_peers asn_names
  = ([ (peers_filename target_asn c,
        concat_str (peers_header target_asn c peers
                    ++ flat_map (report_entry asn_names) (sorted peers)));
       (non_peers_filename target_asn c,
        concat_str (non_peers_header target_asn c non_peers
                    ++ flat_map (report_entry asn_names) (sorted non_peers))) ],
     Ok (peers_filename target_asn c, non_peers_filename target_asn c))
  ∧ (∀ can_open file,
       file ∈ (write_results can_open target_asn c peers non_peers asn_names).1 →
       file = (peers_filename target_asn c,
               concat_str (peers_header target_asn c peers
                           ++ flat_map (report_entry asn_names) (sorted peers)))
       ∨ file = (non_peers_filename target_asn c,
                 concat_str (non_peers_header target_asn c non_peers
                             ++ flat_map (report_entry asn_names) (sorted non_peers))))
  ∧ (∀ s : gset Z,
       StronglySorted Z.lt (sorted s)
       ∧ (∀ a, a ∈ sorted s ↔ a ∈ s)
       ∧ (∀ l, NoDup l → (∀ a, a ∈ l ↔ a ∈ s) → merge_sort Z.le l = sorted s))
  ∧ sorted {[100; 64512; 7]} = [7; 100; 64512]
  ∧ flat_map (report_entry asn_names) [7; 100; 64512]
    = report_entry asn_names 7 ++ report_entry asn_names 100
      ++ report_entry asn_names 64512
  ∧ (∀ asn name,
       asn_names !! asn = Some name →
       report_entry asn_names asn
       = [ "AS" +:+ Py.str asn +:+ " - " +:+ name +:+ nl;
           "  BGP.Tools: " +:+ ("https://bgp.tools/as/" +:+ Py.str asn +:+ "#whois")
           +:+ nl +:+ nl ])
  ∧ (∀ asn,
       asn_names !! asn = None →
       report_entry asn_names asn
       = [ "AS" +:+ Py.str asn +:+ " - " +:+ "AS" +:+ Py.str asn +:+ nl;
           "  BGP.Tools: " +:+ ("https://bgp.tools/as/" +:+ Py.str asn +:+ "#whois")
           +:+ nl +:+ nl ]).
Proof.
  split; [reflexivity|]. split.
  { intros can_open file. unfold write_results.
    destruct (can_open (peers_filename target_asn c));
      [|by intros ?%elem_of_nil].
    destruct (can_open (non_peers_filename target_asn c)); simpl.
    - intros [->|[->|?%elem_of_nil]%elem_of_cons]%elem_of_cons; [by left|by right|done].
    - intros [->|?%elem_of_nil]%elem_of_cons; [by left|done]. }
  split.
  { intros s. split; [apply sorted_ascending|].
    split; [apply sorted_elem|apply sorted_any_order]. }
  split; [by vm_compute|]. split; [reflexivity|].
  split.
  - intros asn name Hname. unfold report_entry. rewrite Hname. reflexivity.
  - intros asn Hnone. unfold report_entry. rewrite Hnone. reflexivity.
Qed.

(** ** [int(str(n))] and the two ways of giving the ASN *)

Section RoundTrip.

Lemma strip_by_plain (p : ascii → bool) (s : string) :
  all_chars (fun c => negb (p c)) s = true →
  Py.lstrip_by p s = s ∧ Py.rstrip_by p s = s.
Proof.
  induction s as [|c r IH]; [done|]. simpl.
  intros [Hc Hr]%andb_true_iff. apply negb_true_iff in Hc. rewrite Hc.
  split; [done|]. destruct (IH Hr) as [_ ->]. by destruct r.
Qed.

Lemma all_chars_impl (p q : ascii → bool) (s : string) :
  (∀ c, p c = true → q c = true) → all_chars p s = true → all_chars q s = true.
Proof.
  intros Hpq. induction s as [|c r IH]; [done|]. simpl.
  intros [Hc Hr]%andb_true_iff. by rewrite (Hpq c Hc), (IH Hr).
Qed.

Lemma digit_range (c : ascii) :
  is_digit c = true → (48 <= N_of_ascii c <= 57)%N.
Proof.
  unfold is_digit, Py.digit_of.
  destruct (N.leb_spec 48 (N_of_ascii c)), (N.leb_spec (N_of_ascii c) 57);
    simpl; intros; try done; lia.
Qed.

Lemma digit_not_space (c : ascii) :
  is_digit c = true → Py.isspace c = false ∧ Py.int_isspace c = false.
Proof.
  intros Hc%digit_range. unfold Py.isspace, Py.int_isspace.
  set (n := N_of_ascii c) in *.
  repeat match goal with
         | |- context [(?a <=? ?b)%N] => destruct (N.leb_spec a b)
         | |- context [(?a =? ?b)%N] => destruct (N.eqb_spec a b)
         end; simpl; try done; lia.
Qed.

Lemma is_digit_digit_char (d : Z) : 0 <= d < 10 → is_digit (Py.digit_char d) = true.
Proof. intros Hd. unfold is_digit. by rewrite digit_of_digit_char. Qed.

Lemma str_digits_digits (fuel : nat) (n : Z) (acc : string) :
  all_chars is_digit acc = true →
  all_chars is_digit (Py.str_digits fuel n acc) = true.
Proof.
  revert n acc. induction fuel as [|f IH]; intros n acc Hacc; simpl.
  - rewrite is_digit_digit_char by (apply Z.mod_pos_bound; lia). done.
  - destruct (n <? 10).
    + simpl. rewrite is_digit_digit_char by (apply Z.mod_pos_bound; lia). done.
    + apply IH. simpl.
      rewrite is_digit_digit_char by (apply Z.mod_pos_bound; lia). done.
Qed.

Lemma int_digits_digits (s : string) (acc : Z) :
  all_chars is_digit s = true →
  Py.int_digits Py.AfterDigit acc s = Some (digits_value acc s).
Proof.
  revert acc. induction s as [|c r IH]; intros acc; [done|]. simpl.
  intros [Hc Hr]%andb_true_iff. unfold is_digit in Hc.
  destruct (Py.digit_of c) as [d|]; [|done]. simpl. by apply IH.
Qed.

Lemma int_digits_start (c : ascii) (r : string) :
  all_chars is_digit (String c r) = true →
  Py.int_digits Py.AtStart 0 (String c r) = Some (digits_value 0 (String c r)).
Proof.
  simpl. intros [Hc Hr]%andb_true_iff. unfold is_digit in Hc.
  destruct (Py.digit_of c) as [d|]; [|done]. simpl. by apply int_digits_digits.
Qed.

(** The text of a natural number: digits only, read back as the number. *)
Lemma str_nat_digits (n : Z) :
  0 <= n →
  all_chars is_digit (Py.str_nat n) = true
  ∧ Py.int_digits Py.AtStart 0 (Py.str_nat n) = Some n.
Proof.
  intros Hn.
  assert (Hd : all_chars is_digit (Py.str_nat n) = true)
    by (by apply str_digits_digits).
  split; [done|].
  destruct (str_nat_spec n Hn) as (k & _ & _ & _ & Hval & d & r & _ & Hhead).
  rewrite Hhead in Hd |- *. rewrite int_digits_start by done.
  by rewrite <- Hhead, Hval.
Qed.

Lemma str_plain (z : Z) :
  ∃ c r, Py.str z = String c r
         ∧ (c = "-"%char ∨ is_digit c = true)
         ∧ all_chars (fun c => negb (Py.isspace c)) (Py.str z) = true
         ∧ all_chars (fun c => negb (Py.int_isspace c)) (Py.str z) = true.
Proof.
  assert (Hplain : ∀ s, all_chars is_digit s = true →
            all_chars (fun c => negb (Py.isspace c)) s = true
            ∧ all_chars (fun c => negb (Py.int_isspace c)) s = true).
  { intros s Hs. split; (eapply all_chars_impl; [|exact Hs]);
      intros c Hc; apply negb_true_iff; by apply digit_not_space. }
  unfold Py.str. destruct (Z.ltb_spec z 0) as [Hneg|Hpos].
  - destruct (str_nat_digits (- z) ltac:(lia)) as [Hd _].
    destruct (Hplain _ Hd) as [H1 H2].
    exists "-"%char, (Py.str_nat (- z)). split; [done|]. split; [by left|].
    simpl. by rewrite H1, H2.
  - destruct (str_nat_digits z Hpos) as [Hd _].
    destruct (Hplain _ Hd) as [H1 H2].
    destruct (str_nat_spec z Hpos) as (_ & _ & _ & _ & _ & d & r & Hdr & Hhead).
    exists (Py.digit_char d), r. split; [done|].
    split; [right; by apply is_digit_digit_char|]. done.
Qed.

(** [int(str(z)) == z] *)
Lemma int_str (z : Z) : Py.int (Py.str z) = Some z.
Proof.
  destruct (str_plain z) as (c & r & Hz & _ & _ & Hplain).
  unfold Py.int.
  destruct (strip_by_plain Py.int_isspace _ Hplain) as [Hl Hr]. rewrite Hl, Hr.
  clear c r Hz Hplain Hl Hr.
  unfold Py.str. destruct (Z.ltb_spec z 0) as [Hneg|Hpos].
  - destruct (str_nat_digits (- z) ltac:(lia)) as [_ ->]. simpl. f_equal. lia.
  - destruct (str_nat_digits z Hpos) as [Hd Hint].
    destruct (str_nat_spec z Hpos) as (_ & _ & _ & _ & _ & d & r & Hdr & Hhead).
    rewrite Hhead in Hint |- *.
    destruct (digit_cases d Hdr) as [->|[->|[->|[->|[->|[->|[->|[->|[->| ->]]]]]]]]];
      exact Hint.
Qed.

End RoundTrip.

Lemma upper_startswith_AS_str (n : Z) : upper_startswith_AS (Py.str n) = false.
Proof.
  destruct (str_plain n) as (c & r & -> & Hc & _).
  destruct r as [|c1 r1]; [done|]. simpl.
  destruct Hc as [->|Hc%digit_range]; [done|].
  destruct (N.eqb_spec (N_of_ascii c) 65); [lia|].
  destruct (N.eqb_spec (N_of_ascii c) 97); [lia|]. done.
Qed.

Lemma ask_asn_str (n : Z) :
  ask_asn (Py.str n) =
  if (n <=? 0) || (n >? 4294967295)
  then Again "ASN must be between 1 and 4294967295. Please try again."
  else Accepted n.
Proof.
  unfold ask_asn.
  destruct (str_plain n) as (c & r & Hn & _ & Hplain & _).
  unfold Py.strip.
  destruct (strip_by_plain Py.isspace _ Hplain) as [Hl Hr]. rewrite Hl, Hr.
  rewrite upper_startswith_AS_str, int_str. by rewrite Hn.
Qed.

Lemma asn_range (n : Z) :
  (n <=? 0) || (n >? 4294967295) = false ↔ 1 <= n <= 4294967295.
Proof.
  rewrite orb_false_iff, Z.leb_gt, Z.gtb_ltb, Z.ltb_ge. lia.
Qed.

Lemma ask_asn_accepted (typed : string) (m : Z) :
  ask_asn typed = Accepted m → (m <=? 0) || (m >? 4294967295) = false.
Proof.
  unfold ask_asn.
  destruct (negb (Py.nonempty (Py.strip typed))); [done|].
  destruct (Py.int _) as [asn|]; [|done].
  destruct ((asn <=? 0) || (asn >? 4294967295)) eqn:Hr; [done|].
  by intros [= <-].
Qed.

(** C7. The question asked at the terminal and the [--asn] flag accept
    the same integers, those from 1 to 4294967295: typed as [str(n)],
    [n] leaves the loop of [get_user_input] exactly when it is in that
    range and is asked for again otherwise; given with the flag, [n]
    passes the check of [main] exactly when it is in that range and ends
    the process with code 1 otherwise; and no text typed makes the loop
    hand over a value that the check of [main] refuses. *)
Theorem asn_paths_agree (n : Z) :
  (ask_asn (Py.str n) = Accepted n ↔ 1 <= n <= 4294967295)
  ∧ (flag_accepts n = true ↔ 1 <= n <= 4294967295)
  ∧ (∀ rest,
       ask_until ask_asn (Py.str n :: rest)
       = if flag_accepts n then Some (n, rest) else ask_until ask_asn rest)
  ∧ (∀ typed m, ask_asn typed = Accepted m → flag_accepts m = true)
  ∧ (∀ loads user_agent debug stdin connectivity w,
       main loads
            {| arg_asn := Some n; arg_useragent := Some user_agent; arg_debug := debug |}
            stdin connectivity w
       = if flag_accepts n then
           if negb (Py.nonempty user_agent) || negb (Py.contains "@" user_agent)
           then (1, None)
           else if negb connectivity then (1, None)
           else (default 0 (exited (run_analysis loads debug n user_agent w)),
                 Some (run_analysis loads debug n user_agent w))
         else (1, None)).
Proof.
  assert (Hflag : flag_accepts n = true ↔ 1 <= n <= 4294967295).
  { unfold flag_accepts. rewrite negb_true_iff. apply asn_range. }
  split; [|split; [exact Hflag|split; [|split]]].
  - rewrite ask_asn_str.
    destruct ((n <=? 0) || (n >? 4294967295)) eqn:Hr.
    + split; [done|]. intros Hn%asn_range. congruence.
    + split; [intros _; by apply asn_range|done].
  - intros rest. simpl. rewrite ask_asn_str. unfold flag_accepts.
    by destruct ((n <=? 0) || (n >? 4294967295)).
  - intros typed m Hm%ask_asn_accepted. unfold flag_accepts. by rewrite Hm.
  - intros loads user_agent debug stdin connectivity w.
    unfold main, flag_accepts. simpl.
    by destruct ((n <=? 0) || (n >? 4294967295)).
Qed.

(** ** [download_table] *)

Section TableFacts.
Variable loads : string → option pyval.

(** A line that does not decode, and a line that decodes to an object
    that lacks one of the two fields, leave the table as it is. *)
Lemma table_line_skipped (st : gmap pykey Z * nat) (line : string) :
  loads line = None
  ∨ (∃ items, loads line = Some (PDict items)
              ∧ (assoc_last "CIDR" items = None ∨ assoc_last "ASN" items = None)) →
  table_line loads st line = Ok st.
Proof.
  unfold table_line. destruct (Py.nonempty (Py.strip line)); [|done].
  intros [->|(items & -> & Hmiss)]; [done|]. simpl.
  destruct Hmiss as [-> | ->]; simpl; [done|]. by rewrite andb_false_r.
Qed.

(** A record with both fields true is stored under its key, over what the
    key had before. *)
Lemma table_line_stored (st : gmap pykey Z * nat) (line cidr : string)
  (items : list (string * pyval)) (asn : Z) :
  Py.nonempty (Py.strip line) = true →
  loads line = Some (PDict items) →
  assoc_last "CIDR" items = Some (PStr cidr) → cidr ≠ EmptyString →
  assoc_last "ASN" items = Some (PInt asn) → asn ≠ 0 →
  table_line loads st line = Ok (<[KStr cidr := asn]> st.1, S st.2).
Proof.
  intros Hne Hdec Hcidr Hc Hasn Ha. unfold table_line.
  rewrite Hne, Hdec. simpl. rewrite Hcidr, Hasn. simpl.
  destruct cidr; [done|]. simpl.
  destruct (Z.eqb_spec asn 0); [done|]. done.
Qed.

Lemma table_line_dropped (st : gmap pykey Z * nat) (line : string) (data : pyval) :
  loads line = Some data →
  get "ASN" data = Ok (PInt 0) ∨ get "CIDR" data = Ok (PStr EmptyString) →
  table_line loads st line = Ok st.
Proof.
  intros Hdec Hfield. unfold table_line.
  destruct (Py.nonempty (Py.strip line)); [|done]. rewrite Hdec.
  destruct data as [| | | | | |items]; try (by destruct Hfield).
  destruct Hfield as [Hasn|Hcidr].
  - rewrite Hasn. simpl. by rewrite andb_false_r.
  - rewrite Hcidr. done.
Qed.

Lemma key_of_truthy_not_empty (cidr : pyval) (k : pykey) :
  truthy cidr = true → key_of cidr = Ok k → k ≠ KStr EmptyString.
Proof.
  destruct cidr as [| | |f|s| |]; simpl; try done;
    try (by intros _ [= <-]).
  - intros _. unfold float_key. destruct f as [| | |sg m e]; try (by intros [= <-]).
    destruct (odd_part m e) as [m' e']. by destruct (0 <=? e'); intros [= <-].
  - destruct s; [done|]. by intros _ [= <-].
Qed.

Lemma table_line_no_empty_key (st st' : gmap pykey Z * nat) (line : string) :
  table_line loads st line = Ok st' →
  st.1 !! KStr EmptyString = None → st'.1 !! KStr EmptyString = None.
Proof.
  unfold table_line. destruct (Py.nonempty (Py.strip line)); [|by intros [= <-]].
  destruct (loads line) as [data|]; [|by intros [= <-]].
  destruct (get "CIDR" data) as [cidr|]; simpl; [|done].
  destruct (get "ASN" data) as [asn|]; simpl; [|done].
  destruct (truthy cidr) eqn:Hc; simpl; [|by intros [= <-]].
  destruct (truthy asn); [|by intros [= <-]].
  destruct (int_of asn) as [n|]; simpl; [|done].
  destruct (key_of cidr) as [k|] eqn:Hk; simpl; [|done].
  intros [= <-] Hst. simpl. rewrite lookup_insert_ne; [done|].
  by eapply key_of_truthy_not_empty.
Qed.

Lemma table_line_no_zero (st st' : gmap pykey Z * nat) (line : string) :
  int_asn_lines loads [line] →
  table_line loads st line = Ok st' →
  (∀ k, st.1 !! k ≠ Some 0) → ∀ k, st'.1 !! k ≠ Some 0.
Proof.
  intros Hint. unfold table_line.
  destruct (Py.nonempty (Py.strip line)); [|by intros [= <-]].
  destruct (loads line) as [data|] eqn:Hdec; [|by intros [= <-]].
  destruct (get "CIDR" data) as [cidr|]; simpl; [|done].
  destruct (get "ASN" data) as [asn|] eqn:Hasn; simpl; [|done].
  destruct (truthy cidr); simpl; [|by intros [= <-]].
  destruct (truthy asn) eqn:Ht; [|by intros [= <-]].
  destruct (Hint line data asn (list_elem_of_here _ _) Hdec Hasn Ht) as [z ->].
  simpl in Ht |- *. destruct (key_of cidr) as [k|]; simpl; [|done].
  intros [= <-] Hst k'. simpl.
  destruct (decide (k = k')) as [->|Hne].
  - rewrite lookup_insert_eq. intros [= ->]. done.
  - rewrite lookup_insert_ne by done. apply Hst.
Qed.

Lemma table_lines_no_empty_key (lines : list string) (st st' : gmap pykey Z * nat) :
  table_lines loads st lines = Ok st' →
  st.1 !! KStr EmptyString = None → st'.1 !! KStr EmptyString = None.
Proof.
  revert st. induction lines as [|line rest IH]; intros st; simpl.
  - by intros [= <-].
  - destruct (table_line loads st line) as [st1|] eqn:Hline; simpl; [|done].
    intros Hrest Hst. apply (IH st1 Hrest).
    by eapply table_line_no_empty_key.
Qed.

Lemma table_lines_no_zero (lines : list string) (st st' : gmap pykey Z * nat) :
  int_asn_lines loads lines →
  table_lines loads st lines = Ok st' →
  (∀ k, st.1 !! k ≠ Some 0) → ∀ k, st'.1 !! k ≠ Some 0.
Proof.
  revert st. induction lines as [|line rest IH]; intros st Hint; simpl.
  - by intros [= <-].
  - destruct (table_line loads st line) as [st1|] eqn:Hline; simpl; [|done].
    intros Hrest Hst. apply (IH st1); [|exact Hrest|].
    + intros l d v Hl. apply Hint. by apply list_elem_of_further.
    + eapply table_line_no_zero; [|exact Hline|exact Hst].
      intros l d v Hl. apply Hint. apply list_elem_of_singleton in Hl as ->.
      apply list_elem_of_here.
Qed.

(** Lines that are passed over change nothing: the table and the count
    are those of the document without them. *)
Lemma table_lines_skip (before after : list string) (line : string)
  (st : gmap pykey Z * nat) :
  (∀ st', table_line loads st' line = Ok st') →
  table_lines loads st (before ++ line :: after)
  = table_lines loads st (before ++ after).
Proof.
  intros Hskip. revert st. induction before as [|l rest IH]; intros st; simpl.
  - by rewrite Hskip.
  - destruct (table_line loads st l) as [st1|]; simpl; [apply IH|done].
Qed.

End TableFacts.

(** C10, as stated, fails: a line that is valid JSON with both fields, the
    ASN being the text 0, is kept, and the table has the value 0. *)
Lemma zero_text_asn_stored :
  json_loads zero_text_table
  = Some (PDict [("CIDR", PStr "1.2.3.0/24"); ("ASN", PStr "0")])
  ∧ download_table json_loads (Ok zero_text_table) !! KStr "1.2.3.0/24" = Some 0.
Proof. split; by vm_compute. Qed.

(** C10, amended. Whatever the decoder: a line that decodes to a value
    whose ASN is the integer 0 or whose CIDR is the empty text leaves the
    table as it is; the table returned never has the empty text as a
    key; and it has no value 0 when every ASN value that passes the truth
    test is an integer of JSON. *)
Theorem falsy_fields_dropped (loads : string → option pyval) :
  (∀ st line data,
     loads line = Some data →
     get "ASN" data = Ok (PInt 0) ∨ get "CIDR" data = Ok (PStr EmptyString) →
     table_line loads st line = Ok st)
  ∧ (∀ response, download_table loads response !! KStr EmptyString = None)
  ∧ (∀ text,
       int_asn_lines loads (Py.split "010" (Py.strip text)) →
       ∀ k, download_table loads (Ok text) !! k ≠ Some 0).
Proof.
  split; [apply table_line_dropped|]. split.
  - intros response. unfold download_table.
    destruct response as [text|e]; simpl; [|done].
    destruct (parse_table loads text) as [[table n]|e] eqn:Hparse; [|done].
    apply (table_lines_no_empty_key loads _ _ _ Hparse). done.
  - intros text Hint k. unfold download_table. simpl.
    destruct (parse_table loads text) as [[table n]|e] eqn:Hparse; [|done].
    apply (table_lines_no_zero loads _ _ _ Hint Hparse). done.
Qed.

(** C4, at the failing inputs: a first line is a good record; a second
    line is valid JSON and is no record the loop can store (its ASN is a
    text that is no number, or the line is an array).  The exception
    leaves the loop, and the table comes back empty, without the record
    of the first line. *)
Theorem bad_record_loses_table :
  parse_table json_loads text_asn_table = Raise ValueError
  ∧ download_table json_loads (Ok text_asn_table) = ∅
  ∧ parse_table json_loads array_line_table = Raise AttributeError
  ∧ download_table json_loads (Ok array_line_table) = ∅
  ∧ download_table json_loads (Ok (table_record "1.2.3.0/24" "64500"))
      !! KStr "1.2.3.0/24" = Some 64500.
Proof. repeat split; by vm_compute. Qed.

(** ** [run_analysis] on an empty table *)

Lemma get_related_asns_empty (target_asn : Z) :
  get_related_asns target_asn ∅ = Ok ∅.
Proof. unfold get_related_asns. by rewrite decide_True. Qed.

Lemma log_shown (debug_level : nat) (message : string) :
  (1 <= debug_level)%nat → log debug_level message 1 = [message].
Proof.
  intros Hd. unfold log. by rewrite (proj2 (Nat.leb_le _ _) Hd).
Qed.

Lemma log_hidden (message : string) (level : nat) :
  (1 <= level)%nat → log 0 message level = [].
Proof.
  intros Hl. unfold log. destruct (Nat.leb_spec level 0); [lia|done].
Qed.

Lemma run_analysis_empty_table (loads : string → option pyval)
  (debug_level : nat) (target_asn : Z) (user_agent : string) (w : world) :
  download_table loads (table_response w) = ∅ →
  run_analysis loads debug_level target_asn user_agent w
  = {| logged :=
         log_separator debug_level "BGP.TOOLS PEERING ANALYSIS" 1
         ++ log debug_level ("Analysis started at: " +:+ started_at w) 1
         ++ log debug_level ("Target ASN: AS" +:+ Py.str target_asn) 1
         ++ log debug_level ("User Agent: " +:+ user_agent) 1
         ++ log debug_level ("Debug level: " +:+ Py.str (Z.of_nat debug_level)) 1
         ++ log debug_level "STEP 1: Getting ASN information" 1
         ++ log debug_level "STEP 2: Downloading ASN names" 1
         ++ log debug_level "STEP 3: Finding related ASNs" 1
         ++ log debug_level "No related ASNs found" 1;
       files := [];
       exited := None |}.
Proof.
  intros Hempty. unfold run_analysis.
  rewrite Hempty, get_related_asns_empty. rewrite decide_True by done.
  f_equal. by rewrite <- !app_assoc.
Qed.

(** C5, as stated, fails: the download fails, the table is empty, the run
    ends early, and with the debug level 0 no notice is printed. *)
Lemma silent_early_exit :
  download_table json_loads (table_response failed_download_world) = ∅
  ∧ logged (run_analysis json_loads 0 64500 "probe - ops@example.net"
              failed_download_world) = [].
Proof. split; by vm_compute. Qed.

(** C5, amended. When the download of the table gives the empty mapping,
    [get_related_asns] returns the empty set and [run_analysis] returns
    early: it writes no file and does not call [sys.exit], so that a
    process started with a valid ASN and user agent ends with the code 0;
    the notice is its last printed line when the debug level is 1 or
    more, and nothing is printed at the debug level 0. *)
Theorem empty_table_early_exit (loads : string → option pyval)
  (debug_level : nat) (target_asn : Z) (user_agent : string) (w : world) :
  download_table loads (table_response w) = ∅ →
  get_related_asns target_asn (download_table loads (table_response w)) = Ok ∅
  ∧ files (run_analysis loads debug_level target_asn user_agent w) = []
  ∧ exited (run_analysis loads debug_level target_asn user_agent w) = None
  ∧ ((1 <= debug_level)%nat →
     last (logged (run_analysis loads debug_level target_asn user_agent w))
     = Some "No related ASNs found")
  ∧ (debug_level = 0%nat →
     logged (run_analysis loads debug_level target_asn user_agent w) = [])
  ∧ (∀ stdin,
       flag_accepts target_asn = true →
       Py.nonempty user_agent = true → Py.contains "@" user_agent = true →
       (main loads
             {| arg_asn := Some target_asn; arg_useragent := Some user_agent;
                arg_debug := debug_level |} stdin true w).1 = 0).
Proof.
  intros Hempty.
  pose proof (run_analysis_empty_table loads debug_level target_asn
                user_agent w Hempty) as Hrun.
  split; [rewrite Hempty; apply get_related_asns_empty|].
  rewrite Hrun. simpl. split; [done|]. split; [done|]. split; [|split].
  - intros Hd. rewrite (log_shown debug_level "No related ASNs found" Hd).
    rewrite !app_assoc. apply last_snoc.
  - intros ->. reflexivity.
  - intros stdin Hflag Hne Hat. unfold main. simpl.
    unfold flag_accepts in Hflag. apply negb_true_iff in Hflag.
    rewrite Hflag, Hne, Hat. simpl. by rewrite Hrun.
Qed.

Lemma empty_table_early_exit_witness :
  get_related_asns 64500
    (download_table json_loads (table_response failed_download_world)) = Ok ∅
  ∧ files (run_analysis json_loads 2 64500 "probe - ops@example.net"
             failed_download_world) = []
  ∧ exited (run_analysis json_loads 2 64500 "probe - ops@example.net"
              failed_download_world) = None
  ∧ ((1 <= 2)%nat →
     last (logged (run_analysis json_loads 2 64500 "probe - ops@example.net"
                     failed_download_world))
     = Some "No related ASNs found")
  ∧ (2%nat = 0%nat →
     logged (run_analysis json_loads 2 64500 "probe - ops@example.net"
               failed_download_world) = [])
  ∧ (∀ stdin,
       flag_accepts 64500 = true →
       Py.nonempty "probe - ops@example.net" = true →
       Py.contains "@" "probe - ops@example.net" = true →
       (main json_loads
             {| arg_asn := Some 64500;
                arg_useragent := Some "probe - ops@example.net";
                arg_debug := 2 |} stdin true failed_download_world).1 = 0).
Proof.
  apply (empty_table_early_exit json_loads 2 64500 "probe - ops@example.net"
           failed_download_world).
  reflexivity.
Defined.

(** * Further properties of the code *)

(** ** Grouping keys and related ASNs *)

Lemma split_pieces_absent (c sep : ascii) (s : string) :
  Py.contains c s = false →
  Forall (fun x => Py.contains c x = false) (Py.split sep s).
Proof.
  induction s as [|d r IH]; simpl.
  - intros _. by repeat constructor.
  - intros [Hd Hr]%orb_false_iff. specialize (IH Hr).
    destruct (Ascii.eqb d sep).
    + by constructor.
    + destruct (Py.split sep r) as [|h t].
      * constructor; [|done]. simpl. by rewrite Hd.
      * apply Forall_cons in IH as [Hh Ht]. constructor; [|done].
        simpl. by rewrite Hd, Hh.
Qed.

(** A key holds a dot exactly when the text before the slash does. *)
Lemma network_of_dotted (p k : string) :
  network_of p = Some k →
  Py.contains "." k = Py.contains "." (hd EmptyString (Py.split "/" p)).
Proof.
  unfold network_of. destruct (Py.contains "/" p); [|done].
  set (ip := hd EmptyString (Py.split "/" p)).
  destruct (Py.contains "." ip) eqn:Hdot.
  - destruct (Py.split "." ip) as [|o0 [|o1 ?]]; try done.
    intros [= <-]. rewrite contains_app. simpl. apply orb_true_r.
  - destruct (Py.contains ":" ip); [|done].
    pose proof (split_pieces_absent "." ":" ip Hdot) as Hall.
    destruct (Py.split ":" ip) as [|p0 [|p1 ?]]; try done.
    intros [= <-]. apply Forall_cons in Hall as [H0 Hall].
    apply Forall_cons in Hall as [H1 _].
    rewrite contains_app. simpl. by rewrite H0.
Qed.


(** X2. The key of a prefix is read from the text before the first slash
    only, so the length of the prefix plays no part; and a key taken from
    a dotted address holds a dot while a key taken from an address with
    colons holds none, so that two prefixes with the same key are both
    dotted or both not: an IPv4 prefix never groups with an IPv6 one. *)
Theorem network_key_facts :
  (∀ ip len1 len2,
     Py.contains "/" ip = false →
     network_of (ip +:+ String "/" len1) = network_of (ip +:+ String "/" len2))
  ∧ (∀ p1 p2 k,
       network_of p1 = Some k → network_of p2 = Some k →
       Py.contains "." (hd EmptyString (Py.split "/" p1))
       = Py.contains "." (hd EmptyString (Py.split "/" p2))).
Proof.
  split.
  - intros ip len1 len2 Hip. unfold network_of.
    rewrite !contains_app. simpl Py.contains. rewrite !orb_true_r.
    by rewrite !split_at_first by done.
  - intros p1 p2 k H1 H2.
    by rewrite <- (network_of_dotted p1 k H1), <- (network_of_dotted p2 k H2).
Qed.

(** ** Batches and the bulk query *)

Section StringAppend.
Implicit Types (s t u : string).

Lemma str_app_cons (c : ascii) s t : String c s +:+ t = String c (s +:+ t).
Proof. reflexivity. Qed.

Lemma str_app_assoc s t u : (s +:+ t) +:+ u = s +:+ (t +:+ u).
Proof.
  induction s as [|c r IH]; [done|]. rewrite !str_app_cons. f_equal. exact IH.
Qed.

Lemma str_app_length s t :
  String.length (s +:+ t) = (String.length s + String.length t)%nat.
Proof.
  induction s as [|c r IH]; [done|]. rewrite str_app_cons. simpl. f_equal. exact IH.
Qed.

Lemma str_app_nil_r s : s +:+ EmptyString = s.
Proof.
  induction s as [|c r IH]; [done|]. rewrite str_app_cons. f_equal. exact IH.
Qed.

End StringAppend.

Lemma chunks_fuel_spec {A} (n fuel : nat) (l : list A) :
  (0 < n)%nat → (length l <= fuel)%nat →
  Forall (fun b => (1 <= length b <= n)%nat) (chunks_fuel fuel n l)
  ∧ length (chunks_fuel fuel n l) = ((length l + n - 1) / n)%nat.
Proof.
  intros Hn. revert l. induction fuel as [|f IH]; intros l Hlen.
  - destruct l; [|simpl in Hlen; lia]. simpl. split; [constructor|].
    symmetry. apply Nat.div_small. lia.
  - destruct l as [|x l'].
    + simpl. split; [constructor|]. symmetry. apply Nat.div_small. lia.
    + change (chunks_fuel (S f) n (x :: l'))
        with (take n (x :: l') :: chunks_fuel f n (drop n (x :: l'))).
      destruct (IH (drop n (x :: l'))) as [IHall IHlen].
      { rewrite length_drop. simpl in *. lia. }
      split.
      * constructor; [|done]. rewrite length_take. simpl. lia.
      * simpl length at 1. rewrite IHlen, length_drop.
        set (L := length (x :: l')). assert (1 <= L)%nat by (subst L; simpl; lia).
        replace (L + n - 1)%nat with ((L - 1) + 1 * n)%nat by lia.
        rewrite Nat.div_add by lia.
        destruct (Nat.le_gt_cases L n) as [Hle|Hgt].
        -- replace (L - n + n - 1)%nat with (n - 1)%nat by lia.
           rewrite !Nat.div_small by lia. lia.
        -- replace (L - n + n - 1)%nat with (L - 1)%nat by lia. lia.
Qed.

(** X3. The batches of [analyze_asn_relationships] cut the list of queries
    in pieces that lose nothing and keep the order, each of 1 to 100
    queries (no empty batch is sent), so a list of [n] queries makes
    [(n + 99) / 100] bulk calls; the total that the progress line
    announces, [n / 100 + 1], is one more than that whenever [n] is a
    multiple of 100. *)
Theorem batches_cover (asn_queries : list string) :
  concat (chunks batch_size asn_queries) = asn_queries
  ∧ Forall (fun batch => (1 <= length batch <= 100)%nat)
           (chunks batch_size asn_queries)
  ∧ length (chunks batch_size asn_queries) = ((length asn_queries + 99) / 100)%nat
  ∧ announced_batches (length asn_queries)
    = (length (chunks batch_size asn_queries)
       + if (length asn_queries mod 100 =? 0)%nat then 1 else 0)%nat.
Proof.
  destruct (chunks_fuel_spec batch_size (length asn_queries) asn_queries)
    as [Hall Hlen]; [unfold batch_size; lia|done|].
  fold (chunks batch_size asn_queries) in Hall, Hlen.
  assert (Hcount : length (chunks batch_size asn_queries)
                   = ((length asn_queries + 99) / 100)%nat).
  { rewrite Hlen. unfold batch_size. f_equal. lia. }
  split; [apply chunks_concat; unfold batch_size; lia|].
  split; [exact Hall|]. split; [exact Hcount|].
  rewrite Hcount. unfold announced_batches, batch_size.
  generalize (length asn_queries). intros n.
  pose proof (Nat.div_mod_eq n 100) as Hdm.
  pose proof (Nat.mod_upper_bound n 100 ltac:(lia)) as Hm.
  set (q := (n / 100)%nat) in *. set (m := (n mod 100)%nat) in *.
  clearbody q m. subst n.
  destruct (Nat.eqb_spec m 0) as [Hz|Hnz].
  - replace (100 * q + m + 99)%nat with (99 + q * 100)%nat by lia.
    rewrite Nat.div_add by lia. rewrite (Nat.div_small 99 100) by lia. lia.
  - replace (100 * q + m + 99)%nat with ((m - 1) + (q + 1) * 100)%nat by lia.
    rewrite Nat.div_add by lia. rewrite Nat.div_small by lia. lia.
Qed.

Lemma no_space_no_newline (s : string) :
  all_chars (fun c => negb (Py.isspace c)) s = true →
  Py.contains "010" s = false.
Proof.
  induction s as [|c r IH]; [done|]. simpl.
  intros [Hc Hr]%andb_true_iff. rewrite (IH Hr), orb_false_r.
  destruct (Ascii.eqb_spec c "010") as [->|]; [done|done].
Qed.

Lemma asn_query_one_line (asn : Z) :
  Py.contains "010" ("as" +:+ Py.str asn) = false.
Proof.
  destruct (str_plain asn) as (_ & _ & _ & _ & Hplain & _).
  simpl. by apply no_space_no_newline.
Qed.

Lemma foldl_lines (pre tail : string) (queries : list string) :
  foldl (fun acc q => acc +:+ q +:+ nl) pre queries +:+ tail
  = pre +:+ foldr (fun q r => q +:+ String "010" r) tail queries.
Proof.
  revert pre. induction queries as [|q qs IH]; intros pre; [done|].
  simpl foldl. rewrite IH. simpl foldr. rewrite !str_app_assoc. reflexivity.
Qed.

Lemma split_lines_foldr (tail : string) (queries : list string) :
  Forall (fun q => Py.contains "010" q = false) queries →
  Py.split "010" (foldr (fun q r => q +:+ String "010" r) tail queries)
  = queries ++ Py.split "010" tail.
Proof.
  induction 1 as [|q qs Hq _ IH]; [done|].
  simpl foldr. rewrite split_at_first by done. by rewrite IH.
Qed.

Lemma bulk_query_string_lines (queries : list string) :
  Forall (fun q => Py.contains "010" q = false) queries →
  Py.split "010" (bulk_query_string queries)
  = ["begin"; "verbose"] ++ queries ++ ["end"; EmptyString].
Proof.
  intros Hall. unfold bulk_query_string. rewrite foldl_lines.
  change (("begin" +:+ nl +:+ "verbose" +:+ nl)
          +:+ foldr (fun q r => q +:+ String "010" r) ("end" +:+ nl) queries)
    with ("begin" +:+ String "010"
            ("verbose" +:+ String "010"
               (foldr (fun q r => q +:+ String "010" r) ("end" +:+ nl) queries))).
  rewrite split_at_first by done. rewrite split_at_first by done.
  rewrite split_lines_foldr by done. reflexivity.
Qed.

(** X4. The text [bulk_whois_query] sends has one line for each query
    between the lines [begin], [verbose] and [end], as long as no query
    holds a line feed; the queries [analyze_asn_relationships] makes, [as]
    followed by [str(asn)], never hold one, so that a batch of ASNs always
    gives a block of exactly as many query lines, each of which reads
    back as its ASN. *)
Theorem bulk_block_lines (asn_list : list Z) :
  (∀ queries,
     Forall (fun q => Py.contains "010" q = false) queries →
     Py.split "010" (bulk_query_string queries)
     = ["begin"; "verbose"] ++ queries ++ ["end"; EmptyString])
  ∧ Py.split "010" (bulk_query_string (map (fun asn => "as" +:+ Py.str asn) asn_list))
    = ["begin"; "verbose"] ++ map (fun asn => "as" +:+ Py.str asn) asn_list
      ++ ["end"; EmptyString]
  ∧ Forall2 (fun asn q => Py.int (drop2 q) = Some asn)
            asn_list (map (fun asn => "as" +:+ Py.str asn) asn_list).
Proof.
  split; [apply bulk_query_string_lines|]. split.
  - apply bulk_query_string_lines. apply Forall_forall.
    intros q (asn & -> & _)%list_elem_of_fmap. apply asn_query_one_line.
  - induction asn_list as [|asn rest IH]; [constructor|].
    constructor; [|exact IH]. simpl. apply int_str.
Qed.

(** ** The run as a whole *)

Lemma filter_imap_none {A} (f : nat → A → string) (l : list A) :
  (∀ i x, f i x = EmptyString) →
  filter (fun result => Py.nonempty result = true) (imap f l) = [].
Proof.
  revert f. induction l as [|x rest IH]; intros f Hf; [done|].
  simpl. rewrite filter_cons. rewrite Hf. simpl.
  destruct (decide (false = true)); [done|]. apply IH. intros i y. apply Hf.
Qed.

Lemma analyze_no_answer (bulk_whois_query : nat → list string → string)
  (target_asn : Z) (asn_list : list Z) :
  (∀ i batch, bulk_whois_query i batch = EmptyString) →
  analyze_asn_relationships bulk_whois_query target_asn asn_list = (∅, ∅).
Proof.
  intros Hnone. unfold analyze_asn_relationships, all_results.
  by rewrite filter_imap_none.
Qed.

Lemma analyze_within (bulk_whois_query : nat → list string → string)
  (target_asn : Z) (asn_list : list Z) (a : Z) :
  a ∈ (analyze_asn_relationships bulk_whois_query target_asn asn_list).1
  ∨ a ∈ (analyze_asn_relationships bulk_whois_query target_asn asn_list).2 →
  a ∈ asn_list ∧ a ≠ target_asn.
Proof.
  destruct (analyze_spec target_asn asn_list bulk_whois_query a) as [H1 H2].
  intros [Ha|Ha]; [apply H1 in Ha|apply H2 in Ha];
    destruct Ha as (_ & ? & ? & _); done.
Qed.

Lemma analyze_disjoint (bulk_whois_query : nat → list string → string)
  (target_asn : Z) (asn_list : list Z) :
  (analyze_asn_relationships bulk_whois_query target_asn asn_list).1
  ## (analyze_asn_relationships bulk_whois_query target_asn asn_list).2.
Proof.
  apply elem_of_disjoint. intros a Ha1 Ha2.
  destruct (analyze_spec target_asn asn_list bulk_whois_query a) as [H1 H2].
  apply H1 in Ha1 as (_ & _ & _ & Ht). apply H2 in Ha2 as (_ & _ & _ & Hf).
  congruence.
Qed.

(** The run once the related set is known and not empty: the files and
    the exit are those of [write_results] on the two sets. *)
Lemma run_analysis_related (loads : string → option pyval) (debug_level : nat)
  (target_asn : Z) (user_agent : string) (w : world) (related : gset Z) :
  get_related_asns target_asn (download_table loads (table_response w)) = Ok related →
  related ≠ ∅ →
  let sets := analyze_asn_relationships (bulk_whois w) target_asn (elements related) in
  let written := write_results (can_open w) target_asn (report_clock w)
                   sets.1 sets.2 (asn_names_of w) in
  files (run_analysis loads debug_level target_asn user_agent w) = written.1
  ∧ exited (run_analysis loads debug_level target_asn user_agent w)
    = match written.2 with Ok _ => None | Raise _ => Some 1 end.
Proof.
  intros Hrel Hne sets written. unfold run_analysis. rewrite Hrel.
  rewrite decide_False by done.
  subst written sets.
  destruct (analyze_asn_relationships (bulk_whois w) target_asn (elements related))
    as [P O]. simpl.
  by destruct (write_results (can_open w) target_asn (report_clock w) P O
                 (asn_names_of w)) as [written [names|e]].
Qed.

Lemma run_analysis_stops (loads : string → option pyval) (debug_level : nat)
  (target_asn : Z) (user_agent : string) (w : world) :
  (get_related_asns target_asn (download_table loads (table_response w)) = Ok ∅
   ∨ ∃ e, get_related_asns target_asn (download_table loads (table_response w)) = Raise e) →
  files (run_analysis loads debug_level target_asn user_agent w) = []
  ∧ (exited (run_analysis loads debug_level target_asn user_agent w) = None
     ↔ get_related_asns target_asn (download_table loads (table_response w)) = Ok ∅)
  ∧ (exited (run_analysis loads debug_level target_asn user_agent w) = None
     ∨ exited (run_analysis loads debug_level target_asn user_agent w) = Some 1).
Proof.
  unfold run_analysis. intros [Hrel|[e Hrel]]; rewrite Hrel.
  - rewrite decide_True by done. simpl. by repeat split; try left.
  - simpl. split; [done|]. split; [by split|by right].
Qed.

Lemma write_results_cases (opens : string → bool) (target_asn : Z) (c : clock)
  (peers non_peers : gset Z) (asn_names : gmap Z string) :
  let f1 := (peers_filename target_asn c,
             concat_str (peers_writes target_asn c peers asn_names)) in
  let f2 := (non_peers_filename target_asn c,
             concat_str (non_peers_writes target_asn c non_peers asn_names)) in
  write_results opens target_asn c peers non_peers asn_names
  = if opens (peers_filename target_asn c) then
      if opens (non_peers_filename target_asn c)
      then ([f1; f2], Ok (peers_filename target_asn c, non_peers_filename target_asn c))
      else ([f1], Raise OSError)
    else ([], Raise OSError).
Proof. reflexivity. Qed.

Lemma run_analysis_exit (loads : string → option pyval) (debug_level : nat)
  (target_asn : Z) (user_agent : string) (w : world) :
  exited (run_analysis loads debug_level target_asn user_agent w) = None
  ∨ exited (run_analysis loads debug_level target_asn user_agent w) = Some 1.
Proof.
  destruct (get_related_asns target_asn (download_table loads (table_response w)))
    as [related|e] eqn:Hrel.
  - destruct (decide (related = ∅)) as [->|Hne].
    + apply run_analysis_stops. by left.
    + destruct (run_analysis_related loads debug_level target_asn user_agent w
                  related Hrel Hne) as [_ ->].
      by destruct (write_results _ _ _ _ _ _).2; [left|right].
  - apply run_analysis_stops. right. by exists e.
Qed.

Lemma run_analysis_with_related
  (write : Z → clock → gset Z → gset Z → gmap Z string
           → list (string * string) * result (string * string))
  (loads : string → option pyval) (debug_level : nat)
  (target_asn : Z) (user_agent : string) (w : world) (related : gset Z) :
  get_related_asns target_asn (download_table loads (table_response w)) = Ok related →
  related ≠ ∅ →
  let sets := analyze_asn_relationships (bulk_whois w) target_asn (elements related) in
  let written := write target_asn (report_clock w) sets.1 sets.2 (asn_names_of w) in
  files (run_analysis_with write loads debug_level target_asn user_agent w) = written.1
  ∧ exited (run_analysis_with write loads debug_level target_asn user_agent w)
    = match written.2 with Ok _ => None | Raise _ => Some 1 end.
Proof.
  intros Hrel Hne sets written. unfold run_analysis_with. rewrite Hrel.
  rewrite decide_False by done.
  subst written sets.
  destruct (analyze_asn_relationships (bulk_whois w) target_asn (elements related))
    as [P O]. simpl.
  by destruct (write target_asn (report_clock w) P O (asn_names_of w))
    as [written [names|e]].
Qed.

Lemma run_analysis_with_stops
  (write : Z → clock → gset Z → gset Z → gmap Z string
           → list (string * string) * result (string * string))
  (loads : string → option pyval) (debug_level : nat)
  (target_asn : Z) (user_agent : string) (w : world) :
  (get_related_asns target_asn (download_table loads (table_response w)) = Ok ∅
   → files (run_analysis_with write loads debug_level target_asn user_agent w) = []
     ∧ exited (run_analysis_with write loads debug_level target_asn user_agent w)
       = None)
  ∧ (∀ e, get_related_asns target_asn (download_table loads (table_response w))
          = Raise e
          → files (run_analysis_with write loads debug_level target_asn user_agent w)
            = []
            ∧ exited (run_analysis_with write loads debug_level target_asn
                        user_agent w) = Some 1).
Proof.
  unfold run_analysis_with. split.
  - intros ->. by rewrite decide_True.
  - by intros e ->.
Qed.

Lemma write_results_fs_cases (opens : string → bool)
  (fails : string → list string → option (string * pyexn))
  (target_asn : Z) (c : clock) (peers non_peers : gset Z)
  (asn_names : gmap Z string) :
  let f1 := peers_filename target_asn c in
  let f2 := non_peers_filename target_asn c in
  let w1 := peers_writes target_asn c peers asn_names in
  let w2 := non_peers_writes target_asn c non_peers asn_names in
  write_results_fs opens fails target_asn c peers non_peers asn_names
  = if opens f1 then
      match fails f1 w1 with
      | Some (kept, e) => ([(f1, kept)], Raise e)
      | None =>
          if opens f2 then
            match fails f2 w2 with
            | Some (kept, e) => ([(f1, concat_str w1); (f2, kept)], Raise e)
            | None => ([(f1, concat_str w1); (f2, concat_str w2)], Ok (f1, f2))
            end
          else ([(f1, concat_str w1)], Raise OSError)
      end
    else ([], Raise OSError).
Proof.
  intros f1 f2 w1 w2. unfold write_results_fs, write_file.
  fold f1 f2 w1 w2. destruct (opens f1); [|done].
  destruct (fails f1 w1) as [[kept e]|]; [done|].
  destruct (opens f2); [|done].
  by destruct (fails f2 w2) as [[kept e]|].
Qed.

(** Without a failing write the file system is that of [write_results],
    and the run that of [run_analysis]. *)
Lemma run_analysis_fs_plain (loads : string → option pyval) (debug_level : nat)
  (target_asn : Z) (user_agent : string) (w : world) :
  run_analysis_fs (fun _ _ => None) loads debug_level target_asn user_agent w
  = run_analysis loads debug_level target_asn user_agent w.
Proof.
  unfold run_analysis_fs, run_analysis_with, run_analysis.
  destruct (get_related_asns target_asn (download_table loads (table_response w)))
    as [related|e]; [|done].
  destruct (decide (related = ∅)); [done|].
  destruct (analyze_asn_relationships (bulk_whois w) target_asn (elements related))
    as [P O].
  rewrite write_results_fs_cases, write_results_cases.
  destruct (can_open w (peers_filename target_asn (report_clock w))); [|done].
  by destruct (can_open w (non_peers_filename target_asn (report_clock w))).
Qed.


Lemma get_related_asns_raise (target_asn : Z) (table_data : gmap pykey Z) (e : pyexn) :
  get_related_asns target_asn table_data = Raise e → e = TypeError.
Proof.
  unfold get_related_asns. destruct (decide (table_data = ∅)); [done|].
  destruct (our_networks target_asn table_data) as [nets|e'] eqn:Hnets; simpl.
  - apply related_loop_raise.
  - intros [= <-]. by eapply networks_loop_raise.
Qed.

Lemma sorted_empty : sorted ∅ = [].
Proof. reflexivity. Qed.




Lemma ask_user_agent_accepted (typed user_agent : string) :
  ask_user_agent typed = Accepted user_agent →
  user_agent = Py.strip typed
  ∧ Py.nonempty user_agent = true ∧ Py.contains "@" user_agent = true.
Proof.
  unfold ask_user_agent.
  destruct (Py.nonempty (Py.strip typed)) eqn:Hne; simpl; [|done].
  destruct (Py.contains "@" (Py.strip typed)) eqn:Hat; simpl; [|done].
  by intros [= <-].
Qed.

Lemma ask_until_first {A} (ask : string → asked A) (stdin : list string)
  (a : A) (rest : list string) :
  ask_until ask stdin = Some (a, rest) ↔
  ∃ refused typed,
    stdin = refused ++ typed :: rest
    ∧ Forall (fun t => ∃ message, ask t = Again message) refused
    ∧ ask typed = Accepted a.
Proof.
  split.
  - revert a rest. induction stdin as [|t more IH]; intros a rest; [done|].
    simpl. destruct (ask t) as [x|message] eqn:Hask.
    + intros [= <- <-]. exists [], t. by repeat split.
    + intros (refused & typed & -> & Hall & Hacc)%IH.
      exists (t :: refused), typed. repeat split; [|done].
      constructor; [by exists message|done].
  - intros (refused & typed & -> & Hall & Hacc).
    induction Hall as [|t more [message Ht] _ IH]; simpl.
    + by rewrite Hacc.
    + by rewrite Ht.
Qed.

Lemma get_user_input_valid (stdin : list string) (asn : Z) (user_agent : string) :
  get_user_input stdin = Some (asn, user_agent) →
  (asn <=? 0) || (asn >? 4294967295) = false
  ∧ Py.nonempty user_agent = true ∧ Py.contains "@" user_agent = true.
Proof.
  unfold get_user_input.
  destruct (ask_until ask_asn stdin) as [[asn' rest]|] eqn:Hasn; simpl; [|done].
  destruct (ask_until ask_user_agent rest) as [[ua rest']|] eqn:Hua; simpl; [|done].
  intros [= <- <-].
  apply ask_until_first in Hasn as (_ & typed & _ & _ & Hasn).
  apply ask_until_first in Hua as (_ & typed' & _ & _ & Hua).
  split; [by eapply ask_asn_accepted|].
  by apply ask_user_agent_accepted in Hua as (_ & ? & ?).
Qed.

Lemma run_analysis_fs_exit
  (fails : string → list string → option (string * pyexn))
  (loads : string → option pyval) (debug_level : nat)
  (target_asn : Z) (user_agent : string) (w : world) :
  exited (run_analysis_fs fails loads debug_level target_asn user_agent w) = None
  ∨ exited (run_analysis_fs fails loads debug_level target_asn user_agent w) = Some 1.
Proof.
  unfold run_analysis_fs, run_analysis_with.
  destruct (get_related_asns target_asn (download_table loads (table_response w)))
    as [related|e]; [|by right].
  destruct (decide (related = ∅)); [by left|].
  destruct (analyze_asn_relationships (bulk_whois w) target_asn (elements related))
    as [P O].
  by destruct (write_results_fs (can_open w) fails target_asn (report_clock w) P O
                 (asn_names_of w)) as [written [names|e]]; [left|right].
Qed.

Lemma main_with_plain (loads : string → option pyval) (a : args)
  (stdin : list string) (connectivity : bool) (w : world) :
  main_with (fun debug_level target_asn user_agent =>
               run_analysis_fs (fun _ _ => None) loads debug_level target_asn
                 user_agent w)
            a stdin connectivity
  = main loads a stdin connectivity w.
Proof.
  unfold main_with, main.
  destruct (match arg_asn a, arg_useragent a with
            | Some target_asn, Some user_agent => Some (target_asn, user_agent)
            | _, _ => get_user_input stdin
            end) as [[asn ua]|]; [|done].
  by rewrite run_analysis_fs_plain.
Qed.

Lemma main_with_cases (analyse : nat → Z → string → run) (a : args)
  (stdin : list string) (connectivity : bool) :
  main_with analyse a stdin connectivity = (1, None)
  ∨ connectivity = true
    ∧ ∃ asn user_agent,
        main_with analyse a stdin connectivity
        = (default 0 (exited (analyse (arg_debug a) asn user_agent)),
           Some (analyse (arg_debug a) asn user_agent))
        ∧ 1 <= asn <= 4294967295
        ∧ Py.nonempty user_agent = true
        ∧ Py.contains "@" user_agent = true.
Proof.
  unfold main_with.
  destruct (match arg_asn a, arg_useragent a with
            | Some target_asn, Some user_agent => Some (target_asn, user_agent)
            | _, _ => get_user_input stdin
            end) as [[asn ua]|]; [|by left].
  destruct ((asn <=? 0) || (asn >? 4294967295)) eqn:Hrange; [by left|].
  destruct (Py.nonempty ua) eqn:Hne; [|by left].
  destruct (Py.contains "@" ua) eqn:Hat; [|by left].
  destruct connectivity; [|by left].
  right. split; [done|]. exists asn, ua. split; [done|].
  split; [by apply asn_range|done].
Qed.


(** X9. A target that originates no prefix of the table, or only prefixes
    that give no grouping key, has no related ASN: the run ends after
    step 3 without a file and without [sys.exit]. *)
Theorem target_without_prefix_stops (loads : string → option pyval)
  (debug_level : nat) (target_asn : Z) (user_agent : string) (w : world)
  (t : gmap string Z) :
  download_table loads (table_response w) = str_table t →
  (∀ p, t !! p = Some target_asn → network_of p = None) →
  get_related_asns target_asn (str_table t) = Ok ∅
  ∧ files (run_analysis loads debug_level target_asn user_agent w) = []
  ∧ exited (run_analysis loads debug_level target_asn user_agent w) = None.
Proof.
  intros Htable Hnone.
  destruct (get_related_asns_str target_asn t)
    as (nets & related & _ & Hrel & Hnets & Hr).
  assert (related = ∅) as ->.
  { apply elem_of_equiv_empty_L. intros a (p & n & _ & _ & _ & Hn)%Hr.
    apply Hnets in Hn as (q & Hq & Hqn). rewrite (Hnone q Hq) in Hqn. done. }
  split; [done|].
  destruct (run_analysis_stops loads debug_level target_asn user_agent w)
    as (Hf & Hx & _); [left; by rewrite Htable|].
  split; [done|]. apply Hx. by rewrite Htable.
Qed.

Lemma target_without_prefix_stops_witness :
  get_related_asns 399999 (str_table example_table) = Ok ∅
  ∧ files (run_analysis json_loads 2 399999 "probe - ops@example.net"
             whois_outage_world) = []
  ∧ exited (run_analysis json_loads 2 399999 "probe - ops@example.net"
              whois_outage_world) = None.
Proof.
  apply (target_without_prefix_stops json_loads 2 399999 "probe - ops@example.net"
           whois_outage_world example_table).
  - vm_cast_no_check (eq_refl (str_table example_table)).
  - intros p Hp. exfalso. unfold example_table in Hp.
    repeat (apply lookup_insert_Some in Hp as [[_ Hp]|[_ Hp]]; [discriminate Hp|]).
    apply lookup_singleton_Some in Hp as [_ Hp]. discriminate Hp.
Defined.

(** ** The questions asked at the terminal *)

Section PromptFacts.
Implicit Types (s t : string) (p : ascii → bool).

Lemma lstrip_by_lead p s t :
  all_chars p s = true → Py.lstrip_by p (s +:+ t) = Py.lstrip_by p t.
Proof.
  induction s as [|c r IH]; [done|]. simpl.
  intros [-> Hr]%andb_true_iff. by apply IH.
Qed.

Lemma rstrip_by_all p s : all_chars p s = true → Py.rstrip_by p s = EmptyString.
Proof.
  induction s as [|c r IH]; [done|]. simpl.
  intros [-> Hr]%andb_true_iff. by rewrite IH.
Qed.

Lemma rstrip_by_app p s t :
  Py.rstrip_by p (s +:+ t)
  = match Py.rstrip_by p t with
    | EmptyString => Py.rstrip_by p s
    | r => s +:+ r
    end.
Proof.
  induction s as [|c r IH].
  - change (EmptyString +:+ t) with t.
    destruct (Py.rstrip_by p t); reflexivity.
  - rewrite str_app_cons. simpl. rewrite IH.
    destruct (Py.rstrip_by p t) as [|a u]; [done|].
    destruct r; reflexivity.
Qed.

Lemma rstrip_by_trail p s t :
  all_chars p t = true → Py.rstrip_by p (s +:+ t) = Py.rstrip_by p s.
Proof. intros Ht. by rewrite rstrip_by_app, rstrip_by_all. Qed.

(** White space around a text that has none is taken off by [strip]. *)
Lemma strip_padded (lead s trail : string) (c : ascii) (r : string) :
  all_chars Py.isspace lead = true → all_chars Py.isspace trail = true →
  s = String c r →
  all_chars (fun c => negb (Py.isspace c)) s = true →
  Py.strip (lead +:+ s +:+ trail) = s.
Proof.
  intros Hlead Htrail Hs Hplain. unfold Py.strip.
  rewrite lstrip_by_lead by done.
  destruct (strip_by_plain Py.isspace s Hplain) as [Hl Hr].
  assert (Py.lstrip_by Py.isspace (s +:+ trail) = s +:+ trail) as ->.
  { rewrite Hs in Hplain |- *. simpl in Hplain |- *.
    apply andb_true_iff in Hplain as [Hc%negb_true_iff _]. by rewrite Hc. }
  by rewrite rstrip_by_trail.
Qed.

End PromptFacts.

(** X10. [get_user_input] returns the first answer each of its two loops
    accepts: the lines typed are some refused ASN answers, the accepted
    one, some refused user agents and the accepted one, and the second
    loop starts at the line after the accepted ASN.  What it returns
    always passes the checks [main] makes afterwards. *)
Theorem get_user_input_first_accepted (stdin : list string) (asn : Z)
  (user_agent : string) :
  (get_user_input stdin = Some (asn, user_agent) ↔
   ∃ refused1 typed1 refused2 typed2 rest,
     stdin = refused1 ++ typed1 :: refused2 ++ typed2 :: rest
     ∧ Forall (fun t => ∃ message, ask_asn t = Again message) refused1
     ∧ ask_asn typed1 = Accepted asn
     ∧ Forall (fun t => ∃ message, ask_user_agent t = Again message) refused2
     ∧ ask_user_agent typed2 = Accepted user_agent)
  ∧ (get_user_input stdin = Some (asn, user_agent) →
     1 <= asn <= 4294967295
     ∧ Py.nonempty user_agent = true ∧ Py.contains "@" user_agent = true
     ∧ ∀ loads debug connectivity w,
         main loads {| arg_asn := None; arg_useragent := None; arg_debug := debug |}
              stdin connectivity w
         = if connectivity
           then (default 0 (exited (run_analysis loads debug asn user_agent w)),
                 Some (run_analysis loads debug asn user_agent w))
           else (1, None)).
Proof.
  split.
  - unfold get_user_input. split.
    + destruct (ask_until ask_asn stdin) as [[asn' rest1]|] eqn:Hasn; simpl; [|done].
      destruct (ask_until ask_user_agent rest1) as [[ua rest2]|] eqn:Hua;
        simpl; [|done].
      intros [= <- <-].
      apply ask_until_first in Hasn as (refused1 & typed1 & -> & Hall1 & Hacc1).
      apply ask_until_first in Hua as (refused2 & typed2 & -> & Hall2 & Hacc2).
      by exists refused1, typed1, refused2, typed2, rest2.
    + intros (refused1 & typed1 & refused2 & typed2 & rest & -> & H1 & A1 & H2 & A2).
      assert (ask_until ask_asn (refused1 ++ typed1 :: refused2 ++ typed2 :: rest)
              = Some (asn, refused2 ++ typed2 :: rest)) as ->.
      { apply ask_until_first. by exists refused1, typed1. }
      simpl.
      assert (ask_until ask_user_agent (refused2 ++ typed2 :: rest)
              = Some (user_agent, rest)) as ->.
      { apply ask_until_first. by exists refused2, typed2. }
      done.
  - intros Hin. destruct (get_user_input_valid stdin asn user_agent Hin)
      as (Hrange & Hne & Hat).
    split; [by apply asn_range|]. split; [done|]. split; [done|].
    intros loads debug connectivity w. unfold main. simpl.
    rewrite Hin, Hrange, Hne, Hat. simpl. by destruct connectivity.
Qed.

Lemma upper_AS_not_space (c0 c1 : ascii) :
  upper_startswith_AS (String c0 (String c1 EmptyString)) = true →
  Py.isspace c0 = false ∧ Py.isspace c1 = false.
Proof.
  unfold upper_startswith_AS, Py.isspace.
  generalize (N_of_ascii c0) (N_of_ascii c1). intros n0 n1.
  rewrite andb_true_iff, !orb_true_iff, !N.eqb_eq.
  intros [[-> | ->] [[-> | ->] | ->]]; split; reflexivity.
Qed.

(** X11. The question for the ASN takes the number with white space
    around it and with two characters in front whose upper case starts
    with [AS] (any mix of cases): such an answer is treated as the bare
    number is.  The prefix is taken off before the number is read, so the
    sign and the range are checked on what follows it. *)
Theorem asn_prompt_prefix (lead trail : string) (c0 c1 : ascii) (n : Z) :
  all_chars Py.isspace lead = true →
  all_chars Py.isspace trail = true →
  upper_startswith_AS (String c0 (String c1 EmptyString)) = true →
  ask_asn (lead +:+ Py.str n +:+ trail) = ask_asn (Py.str n)
  ∧ ask_asn (lead +:+ String c0 (String c1 (Py.str n)) +:+ trail)
    = ask_asn (Py.str n).
Proof.
  intros Hlead Htrail Hpre.
  destruct (str_plain n) as (c & r & Hn & _ & Hplain & _).
  split.
  - unfold ask_asn at 1.
    rewrite (strip_padded lead (Py.str n) trail c r Hlead Htrail Hn Hplain).
    rewrite ask_asn_str, upper_startswith_AS_str, int_str. by rewrite Hn.
  - destruct (upper_AS_not_space c0 c1 Hpre) as [Hs0 Hs1].
    unfold ask_asn at 1.
    rewrite (strip_padded lead (String c0 (String c1 (Py.str n))) trail
               c0 (String c1 (Py.str n)) Hlead Htrail eq_refl)
      by (simpl; by rewrite Hs0, Hs1, Hplain).
    change (upper_startswith_AS (String c0 (String c1 (Py.str n))))
      with (upper_startswith_AS (String c0 (String c1 EmptyString))).
    rewrite Hpre. simpl. by rewrite ask_asn_str, int_str.
Qed.

Lemma asn_prompt_prefix_witness :
  ask_asn ("  " +:+ Py.str 6939 +:+ " ") = ask_asn (Py.str 6939)
  ∧ ask_asn ("  " +:+ String "a" (String "S" (Py.str 6939)) +:+ " ")
    = ask_asn (Py.str 6939).
Proof.
  apply (asn_prompt_prefix "  " " " "a" "S" 6939); reflexivity.
Defined.

(** ** The names file *)

Section NamesFacts.
Implicit Types (s t : string) (p : ascii → bool).

Lemma split_max_cut (sep : ascii) s t (k : nat) :
  Py.contains sep s = false →
  split_max sep (s +:+ String sep t) (S k) = s :: split_max sep t k.
Proof.
  induction s as [|d r IH].
  - intros _. change (EmptyString +:+ String sep t) with (String sep t).
    simpl. by rewrite Ascii.eqb_refl.
  - rewrite str_app_cons. simpl.
    intros [Hd Hr]%orb_false_iff. by rewrite Hd, (IH Hr).
Qed.

Lemma split_max_absent (sep : ascii) s (n : nat) :
  Py.contains sep s = false → split_max sep s n = [s].
Proof.
  destruct n as [|k]; [by destruct s|].
  induction s as [|d r IH]; [done|]. simpl.
  intros [Hd Hr]%orb_false_iff. by rewrite Hd, (IH Hr).
Qed.

Lemma all_chars_contains p s (c : ascii) :
  all_chars p s = true → p c = false → Py.contains c s = false.
Proof.
  intros Hs Hc. induction s as [|d r IH]; [done|]. simpl in *.
  apply andb_true_iff in Hs as [Hd Hr]. rewrite (IH Hr), orb_false_r.
  destruct (Ascii.eqb_spec d c) as [->|]; [congruence|done].
Qed.

(** The text of an integer is made of digits and, in front, a minus
    sign. *)
Lemma str_chars (z : Z) :
  all_chars (fun c => is_digit c || Ascii.eqb c "-") (Py.str z) = true.
Proof.
  assert (Hd : ∀ n, 0 <= n →
            all_chars (fun c => is_digit c || Ascii.eqb c "-") (Py.str_nat n) = true).
  { intros n Hn. destruct (str_nat_digits n Hn) as [Hdig _].
    eapply all_chars_impl; [|exact Hdig]. intros c ->. done. }
  unfold Py.str. destruct (Z.ltb_spec z 0); [|by apply Hd].
  simpl. apply Hd. lia.
Qed.

Lemma str_no_comma (z : Z) : Py.contains "," (Py.str z) = false.
Proof. eapply all_chars_contains; [apply str_chars|done]. Qed.

Lemma rstrip_by_head p (c : ascii) s :
  p c = false → Py.nonempty (Py.rstrip_by p (String c s)) = true.
Proof. intros Hc. simpl. destruct (Py.rstrip_by p s); by rewrite ?Hc. Qed.

(** The first field [AS<n>] of a line is read back as [n]. *)
Lemma csv_asn_field (n : Z) :
  Py.strip ("AS" +:+ Py.str n) = "AS" +:+ Py.str n
  ∧ startswith "AS" ("AS" +:+ Py.str n) = true
  ∧ Py.int (drop2 ("AS" +:+ Py.str n)) = Some n.
Proof.
  destruct (str_plain n) as (c & r & Hn & _ & Hplain & _).
  split; [|split].
  - unfold Py.strip.
    assert (Hall : all_chars (fun c => negb (Py.isspace c)) ("AS" +:+ Py.str n) = true)
      by (simpl; exact Hplain).
    destruct (strip_by_plain Py.isspace _ Hall) as [Hl Hr]. by rewrite Hl, Hr.
  - reflexivity.
  - simpl. apply int_str.
Qed.

Lemma csv_line_nonempty (n : Z) (t : string) :
  Py.nonempty (Py.strip ("AS" +:+ Py.str n +:+ t)) = true.
Proof.
  unfold Py.strip. change ("AS" +:+ Py.str n +:+ t)
    with (String "A" (String "S" (Py.str n +:+ t))).
  simpl Py.lstrip_by. by apply rstrip_by_head.
Qed.

End NamesFacts.

(** X12. A line [AS<n>,<name>,<rest>] of the names file gives the ASN [n]
    the text between the first and the second comma, stripped of white
    space and then of double quotes at both ends: what follows the second
    comma plays no part, so that a quoted name that holds a comma is cut
    at that comma; a line [AS<n>,<name>] with no second comma gives the
    same entry. *)
Theorem csv_name_field (n : Z) (name rest : string) :
  Py.contains "," name = false →
  csv_entry ("AS" +:+ Py.str n +:+ "," +:+ name +:+ "," +:+ rest)
  = Some (n, strip_quotes (Py.strip name))
  ∧ csv_entry ("AS" +:+ Py.str n +:+ "," +:+ name)
    = Some (n, strip_quotes (Py.strip name)).
Proof.
  intros Hname.
  destruct (csv_asn_field n) as (Hstrip & Hstart & Hint).
  assert (Hfield : Py.contains "," ("AS" +:+ Py.str n) = false)
    by (simpl; apply str_no_comma).
  split.
  - unfold csv_entry.
    rewrite csv_line_nonempty.
    replace ("AS" +:+ Py.str n +:+ "," +:+ name +:+ "," +:+ rest)
      with (("AS" +:+ Py.str n) +:+ String "," (name +:+ String "," rest))
      by reflexivity.
    rewrite (split_max_cut "," _ _ 1 Hfield), (split_max_cut "," _ _ 0 Hname).
    simpl length. simpl nth. cbn [Nat.leb].
    by rewrite Hstrip, Hstart, Hint.
  - unfold csv_entry.
    rewrite csv_line_nonempty.
    replace ("AS" +:+ Py.str n +:+ "," +:+ name)
      with (("AS" +:+ Py.str n) +:+ String "," name) by reflexivity.
    rewrite (split_max_cut "," _ _ 1 Hfield), (split_max_absent "," _ 1 Hname).
    simpl length. simpl nth. cbn [Nat.leb].
    by rewrite Hstrip, Hstart, Hint.
Qed.

Lemma csv_name_field_witness :
  csv_entry ("AS" +:+ Py.str 13335 +:+ "," +:+ String dquote "Cloudflare"
             +:+ "," +:+ String " " ("Inc." +:+ String dquote ",Content"))
  = Some (13335, strip_quotes (Py.strip (String dquote "Cloudflare")))
  ∧ csv_entry ("AS" +:+ Py.str 13335 +:+ "," +:+ String dquote "Cloudflare")
    = Some (13335, strip_quotes (Py.strip (String dquote "Cloudflare"))).
Proof.
  apply (csv_name_field 13335 (String dquote "Cloudflare")
           (String " " ("Inc." +:+ String dquote ",Content"))).
  reflexivity.
Defined.

Section HeaderFacts.
Implicit Types (s t : string) (p : ascii → bool).

Lemma lstrip_by_nonempty_app p s t :
  Py.nonempty (Py.lstrip_by p s) = true →
  Py.lstrip_by p (s +:+ t) = Py.lstrip_by p s +:+ t.
Proof.
  induction s as [|c r IH]; [done|]. rewrite str_app_cons. simpl.
  destruct (p c); [exact IH|done].
Qed.

Lemma lstrip_by_absent p (c : ascii) s :
  Py.contains c s = false → Py.contains c (Py.lstrip_by p s) = false.
Proof.
  induction s as [|d r IH]; [done|]. simpl.
  intros [Hd Hr]%orb_false_iff. destruct (p d); [by apply IH|].
  simpl. by rewrite Hd, Hr.
Qed.

Lemma rstrip_by_absent p (c : ascii) s :
  Py.contains c s = false → Py.contains c (Py.rstrip_by p s) = false.
Proof.
  induction s as [|d r IH]; [done|]. simpl.
  intros [Hd Hr]%orb_false_iff. specialize (IH Hr).
  destruct (Py.rstrip_by p r) as [|e u].
  - destruct (p d); [done|]. simpl. by rewrite Hd.
  - change (Py.contains c (String d (String e u)))
      with (Ascii.eqb d c || Py.contains c (String e u)).
    by rewrite Hd, IH.
Qed.

(** The lines after the first: those of the rest of the text, whatever
    the first line holds. *)
Lemma parse_asn_names_rest (first rest : string) :
  Py.nonempty (Py.strip first) = true →
  Py.contains "010" first = false →
  parse_asn_names (first +:+ nl +:+ rest)
  = match Py.rstrip_by Py.isspace rest with
    | EmptyString => ∅
    | r => foldl names_line ∅ (Py.split "010" r)
    end.
Proof.
  intros Hne Hnl. unfold parse_asn_names, Py.strip.
  assert (Hl : Py.nonempty (Py.lstrip_by Py.isspace first) = true).
  { unfold Py.strip in Hne. by destruct (Py.lstrip_by Py.isspace first). }
  rewrite (lstrip_by_nonempty_app _ _ _ Hl).
  pose proof (lstrip_by_absent Py.isspace "010" first Hnl) as Hnl'.
  set (L := Py.lstrip_by Py.isspace first) in *.
  rewrite rstrip_by_app.
  change (nl +:+ rest) with (String "010" rest). simpl Py.rstrip_by at 1.
  destruct (Py.rstrip_by Py.isspace rest) as [|a u].
  - change (Py.isspace "010") with true. cbv iota.
    rewrite split_absent by (by apply rstrip_by_absent). done.
  - rewrite split_at_first by done. done.
Qed.

End HeaderFacts.

(** X13. The first line of the names file is passed over whatever it
    holds: two files that differ in their first line only give the same
    names.  A file that starts with an entry, without a header line,
    loses that entry. *)
Theorem asn_names_first_line_dropped (first first' rest : string) :
  Py.nonempty (Py.strip first) = true → Py.contains "010" first = false →
  Py.nonempty (Py.strip first') = true → Py.contains "010" first' = false →
  download_asn_names (Ok (first +:+ nl +:+ rest))
  = download_asn_names (Ok (first' +:+ nl +:+ rest)).
Proof.
  intros H1 H2 H1' H2'. unfold download_asn_names.
  by rewrite !parse_asn_names_rest.
Qed.

Lemma asn_names_first_line_dropped_witness :
  download_asn_names (Ok ("AS13335,Cloudflare,Content" +:+ nl +:+ "AS15169,Google,Content"))
  = download_asn_names (Ok ("asn,name,class" +:+ nl +:+ "AS15169,Google,Content")).
Proof.
  apply (asn_names_first_line_dropped "AS13335,Cloudflare,Content" "asn,name,class"
           "AS15169,Google,Content"); reflexivity.
Defined.

Lemma names_line_lookup (m : gmap Z string) (line : string) (asn : Z) (name : string) :
  names_line m line !! asn = Some name ↔
  csv_entry line = Some (asn, name)
  ∨ (m !! asn = Some name ∧ ∀ x, csv_entry line ≠ Some (asn, x)).
Proof.
  unfold names_line. destruct (csv_entry line) as [[a x]|].
  - destruct (decide (a = asn)) as [->|Hne].
    + rewrite lookup_insert_eq. split.
      * intros [= ->]. by left.
      * intros [[= ->]|[_ Hno]]; [done|]. by destruct (Hno x).
    + rewrite lookup_insert_ne by done. split.
      * intros Hm. right. split; [done|]. intros y [= ? _]. done.
      * intros [[= ? _]|[Hm _]]; done.
  - split; [intros Hm; right; by split|]. by intros [?|[Hm _]].
Qed.

Lemma names_lines_lookup (lines : list string) (asn : Z) (name : string) :
  foldl names_line ∅ lines !! asn = Some name ↔
  ∃ before line after,
    lines = before ++ line :: after
    ∧ csv_entry line = Some (asn, name)
    ∧ Forall (fun l => ∀ x, csv_entry l ≠ Some (asn, x)) after.
Proof.
  induction lines as [|last front IH] using rev_ind.
  - simpl. rewrite lookup_empty. split; [done|].
    intros (before & line & after & Heq & _). by destruct before.
  - rewrite foldl_snoc, names_line_lookup, IH. split.
    + intros [Hlast|[(before & line & after & -> & Hline & Hafter) Hno]].
      * exists front, last, []. by repeat split.
      * exists before, line, (after ++ [last]).
        split; [by rewrite <- app_assoc|]. split; [done|].
        apply Forall_app. split; [done|]. by apply Forall_singleton.
    + intros (before & line & after & Heq & Hline & Hafter).
      destruct after as [|x after _] using rev_ind.
      * apply app_inj_tail in Heq as [-> ->]. by left.
      * rewrite app_comm_cons, app_assoc in Heq.
        apply app_inj_tail in Heq as [-> ->].
        apply Forall_app in Hafter as [Hafter Hx].
        rewrite Forall_singleton in Hx.
        right. split; [by exists before, line, after|exact Hx].
Qed.

(** X14. Of the lines that name an ASN, the last one gives the name: the
    dict [download_asn_names] returns has the name [name] for [asn]
    exactly when some line after the first gives that entry and no line
    after it gives an entry for [asn]; the lines that give no entry, and
    those of other ASNs, change nothing for [asn]. *)
Theorem asn_names_last_entry (text : string) (asn : Z) (name : string) :
  download_asn_names (Ok text) !! asn = Some name ↔
  ∃ before line after,
    tail (Py.split "010" (Py.strip text)) = before ++ line :: after
    ∧ csv_entry line = Some (asn, name)
    ∧ Forall (fun l => ∀ x, csv_entry l ≠ Some (asn, x)) after.
Proof. apply names_lines_lookup. Qed.

(** ** [get_asn_info] *)

Lemma asn_info_lines_cons (target_asn : Z) (line : string) (rest : list string) :
  asn_info_lines target_asn (line :: rest)
  = if Py.nonempty (Py.strip line) then
      if (7 <=? length (Py.split "|" line))%nat then
        if String.eqb (Py.strip (nth 0 (Py.split "|" line) EmptyString))
                      (Py.str target_asn)
        then Some (Py.strip (nth 6 (Py.split "|" line) EmptyString))
        else asn_info_lines target_asn rest
      else asn_info_lines target_asn rest
    else asn_info_lines target_asn rest.
Proof. reflexivity. Qed.

Lemma asn_info_lines_match (target_asn : Z) (line : string) (rest : list string) :
  asn_info_lines target_asn (line :: rest)
  = if info_match target_asn line
    then Some (Py.strip (nth 6 (Py.split "|" line) EmptyString))
    else asn_info_lines target_asn rest.
Proof.
  rewrite asn_info_lines_cons. unfold info_match.
  destruct (Py.nonempty (Py.strip line)); [|done].
  by destruct (7 <=? length (Py.split "|" line))%nat.
Qed.

Lemma asn_info_lines_none (target_asn : Z) (lines : list string) :
  Forall (fun l => info_match target_asn l = false) lines →
  asn_info_lines target_asn lines = None.
Proof.
  induction 1 as [|l rest Hl _ IH]; [done|].
  by rewrite asn_info_lines_match, Hl.
Qed.

Lemma asn_info_lines_first (target_asn : Z) (before after : list string)
  (line : string) :
  Forall (fun l => info_match target_asn l = false) before →
  info_match target_asn line = true →
  asn_info_lines target_asn (before ++ line :: after)
  = Some (Py.strip (nth 6 (Py.split "|" line) EmptyString)).
Proof.
  intros Hbefore Hline. induction Hbefore as [|l rest Hl _ IH]; simpl app.
  - by rewrite asn_info_lines_match, Hline.
  - by rewrite asn_info_lines_match, Hl.
Qed.

Lemma info_match_record (target_asn : Z) (line : string) :
  info_match target_asn line = true → record_asn line = Some target_asn.
Proof.
  unfold info_match, record_asn.
  intros [[-> ->]%andb_true_iff Heq%String.eqb_eq]%andb_true_iff.
  rewrite Heq. apply int_str.
Qed.

(** X15. [get_asn_info] never fails and always returns the target as
    [asn].  Its name is the fallback [AS<target>] when the whois query
    fails, when the answer is empty, and when no line of the answer
    matches; when a line matches, the name is the seventh field,
    stripped, of the first line that does.  A line matches when it is not
    blank, has at least seven fields, and its first field, stripped, is
    the text of the target; such a line is one the classification loop
    reads as the target. *)
Theorem asn_info_name_source (send : string → result string) (target_asn : Z) :
  info_asn (get_asn_info send target_asn) = target_asn
  ∧ (∀ e, send (query_string ("as" +:+ Py.str target_asn)) = Raise e →
          info_name (get_asn_info send target_asn) = "AS" +:+ Py.str target_asn)
  ∧ (∀ result,
       send (query_string ("as" +:+ Py.str target_asn)) = Ok result →
       result = EmptyString
       ∨ Forall (fun l => info_match target_asn l = false) (lines_of result) →
       info_name (get_asn_info send target_asn) = "AS" +:+ Py.str target_asn)
  ∧ (∀ result before line after,
       send (query_string ("as" +:+ Py.str target_asn)) = Ok result →
       lines_of result = before ++ line :: after →
       Forall (fun l => info_match target_asn l = false) before →
       info_match target_asn line = true →
       info_name (get_asn_info send target_asn)
       = Py.strip (nth 6 (Py.split "|" line) EmptyString)
       ∧ record_asn line = Some target_asn).
Proof.
  unfold get_asn_info, whois_query.
  split; [|split; [|split]].
  - destruct (send _) as [result|e]; simpl.
    + by destruct (if Py.nonempty result then _ else _).
    + done.
  - by intros e ->.
  - intros result -> [->|Hnone]; [done|].
    destruct (Py.nonempty result); [|done].
    unfold lines_of in Hnone. by rewrite (asn_info_lines_none _ _ Hnone).
  - intros result before line after -> Hlines Hbefore Hline.
    split; [|by apply info_match_record].
    destruct result as [|c r].
    { destruct before as [|l before]; [|by destruct before].
      injection Hlines as <- _. done. }
    cbn [Py.nonempty]. unfold lines_of in Hlines.
    by rewrite Hlines, (asn_info_lines_first _ _ _ _ Hbefore Hline).
Qed.

(** ** The reports *)

Lemma str_app_inv_head (s t u : string) : s +:+ t = s +:+ u → t = u.
Proof.
  induction s as [|c r IH]; [done|]. rewrite !str_app_cons.
  intros [= H]. by apply IH.
Qed.

Lemma sorted_length (s : gset Z) : length (sorted s) = size s.
Proof.
  unfold sorted. by rewrite (Permutation_length (merge_sort_Permutation Z.le (elements s))).
Qed.

Lemma report_entries_length (asn_names : gmap Z string) (l : list Z) :
  length (flat_map (report_entry asn_names) l) = (2 * length l)%nat.
Proof. induction l as [|a l IH]; [done|]. simpl. rewrite IH. lia. Qed.

(** X16. The two reports never share a file name, so that the second
    [open] does not truncate the first report; each report is written
    with five header writes and two writes for each ASN of its set; and
    the number in the line [Total:] of a header is the number of entries
    that follow it. *)
Theorem report_files_consistent (target_asn : Z) (c : clock)
  (peers non_peers : gset Z) (asn_names : gmap Z string) :
  peers_filename target_asn c ≠ non_peers_filename target_asn c
  ∧ length (peers_writes target_asn c peers asn_names) = (5 + 2 * size peers)%nat
  ∧ length (non_peers_writes target_asn c non_peers asn_names)
    = (5 + 2 * size non_peers)%nat
  ∧ nth 4 (peers_writes target_asn c peers asn_names) EmptyString
    = "Total: " +:+ Py.str (Z.of_nat (length (sorted peers))) +:+ nl +:+ nl
  ∧ nth 4 (non_peers_writes target_asn c non_peers asn_names) EmptyString
    = "Total: " +:+ Py.str (Z.of_nat (length (sorted non_peers))) +:+ nl +:+ nl.
Proof.
  split; [|split; [|split; [|split]]].
  - unfold peers_filename, non_peers_filename. intros Heq.
    apply (str_app_inv_head "AS") in Heq.
    apply str_app_inv_head in Heq. discriminate Heq.
  - unfold peers_writes. rewrite length_app, report_entries_length, sorted_length.
    reflexivity.
  - unfold non_peers_writes. rewrite length_app, report_entries_length, sorted_length.
    reflexivity.
  - by rewrite sorted_length.
  - by rewrite sorted_length.
Qed.

(** ** The lines of the table *)

Section TableCount.
Variable loads : string → option pyval.

Lemma table_line_step (st st' : gmap pykey Z * nat) (line : string) :
  table_line loads st line = Ok st' →
  st' = st ∨ ∃ k n, st' = (<[k := n]> st.1, S st.2).
Proof.
  unfold table_line. destruct (Py.nonempty (Py.strip line)); [|intros [= <-]; by left].
  destruct (loads line) as [data|]; [|intros [= <-]; by left].
  destruct (get "CIDR" data) as [cidr|]; simpl; [|done].
  destruct (get "ASN" data) as [asn|]; simpl; [|done].
  destruct (truthy cidr && truthy asn); [|intros [= <-]; by left].
  destruct (int_of asn) as [n|]; simpl; [|done].
  destruct (key_of cidr) as [k|]; simpl; [|done].
  intros [= <-]. right. by exists k, n.
Qed.

Lemma table_lines_count (lines : list string) (st st' : gmap pykey Z * nat) :
  table_lines loads st lines = Ok st' →
  (size st'.1 + st.2 <= size st.1 + st'.2)%nat
  ∧ (st.2 <= st'.2 <= st.2 + length lines)%nat.
Proof.
  revert st. induction lines as [|line rest IH]; intros st; simpl.
  - intros [= <-]. lia.
  - destruct (table_line loads st line) as [st1|] eqn:Hline; simpl; [|done].
    intros Hrest. destruct (IH st1 Hrest) as [Hsize Hcount].
    apply table_line_step in Hline as [->|(k & n & ->)]; [lia|].
    simpl in *.
    pose proof (map_size_insert k n st.1) as Hins.
    destruct (st.1 !! k); unfold id in Hins; lia.
Qed.

End TableCount.

(** X17. The count [download_table] logs as parsed is the number of
    records stored, not the number of lines or of prefixes: the table has
    at most that many prefixes (fewer when a prefix comes twice), and the
    count is at most the number of lines. *)
Theorem table_count_bounds (loads : string → option pyval) (text : string)
  (table : gmap pykey Z) (line_count : nat) :
  parse_table loads text = Ok (table, line_count) →
  download_table loads (Ok text) = table
  ∧ (size table <= line_count)%nat
  ∧ (line_count <= length (Py.split "010" (Py.strip text)))%nat.
Proof.
  intros Hparse. split.
  - unfold download_table. simpl. by rewrite Hparse.
  - destruct (table_lines_count loads _ _ _ Hparse) as [Hsize Hcount].
    simpl in *. rewrite map_size_empty in Hsize. lia.
Qed.

Lemma table_count_bounds_witness :
  download_table json_loads (Ok duplicate_table_text) = {[ KStr "1.2.3.0/24" := 64501 ]}
  ∧ (size ({[ KStr "1.2.3.0/24" := 64501%Z ]} : gmap pykey Z) <= 2)%nat
  ∧ (2 <= length (Py.split "010" (Py.strip duplicate_table_text)))%nat.
Proof.
  apply (table_count_bounds json_loads duplicate_table_text
           {[ KStr "1.2.3.0/24" := 64501 ]} 2).
  vm_cast_no_check
    (eq_refl (Ok ({[ KStr "1.2.3.0/24" := 64501 ]}, 2%nat) : result (gmap pykey Z * nat))).
Defined.

(** X18. A line that is blank, a line that is no JSON, and a line that
    decodes to an object without a [CIDR] or without an [ASN] field are
    passed over wherever they stand: the table and the count, or the
    exception a later line raises, are those of the lines without it. *)
Theorem skipped_lines_ignored (loads : string → option pyval)
  (before after : list string) (line : string) (st : gmap pykey Z * nat) :
  Py.nonempty (Py.strip line) = false
  ∨ loads line = None
  ∨ (∃ items, loads line = Some (PDict items)
              ∧ (assoc_last "CIDR" items = None ∨ assoc_last "ASN" items = None)) →
  table_lines loads st (before ++ line :: after)
  = table_lines loads st (before ++ after).
Proof.
  intros Hskip. apply table_lines_skip. intros st'.
  destruct Hskip as [Hblank|Hskip].
  - unfold table_line. by rewrite Hblank.
  - by apply table_line_skipped.
Qed.

Lemma skipped_lines_ignored_witness :
  table_lines json_loads (∅, O)
    ([table_record "1.2.3.0/24" "64500"] ++ "not a record"
       :: [table_record "1.2.3.0/24" "64501"])
  = table_lines json_loads (∅, O)
      ([table_record "1.2.3.0/24" "64500"] ++ [table_record "1.2.3.0/24" "64501"]).
Proof.
  apply (skipped_lines_ignored json_loads [table_record "1.2.3.0/24" "64500"]
           [table_record "1.2.3.0/24" "64501"] "not a record" (∅, O)).
  right. left. reflexivity.
Defined.

(** ** The log *)

Lemma repeat_str_length (n : nat) (s : string) :
  String.length (repeat_str n s) = (n * String.length s)%nat.
Proof. induction n as [|k IH]; [done|]. simpl. rewrite str_app_length, IH. lia. Qed.

Lemma center_shape (width : nat) (title : string) :
  (String.length title <= width)%nat → Nat.even width = true →
  ∃ l r, center width title = repeat_str l " " +:+ title +:+ repeat_str r " "
         ∧ (l + String.length title + r = width)%nat ∧ (l <= r <= l + 1)%nat.
Proof.
  intros Hlen Heven. unfold center.
  destruct (Nat.leb_spec width (String.length title)) as [Hle|Hlt].
  - exists O, O. split; [|lia]. cbn [repeat_str].
    change (EmptyString +:+ title +:+ EmptyString) with (title +:+ EmptyString).
    by rewrite str_app_nil_r.
  - rewrite <- Nat.negb_odd in Heven. apply negb_true_iff in Heven.
    rewrite Heven, andb_false_r, Nat.add_0_r.
    exists ((width - String.length title) / 2)%nat,
           (width - String.length title - (width - String.length title) / 2)%nat.
    split; [done|].
    pose proof (Nat.div_mod_eq (width - String.length title) 2) as Hdiv.
    pose proof (Nat.mod_upper_bound (width - String.length title) 2) as Hmod.
    lia.
Qed.

(** X19. [log] prints a message only when its level is at most the debug
    level, indented by two spaces for each level above 1.  At such a
    level [log_separator] prints three lines, a rule of 80 [=] signs, the
    title and the rule again, all with that indentation; a title of at
    most 80 characters stands in a field of 80 with the space on its
    left equal to that on its right or one less, and a longer title is
    printed as it is.  At a level above the debug level nothing is
    printed. *)
Theorem log_separator_shape (debug_level level : nat) (title : string) :
  (level <= debug_level)%nat →
  (∀ message, log debug_level message level
              = [repeat_str (level - 1) "  " +:+ message])
  ∧ log_separator debug_level title level
    = [ repeat_str (level - 1) "  " +:+ repeat_str 80 "=";
        repeat_str (level - 1) "  " +:+ center 80 title;
        repeat_str (level - 1) "  " +:+ repeat_str 80 "=" ]
  ∧ String.length (center 80 title) = Nat.max 80 (String.length title)
  ∧ ((String.length title <= 80)%nat →
     ∃ l r, center 80 title = repeat_str l " " +:+ title +:+ repeat_str r " "
            ∧ (l + String.length title + r = 80)%nat ∧ (l <= r <= l + 1)%nat)
  ∧ ((80 <= String.length title)%nat → center 80 title = title)
  ∧ (∀ debug message, (debug < level)%nat →
       log debug message level = [] ∧ log_separator debug title level = []).
Proof.
  intros Hlevel.
  assert (Hlog : ∀ message, log debug_level message level
                            = [repeat_str (level - 1) "  " +:+ message]).
  { intros message. unfold log. by rewrite (proj2 (Nat.leb_le _ _) Hlevel). }
  split; [exact Hlog|]. split; [|split; [|split; [|split]]].
  - unfold log_separator. rewrite (proj2 (Nat.leb_le _ _) Hlevel).
    by rewrite !Hlog.
  - destruct (Nat.le_gt_cases (String.length title) 80) as [Hle|Hgt].
    + destruct (center_shape 80 title Hle eq_refl) as (l & r & -> & Hsum & _).
      rewrite !str_app_length, !repeat_str_length. simpl String.length. lia.
    + unfold center. destruct (Nat.leb_spec 80 (String.length title)); lia.
  - intros Hle. by apply center_shape.
  - intros Hge. unfold center. by rewrite (proj2 (Nat.leb_le _ _) Hge).
  - intros debug message Hlt. unfold log_separator, log.
    by rewrite (proj2 (Nat.leb_gt _ _) Hlt).
Qed.

Lemma log_separator_shape_witness :
  (∀ message, log 2 message 2 = [repeat_str (2 - 1) "  " +:+ message])
  ∧ log_separator 2 "FINAL SUMMARY" 2
    = [ repeat_str (2 - 1) "  " +:+ repeat_str 80 "=";
        repeat_str (2 - 1) "  " +:+ center 80 "FINAL SUMMARY";
        repeat_str (2 - 1) "  " +:+ repeat_str 80 "=" ]
  ∧ String.length (center 80 "FINAL SUMMARY")
    = Nat.max 80 (String.length "FINAL SUMMARY")
  ∧ ((String.length "FINAL SUMMARY" <= 80)%nat →
     ∃ l r, center 80 "FINAL SUMMARY"
            = repeat_str l " " +:+ "FINAL SUMMARY" +:+ repeat_str r " "
            ∧ (l + String.length "FINAL SUMMARY" + r = 80)%nat ∧ (l <= r <= l + 1)%nat)
  ∧ ((80 <= String.length "FINAL SUMMARY")%nat
     → center 80 "FINAL SUMMARY" = "FINAL SUMMARY")
  ∧ (∀ debug message, (debug < 2)%nat →
       log debug message 2 = [] ∧ log_separator debug "FINAL SUMMARY" 2 = []).
Proof.
  apply (log_separator_shape 2 2 "FINAL SUMMARY"). lia.
Defined.

(** ** More on [get_related_asns] and [main] *)

(** X20. Routes added to the table never take a related ASN away: on
    tables of string keys, the set computed on a table is included in
    the set computed on any table that extends it. *)
Theorem related_monotone (target_asn : Z) (t t' : gmap string Z) :
  t ⊆ t' →
  ∃ related related',
    get_related_asns target_asn (str_table t) = Ok related
    ∧ get_related_asns target_asn (str_table t') = Ok related'
    ∧ related ⊆ related'.
Proof.
  intros Hsub.
  destruct (get_related_asns_str target_asn t) as (n1 & r1 & _ & Hr1 & Hn1 & H1).
  destruct (get_related_asns_str target_asn t') as (n2 & r2 & _ & Hr2 & Hn2 & H2).
  exists r1, r2. split; [done|]. split; [done|].
  intros a (p & n & Hp & Hne & Hnet & Hin)%H1. apply H2.
  exists p, n. split; [by eapply lookup_weaken|]. split; [done|]. split; [done|].
  apply Hn1 in Hin as (q & Hq & Hqn). apply Hn2. exists q.
  split; [by eapply lookup_weaken|done].
Qed.

Lemma related_monotone_witness :
  ∃ related related',
    get_related_asns 64500 (str_table example_table) = Ok related
    ∧ get_related_asns 64500
        (str_table (<["1.2.200.0/24" := 64999]> example_table)) = Ok related'
    ∧ related ⊆ related'.
Proof.
  apply (related_monotone 64500 example_table
           (<["1.2.200.0/24" := 64999]> example_table)).
  apply insert_subseteq. reflexivity.
Defined.

(** X21. A flag given alone is not used: with [--asn] and no
    [--useragent], or with [--useragent] and no [--asn], [main] asks both
    questions at the terminal and goes on as it does with no flag at
    all. *)
Theorem lone_flag_ignored (loads : string → option pyval) (n : Z)
  (user_agent : string) (debug : nat) (stdin : list string)
  (connectivity : bool) (w : world) :
  main loads {| arg_asn := Some n; arg_useragent := None; arg_debug := debug |}
       stdin connectivity w
  = main loads {| arg_asn := None; arg_useragent := None; arg_debug := debug |}
         stdin connectivity w
  ∧ main loads {| arg_asn := None; arg_useragent := Some user_agent;
                  arg_debug := debug |}
         stdin connectivity w
    = main loads {| arg_asn := None; arg_useragent := None; arg_debug := debug |}
           stdin connectivity w
  ∧ (get_user_input stdin = None →
     main loads {| arg_asn := Some n; arg_useragent := None; arg_debug := debug |}
          stdin connectivity w = (1, None)).
Proof.
  split; [reflexivity|]. split; [reflexivity|].
  intros Hin. unfold main. simpl. by rewrite Hin.
Qed.
